(** * The Direct3D 11 live-video renderer of the demod3d11 sample

    A shallow embedding of [CD3D11Render] (d3d11render.cpp, d3d11render.h)
    and of the properties its design document states about it.

    Conventions of the embedding.
    - [unsigned] is a [Z] in [0, 2^32) and every operation that can leave
      that range is followed by [wrap32]; [int] is a [Z].
    - An [HRESULT] is a [Z]; [FAILED hr] is [hr < 0] as in <winerror.h>.
    - [float] and [double] values are rationals; every arithmetic operation
      is the exact operation followed by rounding to nearest (ties to even)
      at 24, respectively 53, significant bits.  The exponent range is not
      modelled: no operand of this program comes near it.
    - Direct3D, the camera SDK, the clock and the window are the
      environment: each call the code makes to them is recorded as an
      [event], and the value the call returns is read from an oracle record
      handed to the function.
    - The two threads interleave at the granularity of the public calls and
      of the stretches of [Loop] between two blocking points. *)

From Stdlib Require Import ZArith QArith Qabs Qround Qminmax List Bool String Ascii Lia Lqa.
From Stdlib Require Qcanon.
From Stdlib Require Import Floats.SpecFloat.
Import ListNotations.

Local Open Scope Z_scope.

(** ** Machine integers *)

Module Machine.

Definition wrap32 (x : Z) : Z := x mod 2 ^ 32.

Definition INT_MIN : Z := - 2 ^ 31.

Definition HRESULT := Z.
Definition S_OK : HRESULT := 0.
Definition E_FAIL : HRESULT := -2147467259.   (* 0x80004005 *)
Definition FAILED (hr : HRESULT) : bool := hr <? 0.
Definition SUCCEEDED (hr : HRESULT) : bool := 0 <=? hr.

End Machine.
Import Machine.

(** ** The packed resize register

    [Resize()] stores [0x80000000 | (cx << 16) | cy] and [Loop] reads the
    two dimensions back with [(val >> 16) & 0x7fff] and [val & 0x7fff]. *)

Module Register.

Definition PENDING : Z := 0x80000000.

Definition pack (cx cy : Z) : Z :=
  wrap32 (Z.lor (Z.lor PENDING (Z.shiftl cx 16)) cy).

Definition pending (val : Z) : bool := negb (Z.land val PENDING =? 0).

Definition width_of (val : Z) : Z := Z.land (Z.shiftr val 16) 0x7fff.
Definition height_of (val : Z) : Z := Z.land val 0x7fff.

Definition unpack (val : Z) : Z * Z := (width_of val, height_of val).

End Register.

(** ** Binary floating point

    A [float] or [double] value is the rational it denotes.  [round p x] is
    the nearest rational with [p] significant bits, ties going to the even
    significand: the result every IEEE 754 operation returns for the exact
    value [x] when it neither overflows nor underflows. *)

Module Float.

(** [ilog2 n d], for [n, d > 0], is the exponent [e] with
    [2^e <= n/d < 2^(e+1)]. *)
Definition ilog2 (n d : Z) : Z :=
  let e0 := Z.log2 n - Z.log2 d in
  if (if 0 <=? e0 then d * 2 ^ e0 <=? n else d <=? n * 2 ^ (- e0))
  then e0 else e0 - 1.

(** The integer nearest to [N/D], [D > 0]; a tie goes to the even one. *)
Definition rne (N D : Z) : Z :=
  let q := N / D in
  match 2 * (N mod D) ?= D with
  | Lt => q
  | Gt => q + 1
  | Eq => if Z.even q then q else q + 1
  end.

Definition round_pos (p n d : Z) : Q :=
  let k := p - 1 - ilog2 n d in
  if 0 <=? k
  then Qred (Qmake (rne (n * 2 ^ k) d) (Z.to_pos (2 ^ k)))
  else Qred (inject_Z (rne n (d * 2 ^ (- k)) * 2 ^ (- k))).

Definition round (p : Z) (x : Q) : Q :=
  match Qnum x with
  | Z0 => 0%Q
  | Zpos n => round_pos p (Zpos n) (Zpos (Qden x))
  | Zneg n => Qopp (round_pos p (Zpos n) (Zpos (Qden x)))
  end.

(** The unit roundoff at precision [p]. *)
Definition eps (p : Z) : Q := 1 # Z.to_pos (2 ^ p).

(** Single precision: the C++ type [float]. *)
Definition float := Q.
Definition of_int (n : Z) : float := round 24 (inject_Z n).    (* (float)n *)
(** [x / y] for a divisor other than zero, where the quotient is finite;
    a quotient by [0.0f] is an infinity or a NaN, which this [float] does
    not hold. *)
Definition fdiv (x y : float) : float := round 24 (x / y)%Q.   (* x / y *)
Definition fmul (x y : float) : float := round 24 (x * y)%Q.   (* x * y *)
Definition fltb (x y : float) : bool := negb (Qle_bool y x).   (* x < y *)
(** [__min(a, b)] is the macro [(((a) < (b)) ? (a) : (b))]. *)
Definition fmin (a b : float) : float := if fltb a b then a else b.
(** [static_cast<int>(x)] discards the fractional part.  This is the
    conversion for a value within the range of [int]; outside it the
    conversion is undefined in C++. *)
Definition to_int (x : float) : Z := Z.quot (Qnum x) (Zpos (Qden x)).

(** Double precision: the C++ type [double]. *)
Definition double := Q.
Definition double_of_int (n : Z) : double := round 53 (inject_Z n).
Definition ddiv (x y : double) : double := round 53 (x / y)%Q.

End Float.

Import Float.

(** ** Text produced by [sprintf]

    [sprintf(scale, "%.8f", x)] writes the decimal expansion of the exact
    value of [x] rounded to eight fractional digits. *)

Module Text.

Definition digit (d : Z) : ascii := ascii_of_nat (48 + Z.to_nat d).

(** The [w] low decimal digits of [n], most significant first, before [acc]. *)
Fixpoint fixed (w : nat) (n : Z) (acc : string) : string :=
  match w with
  | O => acc
  | S w' => fixed w' (n / 10) (String (digit (n mod 10)) acc)
  end%string.

Fixpoint decimal_fuel (fuel : nat) (n : Z) (acc : string) : string :=
  match fuel with
  | O => acc
  | S f =>
      let acc' := String (digit (n mod 10)) acc in
      if n <? 10 then acc' else decimal_fuel f (n / 10) acc'
  end.

(** The decimal numeral of [n >= 0]; [n] has at most [log2 n + 1] digits. *)
Definition decimal (n : Z) : string :=
  decimal_fuel (S (Z.to_nat (Z.log2 n))) n EmptyString.

(** ["%.8f"] *)
Definition sprintf_8f (x : double) : string :=
  let N := rne (Z.abs (Qnum x) * 10 ^ 8) (Zpos (Qden x)) in
  let sign := if Qnum x <? 0 then "-"%string else EmptyString in
  let whole := decimal (N / 10 ^ 8) in
  let fraction := fixed 8 (N mod 10 ^ 8) EmptyString in
  (sign ++ whole ++ "." ++ fraction)%string.

(** The number a decimal literal [ddd.ddd] denotes, as the shader
    compiler reads the text of a macro. *)
Definition digit_value (c : ascii) : option Z :=
  let n := Z.of_nat (nat_of_ascii c) in
  if (48 <=? n) && (n <=? 57) then Some (n - 48) else None.

Fixpoint literal_digits (s : string) (num den : Z) (frac : bool) : option Q :=
  match s with
  | EmptyString => Some (Qred (num # Z.to_pos den))
  | String c s' =>
      if Ascii.eqb c "."%char
      then (if frac then None else literal_digits s' num den true)
      else match digit_value c with
           | None => None
           | Some d =>
               literal_digits s' (num * 10 + d) (if frac then den * 10 else den) frac
           end
  end.

Definition literal_value (s : string) : option Q :=
  match s with
  | EmptyString => None
  | _ => literal_digits s 0 1 false
  end.

End Text.

(** ** The environment: Direct3D, the camera and the gate event *)

Inductive DXGI_FORMAT : Type :=
| DXGI_FORMAT_R8_UNORM
| DXGI_FORMAT_R16_UNORM
| DXGI_FORMAT_R8G8B8A8_UNORM
| DXGI_FORMAT_R10G10B10A2_UNORM
| DXGI_FORMAT_R16G16B16A16_UNORM.

Record D3D11_VIEWPORT : Type := {
  TopLeftX : float;
  TopLeftY : float;
  Width : float;
  Height : float;
  MinDepth : float;
  MaxDepth : float
}.

(** Every call that leaves the class, with the arguments that matter and,
    where the code looks at it, the [HRESULT] that came back. *)
Inductive event : Type :=
| D3D11CreateDeviceAndSwapChain (fmt : DXGI_FORMAT) (hr : HRESULT)
| SetMaximumFrameLatency (n : Z)
| CreateTexture2D (w h : Z) (fmt : DXGI_FORMAT) (hr : HRESULT)
| CreateShaderResourceView (fmt : DXGI_FORMAT) (hr : HRESULT)
| D3DCompile (entry : string) (macros : list (string * string)) (hr : HRESULT)
| CreateVertexShader (hr : HRESULT)
| CreatePixelShader (hr : HRESULT)
| CreateInputLayout (hr : HRESULT)
| CreateBuffer (hr : HRESULT)
| CreateSamplerState (hr : HRESULT)
| PSSetSamplers
| IASetInputLayout
| IASetPrimitiveTopology
| IASetVertexBuffers
| VSSetShader
| PSSetShader
| CreateEvent
| StartThread
| SetEvent
| WaitForSingleObject
| ResizeCall (w h : Z)            (* the log line on entry to Resize(int, int) *)
| OMSetRenderTargets (views : Z)
| GetDesc (hr : HRESULT)
| ResizeBuffers (count w h : Z) (hr : HRESULT)
| RSSetViewports (vp : D3D11_VIEWPORT)
| Map (hr : HRESULT)
| Toupcam_PullImageWithRowPitch (bits : Z) (hr : HRESULT)
| Unmap
| GetBuffer (hr : HRESULT)
| CreateRenderTargetView (hr : HRESULT)
| ClearRenderTargetView
| PSSetShaderResources
| Draw (vertices start : Z)
| Present (interval : Z) (hr : HRESULT).

Definition trace := list event.

(** What the environment answers during one call of each function. *)
Record ResizeEnv : Type := {
  hr_GetDesc : HRESULT;
  hr_ResizeBuffers : HRESULT
}.

Record ShaderEnv : Type := {
  hr_CompileVS : HRESULT;
  hr_CreateVertexShader : HRESULT;
  hr_CompilePS : HRESULT;
  hr_CreatePixelShader : HRESULT;
  hr_CreateInputLayout : HRESULT;
  hr_CreateBuffer : HRESULT
}.

Record InitEnv : Type := {
  hr_CreateDeviceAndSwapChain : HRESULT;
  has_IDXGIDevice1 : bool;
  hr_CreateTexture2D : HRESULT;
  hr_CreateShaderResourceView : HRESULT;
  init_shaders : ShaderEnv;
  hr_CreateSamplerState : HRESULT;
  init_client : Z * Z;                 (* GetClientRect: right-left, bottom-top *)
  init_resize : ResizeEnv
}.

Record LoopEnv : Type := {
  loop_resize : ResizeEnv;
  hr_Map : HRESULT;
  hr_Pull : HRESULT;
  hr_GetBuffer : HRESULT;
  hr_CreateRenderTargetView : HRESULT;
  hr_Present : HRESULT
}.

(** ** The class *)

(** Where the worker thread stands in [Loop]. *)
Inductive position : Type :=
| AtLoopHead        (* about to test [m_loop] *)
| InWait            (* inside [WaitForSingleObject(m_evt, INFINITE)] *)
| Returned.         (* [Loop] has returned *)

Record CD3D11Render : Type := {
  m_bMono : bool;
  m_imageWidth : Z;
  m_imageHeight : Z;
  m_bitdepth : Z;
  m_windowWidth : Z;
  m_windowHeight : Z;
  m_totalFrame : Z;
  m_nFrame : Z;
  m_nTick : Z;
  m_resize : Z;
  m_loop : bool;
  m_evt : option bool;          (* [None]: nullptr; [Some b]: auto-reset event, [b]: signalled *)
  m_thrd : option position;     (* [None]: no thread *)
  viewport : option D3D11_VIEWPORT   (* the viewport bound in [m_context] *)
}.

Definition BUFFERCOUNT : Z := 2.

Definition with_window (w h : Z) (s : CD3D11Render) : CD3D11Render :=
  {| m_bMono := m_bMono s; m_imageWidth := m_imageWidth s;
     m_imageHeight := m_imageHeight s; m_bitdepth := m_bitdepth s;
     m_windowWidth := w; m_windowHeight := h;
     m_totalFrame := m_totalFrame s; m_nFrame := m_nFrame s;
     m_nTick := m_nTick s; m_resize := m_resize s; m_loop := m_loop s;
     m_evt := m_evt s; m_thrd := m_thrd s; viewport := viewport s |}.

Definition with_frames (total n tick : Z) (s : CD3D11Render) : CD3D11Render :=
  {| m_bMono := m_bMono s; m_imageWidth := m_imageWidth s;
     m_imageHeight := m_imageHeight s; m_bitdepth := m_bitdepth s;
     m_windowWidth := m_windowWidth s; m_windowHeight := m_windowHeight s;
     m_totalFrame := total; m_nFrame := n;
     m_nTick := tick; m_resize := m_resize s; m_loop := m_loop s;
     m_evt := m_evt s; m_thrd := m_thrd s; viewport := viewport s |}.

Definition with_resize (val : Z) (s : CD3D11Render) : CD3D11Render :=
  {| m_bMono := m_bMono s; m_imageWidth := m_imageWidth s;
     m_imageHeight := m_imageHeight s; m_bitdepth := m_bitdepth s;
     m_windowWidth := m_windowWidth s; m_windowHeight := m_windowHeight s;
     m_totalFrame := m_totalFrame s; m_nFrame := m_nFrame s;
     m_nTick := m_nTick s; m_resize := val; m_loop := m_loop s;
     m_evt := m_evt s; m_thrd := m_thrd s; viewport := viewport s |}.

Definition with_loop (b : bool) (s : CD3D11Render) : CD3D11Render :=
  {| m_bMono := m_bMono s; m_imageWidth := m_imageWidth s;
     m_imageHeight := m_imageHeight s; m_bitdepth := m_bitdepth s;
     m_windowWidth := m_windowWidth s; m_windowHeight := m_windowHeight s;
     m_totalFrame := m_totalFrame s; m_nFrame := m_nFrame s;
     m_nTick := m_nTick s; m_resize := m_resize s; m_loop := b;
     m_evt := m_evt s; m_thrd := m_thrd s; viewport := viewport s |}.

Definition with_evt (e : option bool) (s : CD3D11Render) : CD3D11Render :=
  {| m_bMono := m_bMono s; m_imageWidth := m_imageWidth s;
     m_imageHeight := m_imageHeight s; m_bitdepth := m_bitdepth s;
     m_windowWidth := m_windowWidth s; m_windowHeight := m_windowHeight s;
     m_totalFrame := m_totalFrame s; m_nFrame := m_nFrame s;
     m_nTick := m_nTick s; m_resize := m_resize s; m_loop := m_loop s;
     m_evt := e; m_thrd := m_thrd s; viewport := viewport s |}.

Definition with_thrd (t : option position) (s : CD3D11Render) : CD3D11Render :=
  {| m_bMono := m_bMono s; m_imageWidth := m_imageWidth s;
     m_imageHeight := m_imageHeight s; m_bitdepth := m_bitdepth s;
     m_windowWidth := m_windowWidth s; m_windowHeight := m_windowHeight s;
     m_totalFrame := m_totalFrame s; m_nFrame := m_nFrame s;
     m_nTick := m_nTick s; m_resize := m_resize s; m_loop := m_loop s;
     m_evt := m_evt s; m_thrd := t; viewport := viewport s |}.

Definition with_viewport (vp : D3D11_VIEWPORT) (s : CD3D11Render) : CD3D11Render :=
  {| m_bMono := m_bMono s; m_imageWidth := m_imageWidth s;
     m_imageHeight := m_imageHeight s; m_bitdepth := m_bitdepth s;
     m_windowWidth := m_windowWidth s; m_windowHeight := m_windowHeight s;
     m_totalFrame := m_totalFrame s; m_nFrame := m_nFrame s;
     m_nTick := m_nTick s; m_resize := m_resize s; m_loop := m_loop s;
     m_evt := m_evt s; m_thrd := m_thrd s; viewport := Some vp |}.

(** *** Member functions as computations over the object and the trace *)

Definition M (A : Type) : Type := CD3D11Render -> A * CD3D11Render * trace.

Definition ret {A} (a : A) : M A := fun s => (a, s, []).

Definition result_of {A} (r : A * CD3D11Render * trace) : A := fst (fst r).
Definition state_of {A} (r : A * CD3D11Render * trace) : CD3D11Render := snd (fst r).
Definition trace_of {A} (r : A * CD3D11Render * trace) : trace := snd r.

Definition bind {A B} (c : M A) (k : A -> M B) : M B :=
  fun s =>
    let r1 := c s in
    let r2 := k (result_of r1) (state_of r1) in
    (result_of r2, state_of r2, trace_of r1 ++ trace_of r2).

Definition get : M CD3D11Render := fun s => (s, s, []).
Definition modify (f : CD3D11Render -> CD3D11Render) : M unit := fun s => (tt, f s, []).
Definition call (e : event) : M unit := fun s => (tt, s, [e]).

Declare Scope render_scope.
Delimit Scope render_scope with render.
Notation "x <- c ;; k" := (bind c (fun x => k))
  (at level 61, c at next level, right associativity) : render_scope.
Notation "c ;; k" := (bind c (fun _ => k))
  (at level 61, right associativity) : render_scope.
Local Open Scope render_scope.

(** [CD3D11Render::CD3D11Render]; [mono], [bitdepth] and [tick] are what
    [Toupcam_get_MonoMode], [Toupcam_get_RawFormat] and [get_precise_tick]
    answer. *)
Definition constructor (mono : bool) (bitdepth tick imageWidth imageHeight : Z)
  : CD3D11Render :=
  {| m_bMono := mono; m_imageWidth := imageWidth; m_imageHeight := imageHeight;
     m_bitdepth := bitdepth;
     m_windowWidth := INT_MIN; m_windowHeight := INT_MIN;
     m_totalFrame := 0; m_nFrame := 0; m_nTick := tick;
     m_resize := 0; m_loop := true; m_evt := None; m_thrd := None;
     viewport := None |}.

(** [SetEvent(m_evt)]: a null handle is rejected and nothing is signalled. *)
Definition SetEvent_m_evt : M unit :=
  call SetEvent ;;
  modify (fun s => match m_evt s with
                   | Some _ => with_evt (Some true) s
                   | None => s
                   end).

(** [CD3D11Render::GetFrameRate]; [tick] is what [get_precise_tick] answers.
    The three reference parameters are written only when [true] is
    returned, so the result carries them in that case alone. *)
Definition GetFrameRate (tick : Z) : M (option (Z * Z * Z)) :=
  s <- get ;;
  let diff := wrap32 (tick - m_nTick s) in
  if 500 <? diff
  then
    modify (with_frames (m_totalFrame s) 0 tick) ;;
    ret (Some (m_nFrame s, diff, m_totalFrame s))   (* nFrame, nTime, nTotal *)
  else ret None.

(** The text of the [SCALE] macro built in [CreateShaders]. *)
Definition scale_macro (bitdepth : Z) : string :=
  if (bitdepth <=? 8) || (16 <=? bitdepth)
  then "1.0"%string
  else
    let denom := double_of_int (Z.shiftl 1 bitdepth - 1) in
    Text.sprintf_8f (ddiv (double_of_int 65535) denom).

(** [CD3D11Render::CreateShaders] *)
Definition CreateShaders (env : ShaderEnv) : M HRESULT :=
  s <- get ;;
  call (D3DCompile "VS" [] (hr_CompileVS env)) ;;
  if FAILED (hr_CompileVS env) then ret (hr_CompileVS env) else
  call (CreateVertexShader (hr_CreateVertexShader env)) ;;
  if FAILED (hr_CreateVertexShader env) then ret (hr_CreateVertexShader env) else
  let macro := [("MONO", if m_bMono s then "1" else "0");
                ("SCALE", scale_macro (m_bitdepth s))]%string in
  call (D3DCompile "PS" macro (hr_CompilePS env)) ;;
  if FAILED (hr_CompilePS env) then ret (hr_CompilePS env) else
  call (CreatePixelShader (hr_CreatePixelShader env)) ;;
  if FAILED (hr_CreatePixelShader env) then ret (hr_CreatePixelShader env) else
  call (CreateInputLayout (hr_CreateInputLayout env)) ;;
  if FAILED (hr_CreateInputLayout env) then ret (hr_CreateInputLayout env) else
  call (CreateBuffer (hr_CreateBuffer env)) ;;
  ret (hr_CreateBuffer env).

(** [CD3D11Render::CreateSampler] *)
Definition CreateSampler (hr : HRESULT) : M HRESULT :=
  call (CreateSamplerState hr) ;; ret hr.

(** The integers [vpX], [vpY], [vpW], [vpH] computed at the end of
    [Resize(int, int)]. *)
Definition viewport_rect (imageWidth imageHeight windowWidth windowHeight : Z)
  : Z * Z * Z * Z :=
  let scale := fmin (fdiv (of_int windowWidth) (of_int imageWidth))
                    (fdiv (of_int windowHeight) (of_int imageHeight)) in
  let vpW := to_int (fmul (of_int imageWidth) scale) in
  let vpH := to_int (fmul (of_int imageHeight) scale) in
  let vpX := Z.quot (windowWidth - vpW) 2 in
  let vpY := Z.quot (windowHeight - vpH) 2 in
  (vpX, vpY, vpW, vpH).

(** The [D3D11_VIEWPORT] built from them. *)
Definition fit_viewport (imageWidth imageHeight windowWidth windowHeight : Z)
  : D3D11_VIEWPORT :=
  let '(vpX, vpY, vpW, vpH) :=
    viewport_rect imageWidth imageHeight windowWidth windowHeight in
  {| TopLeftX := of_int vpX; TopLeftY := of_int vpY;
     Width := of_int vpW; Height := of_int vpH;
     MinDepth := 0%Q; MaxDepth := 1%Q |}.

(** [HRESULT CD3D11Render::Resize(int windowWidth, int windowHeight)].
    The buffer count, format and flags handed to [ResizeBuffers] are those
    [GetDesc] has just read back from the swap chain, hence those it was
    created with. *)
Definition Resize_int_int (env : ResizeEnv) (windowWidth windowHeight : Z) : M HRESULT :=
  call (ResizeCall windowWidth windowHeight) ;;
  modify (with_window windowWidth windowHeight) ;;
  call (OMSetRenderTargets 0) ;;
  call (GetDesc (hr_GetDesc env)) ;;
  if FAILED (hr_GetDesc env) then ret (hr_GetDesc env) else
  s <- get ;;
  call (ResizeBuffers BUFFERCOUNT (m_windowWidth s) (m_windowHeight s)
          (hr_ResizeBuffers env)) ;;
  if FAILED (hr_ResizeBuffers env) then ret (hr_ResizeBuffers env) else
  let vp := fit_viewport (m_imageWidth s) (m_imageHeight s)
              (m_windowWidth s) (m_windowHeight s) in
  modify (with_viewport vp) ;;
  call (RSSetViewports vp) ;;
  ret S_OK.

(** [void CD3D11Render::Resize()]; [(cx, cy)] is the client size that
    [GetClientRect] reports. *)
Definition Resize (cx cy : Z) : M unit :=
  s <- get ;;
  if negb (m_windowWidth s =? cx) || negb (m_windowHeight s =? cy)
  then modify (with_resize (Register.pack cx cy)) ;; SetEvent_m_evt
  else ret tt.

(** [CD3D11Render::Render] *)
Definition Render : M unit := SetEvent_m_evt.

(** [CD3D11Render::SetupRtv] *)
Definition SetupRtv (env : LoopEnv) : M bool :=
  call (GetBuffer (hr_GetBuffer env)) ;;
  if SUCCEEDED (hr_GetBuffer env)
  then
    call (CreateRenderTargetView (hr_CreateRenderTargetView env)) ;;
    if SUCCEEDED (hr_CreateRenderTargetView env)
    then call (OMSetRenderTargets 1) ;; call ClearRenderTargetView ;; ret true
    else ret false
  else ret false.

(** The bits per pixel requested from the camera. *)
Definition pull_bits (s : CD3D11Render) : Z :=
  if m_bMono s
  then (if 8 <? m_bitdepth s then 16 else 8)
  else (if 8 <? m_bitdepth s then 64 else 32).

(** One pass of [CD3D11Render::Loop] from the test of [m_loop] to the next
    point where the thread either tests [m_loop] again, blocks in
    [WaitForSingleObject], or leaves the function.  The variable [tick] is
    only logged and is left out. *)
Definition Loop_pass (env : LoopEnv) : M position :=
  s <- get ;;
  if negb (m_loop s) then ret Returned else
  let val := m_resize s in
  if Register.pending val
  then
    modify (with_resize 0) ;;
    _ <- Resize_int_int (loop_resize env) (Register.width_of val) (Register.height_of val) ;;
    ret AtLoopHead                                             (* continue *)
  else
    call (Map (hr_Map env)) ;;
    hr <- (if SUCCEEDED (hr_Map env)
           then
             call (Toupcam_PullImageWithRowPitch (pull_bits s) (hr_Pull env)) ;;
             call Unmap ;;
             ret (hr_Pull env)
           else ret (hr_Map env)) ;;
    if FAILED hr
    then call WaitForSingleObject ;; ret InWait               (* then continue *)
    else
      ok <- SetupRtv env ;;
      if ok
      then
        call PSSetShaderResources ;;
        call (Draw 4 0) ;;
        call (Present 1 (hr_Present env)) ;;
        (if SUCCEEDED (hr_Present env)
         then modify (fun s' => with_frames (wrap32 (m_totalFrame s' + 1))
                                            (wrap32 (m_nFrame s' + 1))
                                            (m_nTick s') s')
         else ret tt) ;;
        ret AtLoopHead
      else ret AtLoopHead.

(** One scheduling step of the worker thread.  A thread inside
    [WaitForSingleObject] leaves it when the event is signalled, resetting
    it (the event is auto-reset); a null handle makes the wait fail at
    once. *)
Definition worker_step (env : LoopEnv) : M unit :=
  s <- get ;;
  match m_thrd s with
  | Some AtLoopHead =>
      p <- Loop_pass env ;; modify (with_thrd (Some p))
  | Some InWait =>
      match m_evt s with
      | Some true => modify (with_evt (Some false)) ;; modify (with_thrd (Some AtLoopHead))
      | Some false => ret tt
      | None => modify (with_thrd (Some AtLoopHead))
      end
  | Some Returned => ret tt
  | None => ret tt
  end.

(** [CD3D11Render::Init] *)
Definition Init (env : InitEnv) : M bool :=
  s <- get ;;
  let scd_format := if 8 <? m_bitdepth s
                    then DXGI_FORMAT_R10G10B10A2_UNORM
                    else DXGI_FORMAT_R8G8B8A8_UNORM in
  call (D3D11CreateDeviceAndSwapChain scd_format (hr_CreateDeviceAndSwapChain env)) ;;
  if FAILED (hr_CreateDeviceAndSwapChain env) then ret false else
  (if has_IDXGIDevice1 env then call (SetMaximumFrameLatency 1) else ret tt) ;;
  let tex_format :=
    if m_bMono s
    then (if 8 <? m_bitdepth s then DXGI_FORMAT_R16_UNORM else DXGI_FORMAT_R8_UNORM)
    else (if 8 <? m_bitdepth s then DXGI_FORMAT_R16G16B16A16_UNORM
          else DXGI_FORMAT_R8G8B8A8_UNORM) in
  call (CreateTexture2D (m_imageWidth s) (m_imageHeight s) tex_format
          (hr_CreateTexture2D env)) ;;
  if FAILED (hr_CreateTexture2D env) then ret false else
  call (CreateShaderResourceView tex_format (hr_CreateShaderResourceView env)) ;;
  if FAILED (hr_CreateShaderResourceView env) then ret false else
  hr <- CreateShaders (init_shaders env) ;;
  if FAILED hr then ret false else
  hr <- CreateSampler (hr_CreateSamplerState env) ;;
  if FAILED hr then ret false else
  _ <- Resize_int_int (init_resize env) (fst (init_client env)) (snd (init_client env)) ;;
  call PSSetSamplers ;;
  call IASetInputLayout ;;
  call IASetPrimitiveTopology ;;
  call IASetVertexBuffers ;;
  call VSSetShader ;;
  call PSSetShader ;;
  call CreateEvent ;;
  modify (with_evt (Some false)) ;;
  call StartThread ;;
  modify (with_thrd (Some AtLoopHead)) ;;
  ret true.

(** The first two statements of the destructor, which ask the worker to
    leave [Loop]; the [join] that follows is the caller waiting. *)
Definition request_stop : M unit :=
  s <- get ;;
  match m_thrd s with
  | Some _ => modify (with_loop false) ;; SetEvent_m_evt
  | None => ret tt
  end.

(** ** The session: the control thread and the worker interleaved *)

Inductive action : Type :=
| CallRender
| CallResize (cx cy : Z)
| CallGetFrameRate (tick : Z)
| CallStop
| Worker (env : LoopEnv).

Definition perform (a : action) : M unit :=
  match a with
  | CallRender => Render
  | CallResize cx cy => Resize cx cy
  | CallGetFrameRate tick => _ <- GetFrameRate tick ;; ret tt
  | CallStop => request_stop
  | Worker env => worker_step env
  end.

Fixpoint run (acts : list action) : M unit :=
  match acts with
  | [] => ret tt
  | a :: rest => perform a ;; run rest
  end.

(** ** Reasoning about a computation *)

(** [wp c s Q]: running [c] from [s] ends with a result, an object and a
    trace that satisfy [Q]. *)
Definition wp {A} (c : M A) (s : CD3D11Render)
  (Q : A -> CD3D11Render -> trace -> Prop) : Prop :=
  Q (result_of (c s)) (state_of (c s)) (trace_of (c s)).

(** ** Reading a trace *)

(** The sizes with which [Resize(int, int)] was entered. *)
Definition resize_calls (t : trace) : list (Z * Z) :=
  flat_map (fun e => match e with ResizeCall w h => [(w, h)] | _ => [] end) t.

(** Work on a frame: mapping, pulling, binding a render target, drawing,
    presenting. *)
Definition is_frame_work (e : event) : bool :=
  match e with
  | Map _ | Toupcam_PullImageWithRowPitch _ _ | Unmap
  | GetBuffer _ | CreateRenderTargetView _ | ClearRenderTargetView
  | PSSetShaderResources | Draw _ _ | Present _ _ => true
  | OMSetRenderTargets n => negb (n =? 0)
  | _ => false
  end.

Definition is_pull_or_present (e : event) : bool :=
  match e with
  | Toupcam_PullImageWithRowPitch _ _ | Present _ _ => true
  | _ => false
  end.

Definition is_draw_or_present (e : event) : bool :=
  match e with
  | Draw _ _ | Present _ _ => true
  | _ => false
  end.

(** A call reported failure. *)
Definition is_failed_map_or_pull (e : event) : bool :=
  match e with
  | Map hr | Toupcam_PullImageWithRowPitch _ hr => FAILED hr
  | _ => false
  end.

Definition is_successful_present (e : event) : bool :=
  match e with
  | Present _ hr => SUCCEEDED hr
  | _ => false
  end.

(** The calls that create a device object. *)
Definition is_creation (e : event) : bool :=
  match e with
  | D3D11CreateDeviceAndSwapChain _ _ | SetMaximumFrameLatency _
  | CreateTexture2D _ _ _ _ | CreateShaderResourceView _ _
  | D3DCompile _ _ _ | CreateVertexShader _ | CreatePixelShader _
  | CreateInputLayout _ | CreateBuffer _ | CreateSamplerState _ => true
  | _ => false
  end.

Definition is_SetEvent (e : event) : bool :=
  match e with SetEvent => true | _ => false end.

(** ** What the environment answered *)

(** Some creation step of [Init] reports failure. *)
Definition shader_creation_fails (env : ShaderEnv) : bool :=
  FAILED (hr_CompileVS env) || FAILED (hr_CreateVertexShader env)
  || FAILED (hr_CompilePS env) || FAILED (hr_CreatePixelShader env)
  || FAILED (hr_CreateInputLayout env) || FAILED (hr_CreateBuffer env).

Definition creation_fails (env : InitEnv) : bool :=
  FAILED (hr_CreateDeviceAndSwapChain env)
  || FAILED (hr_CreateTexture2D env)
  || FAILED (hr_CreateShaderResourceView env)
  || shader_creation_fails (init_shaders env)
  || FAILED (hr_CreateSamplerState env).

(** [GetDesc] or [ResizeBuffers] reports failure. *)
Definition resize_fails (env : ResizeEnv) : bool :=
  FAILED (hr_GetDesc env) || FAILED (hr_ResizeBuffers env).

(** Every call of a pass succeeds. *)
Definition all_succeed (env : LoopEnv) : bool :=
  SUCCEEDED (hr_Map env) && SUCCEEDED (hr_Pull env)
  && SUCCEEDED (hr_GetBuffer env) && SUCCEEDED (hr_CreateRenderTargetView env)
  && SUCCEEDED (hr_Present env).

(** ** A sample session *)

(** A session after a successful [Init] in an 800 x 600 window showing a
    1280 x 960 colour image of 8 bits. *)
Definition resize_ok : ResizeEnv :=
  {| hr_GetDesc := S_OK; hr_ResizeBuffers := S_OK |}.

Definition init_ok : InitEnv :=
  {| hr_CreateDeviceAndSwapChain := S_OK; has_IDXGIDevice1 := true;
     hr_CreateTexture2D := S_OK; hr_CreateShaderResourceView := S_OK;
     init_shaders :=
       {| hr_CompileVS := S_OK; hr_CreateVertexShader := S_OK;
          hr_CompilePS := S_OK; hr_CreatePixelShader := S_OK;
          hr_CreateInputLayout := S_OK; hr_CreateBuffer := S_OK |};
     hr_CreateSamplerState := S_OK; init_client := (800, 600);
     init_resize := resize_ok |}.

Definition pass_ok : LoopEnv :=
  {| loop_resize := resize_ok;
     hr_Map := S_OK; hr_Pull := S_OK; hr_GetBuffer := S_OK;
     hr_CreateRenderTargetView := S_OK; hr_Present := S_OK |}.

Definition pass_no_frame : LoopEnv :=
  {| loop_resize := resize_ok;
     hr_Map := S_OK; hr_Pull := E_FAIL; hr_GetBuffer := S_OK;
     hr_CreateRenderTargetView := S_OK; hr_Present := S_OK |}.

Definition pass_resize_refused : LoopEnv :=
  {| loop_resize := {| hr_GetDesc := S_OK; hr_ResizeBuffers := E_FAIL |};
     hr_Map := S_OK; hr_Pull := S_OK; hr_GetBuffer := S_OK;
     hr_CreateRenderTargetView := S_OK; hr_Present := S_OK |}.

Definition session_800_600 : CD3D11Render :=
  state_of (Init init_ok (constructor false 8 0 1280 960)).

(** A burst of resize notifications, each with the client size it read. *)
Definition requests (sizes : list (Z * Z)) : list action :=
  map (fun p => CallResize (fst p) (snd p)) sizes.

(** ** The scale as a number *)

(** The quotient [65535 / ((1 << bitDepth) - 1)] of the scale table. *)
Definition scale_quotient (bitDepth : Z) : Q :=
  65535 # Z.to_pos (Z.shiftl 1 bitDepth - 1).

(** The number the pixel shader multiplies by: the value of the text that
    is substituted for [SCALE]. *)
Definition shader_scale (bitDepth : Z) : option Q :=
  Text.literal_value (scale_macro bitDepth).

(** Whether [sprintf_8f] had to break a tie at the ninth digit. *)
Definition sprintf_8f_tie (x : double) : bool :=
  2 * ((Z.abs (Qnum x) * 10 ^ 8) mod Zpos (Qden x)) =? Zpos (Qden x).

(** ** The statements of the design document that the code does not meet

    Each is written here as the document words it, to be compared with
    what the functions above do. *)

(** Frame-rate sampling, as worded: nothing below 500 ms, a sample from
    500 ms on. *)
Definition sampling_as_stated (s : CD3D11Render) (tick : Z) : Prop :=
  let elapsed := wrap32 (tick - m_nTick s) in
  let r := GetFrameRate tick s in
  (elapsed < 500 -> result_of r = None /\ state_of r = s) /\
  (500 <= elapsed ->
     result_of r = Some (m_nFrame s, elapsed, m_totalFrame s) /\
     m_nTick (state_of r) = tick /\ m_nFrame (state_of r) = 0 /\
     m_totalFrame (state_of r) = m_totalFrame s).

(** The scale table, as worded: 1.0 up to 8 bits and at 16 bits, the
    quotient (to the eight digits printed) at every other depth. *)
Definition scale_as_stated (bitDepth : Z) : Prop :=
  exists v : Q,
    shader_scale bitDepth = Some v /\
    if (bitDepth <=? 8) || (bitDepth =? 16)
    then (v == 1)%Q
    else (Qabs (v - scale_quotient bitDepth) <= 1 # 100000000)%Q.

(** Fatal-at-resize, as worded: once the swap chain has refused a resize
    the worker pulls and presents no further frame. *)
Definition fatal_at_resize_as_stated
  (s : CD3D11Render) (env : LoopEnv) (later : list action) : Prop :=
  m_thrd s = Some AtLoopHead -> m_loop s = true ->
  Register.pending (m_resize s) = true ->
  resize_fails (loop_resize env) = true ->
  existsb is_pull_or_present
    (trace_of (run later (state_of (worker_step env s)))) = false.

(** Coalescing, as worded: after any burst of one or more notifications
    the next pass applies the size of the last one and leaves the pending
    bit clear. *)
Definition coalescing_as_stated
  (s : CD3D11Render) (sizes : list (Z * Z)) (env : LoopEnv) : Prop :=
  sizes <> [] -> m_loop s = true ->
  let r := Loop_pass env (state_of (run (requests sizes) s)) in
  resize_calls (trace_of r) = [last sizes (0, 0)] /\
  Z.land (m_resize (state_of r)) 0x80000000 = 0.


(** ** A cross-check against the reference implementation of IEEE 754

    [SpecFloat] of the standard library implements the operations on
    significand and exponent; [sf_value] is the rational such a float
    denotes. *)
Definition sf_value (f : spec_float) : Q :=
  match f with
  | S754_finite sign m e =>
      let v := if 0 <=? e then inject_Z (Zpos m * 2 ^ e)
               else Zpos m # Z.to_pos (2 ^ (- e)) in
      Qred (if sign then Qopp v else v)
  | _ => 0%Q
  end.

Definition sf32_of_int (n : Z) : spec_float := binary_normalize 24 128 n 0 false.
Definition sf64_of_int (n : Z) : spec_float := binary_normalize 53 1024 n 0 false.

Definition float_samples : list Z :=
  [1; 2; 3; 7; 41; 47; 49; 97; 480; 600; 768; 800; 960; 1000; 1080; 1230;
   1280; 1920; 4095; 16383; 32767; 16777219; 2147483647].

(** ** The rest of the class and its use by the dialog *)

(** [get_precise_tick]; [ms] is the count of milliseconds the steady clock
    shows, which the cast to [unsigned] cuts to 32 bits. *)
Definition get_precise_tick (ms : Z) : Z := wrap32 ms.

(** Calls of [GetFrameRate] at the given ticks. *)
Definition polls (ticks : list Z) : list action := map CallGetFrameRate ticks.

Definition is_poll (a : action) : bool :=
  match a with CallGetFrameRate _ => true | _ => false end.

(** The calls the control thread makes; [Worker] is the other thread. *)
Definition is_control (a : action) : bool :=
  match a with Worker _ => false | _ => true end.

(** The number of frames a trace shows as presented. *)
Definition presented (t : trace) : Z :=
  Z.of_nat (List.length (filter is_successful_present t)).

(** Both frame counters hold values of an [unsigned]. *)
Definition counters_in_range (s : CD3D11Render) : Prop :=
  0 <= m_totalFrame s < 2 ^ 32 /\ 0 <= m_nFrame s < 2 ^ 32.

(** [std::thread::join] as the caller sees it: the worker is stepped with
    what the environment answers until [Loop] has returned; the result
    tells whether it has within the answers given. *)
Fixpoint join (envs : list LoopEnv) : M bool :=
  match envs with
  | [] =>
      s <- get ;;
      ret (match m_thrd s with
           | Some Returned | None => true
           | Some _ => false
           end)
  | env :: rest =>
      s <- get ;;
      match m_thrd s with
      | Some Returned | None => ret true
      | Some _ => worker_step env ;; join rest
      end
  end.

(** [CD3D11Render::~CD3D11Render]; [CloseHandle] leaves no handle, which
    is how [m_evt] records it.  The result is that of [join]. *)
Definition destructor (envs : list LoopEnv) : M bool :=
  s <- get ;;
  joined <- match m_thrd s with
            | Some _ =>
                modify (with_loop false) ;;
                SetEvent_m_evt ;;
                join envs
            | None => ret true
            end ;;
  s' <- get ;;
  match m_evt s' with
  | Some _ => modify (with_evt None) ;; ret joined
  | None => ret joined
  end.

(** The [HRESULT] of a call that creates a device object. *)
Definition creation_result (e : event) : option HRESULT :=
  match e with
  | D3D11CreateDeviceAndSwapChain _ hr | CreateTexture2D _ _ _ hr
  | CreateShaderResourceView _ hr | D3DCompile _ _ hr
  | CreateVertexShader hr | CreatePixelShader hr
  | CreateInputLayout hr | CreateBuffer hr | CreateSamplerState hr => Some hr
  | _ => None
  end.

Definition is_failed_creation (e : event) : bool :=
  match creation_result e with
  | Some hr => FAILED hr
  | None => false
  end.

(** No call follows a creation call that failed. *)
Fixpoint stops_at_failure (t : trace) : bool :=
  match t with
  | [] => true
  | e :: rest =>
      if is_failed_creation e
      then match rest with [] => true | _ :: _ => false end
      else stops_at_failure rest
  end.

(** Bits per texel of the formats [Init] uses. *)
Definition format_bits (fmt : DXGI_FORMAT) : Z :=
  match fmt with
  | DXGI_FORMAT_R8_UNORM => 8
  | DXGI_FORMAT_R16_UNORM => 16
  | DXGI_FORMAT_R8G8B8A8_UNORM => 32
  | DXGI_FORMAT_R10G10B10A2_UNORM => 32
  | DXGI_FORMAT_R16G16B16A16_UNORM => 64
  end.

(** * Properties *)

Import Register.

(** ** Facts about [Machine] *)

Lemma wrap32_range x : 0 <= wrap32 x < 2 ^ 32.
Proof. unfold wrap32. apply Z.mod_pos_bound. reflexivity. Qed.

Lemma wrap32_small x : 0 <= x < 2 ^ 32 -> wrap32 x = x.
Proof. intros H. unfold wrap32. now apply Z.mod_small. Qed.

Lemma FAILED_SUCCEEDED hr : SUCCEEDED hr = negb (FAILED hr).
Proof.
  unfold SUCCEEDED, FAILED.
  destruct (Z.ltb_spec hr 0), (Z.leb_spec 0 hr); simpl; auto; lia.
Qed.

Lemma wrap32_succ_neq n : 0 <= n < 2 ^ 32 -> wrap32 (n + 1) <> n.
Proof.
  intros H E. unfold wrap32 in E.
  destruct (Z.eq_dec n (2 ^ 32 - 1)) as [->|Hn].
  - vm_compute in E. discriminate.
  - rewrite Z.mod_small in E by lia. lia.
Qed.

(** ** Facts about [Register] *)

Lemma land_7fff x : Z.land x 0x7fff = x mod 32768.
Proof. change 0x7fff with (Z.ones 15). now rewrite Z.land_ones by lia. Qed.

Lemma land_7fff_range x : 0 <= Z.land x 0x7fff <= 32767.
Proof.
  rewrite land_7fff. pose proof (Z.mod_pos_bound x 32768 eq_refl). lia.
Qed.

Lemma width_of_range val : 0 <= width_of val <= 32767.
Proof. apply land_7fff_range. Qed.

Lemma height_of_range val : 0 <= height_of val <= 32767.
Proof. apply land_7fff_range. Qed.

Lemma lor_disjoint a b : Z.land a b = 0 -> Z.lor a b = a + b.
Proof.
  intros H. rewrite <- Z.lxor_lor by assumption.
  symmetry. now apply Z.add_nocarry_lxor.
Qed.

(** Within 15 bits the three fields occupy disjoint bits, so the
    bitwise-or is a sum. *)
Lemma pack_arith cx cy :
  0 <= cx <= 32767 -> 0 <= cy <= 32767 ->
  pack cx cy = 2 ^ 31 + cx * 2 ^ 16 + cy.
Proof.
  intros Hx Hy. unfold pack, PENDING.
  assert (Hs : Z.shiftl cx 16 = cx * 2 ^ 16) by (apply Z.shiftl_mul_pow2; lia).
  assert (E1 : Z.lor 0x80000000 (Z.shiftl cx 16) = 2 ^ 31 + cx * 2 ^ 16).
  { rewrite Hs. change 0x80000000 with (2 ^ 31).
    apply lor_disjoint.
    apply Z.bits_inj'. intros n Hn. rewrite Z.land_spec, Z.bits_0.
    destruct (Z.eq_dec n 31) as [->|Hne].
    - rewrite Z.mul_pow2_bits by lia.
      replace (Z.testbit cx (31 - 16)) with false; [apply andb_false_r|].
      symmetry. apply Z.bits_above_log2; [lia|].
      destruct (Z.eq_dec cx 0) as [->|]; [simpl; lia|].
      apply Z.log2_lt_pow2; lia.
    - rewrite Z.pow2_bits_false by lia. reflexivity. }
  rewrite E1.
  rewrite lor_disjoint.
  - apply wrap32_small. lia.
  - apply Z.bits_inj'. intros n Hn. rewrite Z.land_spec, Z.bits_0.
    destruct (Z_lt_le_dec n 15).
    + replace (2 ^ 31 + cx * 2 ^ 16) with ((2 ^ 15 + cx) * 2 ^ 16) by lia.
      rewrite Z.mul_pow2_bits_low by lia. reflexivity.
    + replace (Z.testbit cy n) with false; [apply andb_false_r|].
      symmetry. apply Z.bits_above_log2; [lia|].
      destruct (Z.eq_dec cy 0) as [->|]; [simpl; lia|].
      apply Z.lt_le_trans with 15; [apply Z.log2_lt_pow2; lia|lia].
Qed.

Lemma pack_range cx cy : 0 <= pack cx cy < 2 ^ 32.
Proof. apply wrap32_range. Qed.

Lemma pending_pack cx cy : pending (pack cx cy) = true.
Proof.
  unfold pending, pack, wrap32, PENDING.
  change (2 ^ 32) with (2 ^ 32). rewrite <- Z.land_ones by lia.
  rewrite <- Z.land_assoc. change (Z.land (Z.ones 32) 0x80000000) with 0x80000000.
  rewrite !Z.land_lor_distr_l, Z.land_diag.
  apply negb_true_iff, Z.eqb_neq. intros E.
  apply (f_equal (fun z => Z.testbit z 31)) in E.
  rewrite !Z.lor_spec, Z.bits_0 in E.
  change (Z.testbit 0x80000000 31) with true in E. discriminate.
Qed.

Lemma unpack_pack cx cy :
  0 <= cx <= 32767 -> 0 <= cy <= 32767 -> unpack (pack cx cy) = (cx, cy).
Proof.
  intros Hx Hy. rewrite pack_arith by assumption.
  unfold unpack, width_of, height_of.
  rewrite !land_7fff. change 32768 with (2 ^ 15).
  rewrite Z.shiftr_div_pow2 by lia.
  f_equal.
  - replace ((2 ^ 31 + cx * 2 ^ 16 + cy) / 2 ^ 16) with (2 ^ 15 + cx).
    + replace (2 ^ 15 + cx) with (cx + 1 * 2 ^ 15) by lia.
      rewrite Z.mod_add by lia. apply Z.mod_small. lia.
    + apply Z.div_unique with cy; lia.
  - replace (2 ^ 31 + cx * 2 ^ 16 + cy) with (cy + (2 ^ 16 + cx * 2) * 2 ^ 15) by lia.
    rewrite Z.mod_add by lia. apply Z.mod_small. lia.
Qed.

(** ** Facts about rounding *)

Lemma pow2_pos e : 0 < 2 ^ e \/ e < 0.
Proof. destruct (Z_lt_le_dec e 0); [right|left]; auto. apply Z.pow_pos_nonneg; lia. Qed.

Lemma pow2_add a b : 0 <= a -> 0 <= b -> 2 ^ (a + b) = 2 ^ a * 2 ^ b.
Proof. intros. apply Z.pow_add_r; assumption. Qed.

(** [2 ^ ilog2 n d <= n / d], told apart by the sign of the exponent. *)
Lemma ilog2_lower n d :
  0 < n -> 0 < d ->
  (0 <= ilog2 n d -> d * 2 ^ ilog2 n d <= n) /\
  (ilog2 n d < 0 -> d <= n * 2 ^ (- ilog2 n d)).
Proof.
  intros Hn Hd. unfold ilog2.
  set (e0 := Z.log2 n - Z.log2 d).
  destruct (Z.log2_spec n Hn) as [Hn1 Hn2].
  destruct (Z.log2_spec d Hd) as [Hd1 Hd2].
  pose proof (Z.log2_nonneg n) as Ln. pose proof (Z.log2_nonneg d) as Ld.
  rewrite <- Z.add_1_r in Hn2, Hd2.
  rewrite pow2_add in Hn2, Hd2 by lia. change (2 ^ 1) with 2 in *.
  assert (Pn : 0 < 2 ^ Z.log2 n) by (apply Z.pow_pos_nonneg; lia).
  assert (Pd : 0 < 2 ^ Z.log2 d) by (apply Z.pow_pos_nonneg; lia).
  destruct (Z.leb_spec 0 e0) as [He0|He0].
  - destruct (Z.leb_spec (d * 2 ^ e0) n) as [T|T].
    + split; [auto|lia].
    + split; intros He.
      * (* e0 - 1 >= 0 *)
        assert (E : 2 ^ Z.log2 n = 2 ^ (e0 - 1) * 2 ^ Z.log2 d * 2).
        { rewrite <- pow2_add by lia. change 2 with (2 ^ 1) at 3.
          rewrite <- pow2_add by lia. f_equal. unfold e0. lia. }
        assert (P : 0 < 2 ^ (e0 - 1)) by (apply Z.pow_pos_nonneg; lia).
        assert (d * 2 ^ (e0 - 1) <= 2 ^ Z.log2 d * 2 * 2 ^ (e0 - 1))
          by (apply Z.mul_le_mono_nonneg_r; lia).
        lia.
      * assert (e0 = 0) by lia.
        replace (- (e0 - 1)) with 1 by lia. change (2 ^ 1) with 2.
        assert (El : Z.log2 n = Z.log2 d) by (unfold e0 in *; lia).
        rewrite El in *. lia.
  - destruct (Z.leb_spec d (n * 2 ^ (- e0))) as [T|T].
    + split; [lia|auto].
    + split; intros He; [lia|].
      assert (E : 2 ^ Z.log2 d * 2 = 2 ^ (- (e0 - 1)) * 2 ^ Z.log2 n).
      { rewrite <- pow2_add by lia. change 2 with (2 ^ 1) at 2.
        rewrite <- pow2_add by lia. f_equal. unfold e0. lia. }
      assert (P : 0 < 2 ^ (- (e0 - 1))) by (apply Z.pow_pos_nonneg; lia).
      assert (2 ^ (- (e0 - 1)) * 2 ^ Z.log2 n <= 2 ^ (- (e0 - 1)) * n)
        by (apply Z.mul_le_mono_nonneg_l; lia).
      lia.
Qed.

Lemma rne_half N D : 0 < D -> Z.abs (2 * (rne N D * D - N)) <= D.
Proof.
  intros HD. unfold rne.
  pose proof (Z.div_mod N D ltac:(lia)) as E.
  pose proof (Z.mod_pos_bound N D HD) as B.
  set (q := N / D) in *. set (r := N mod D) in *.
  destruct (Z.compare_spec (2 * r) D); [destruct (Z.even q)| |]; nia.
Qed.

Lemma rne_exact N D : 0 < D -> rne (N * D) D = N.
Proof.
  intros HD. unfold rne.
  rewrite Z.mod_mul, Z.div_mul by lia.
  destruct (Z.compare_spec (2 * 0) D); lia.
Qed.

Lemma round_pos_frac p n d :
  1 <= p -> 0 < n -> 0 < d ->
  exists A B, 0 < B /\ (round_pos p n d == A # Z.to_pos B)%Q /\
              Z.abs (A * d - n * B) * 2 ^ p <= n * B.
Proof.
  intros Hp Hn Hd. unfold round_pos.
  destruct (ilog2_lower n d Hn Hd) as [L1 L2].
  set (e := ilog2 n d) in *. set (k := p - 1 - e).
  assert (E2 : 2 ^ p = 2 * 2 ^ (p - 1)).
  { change 2 with (2 ^ 1) at 2. rewrite <- pow2_add by lia. f_equal. lia. }
  assert (Pp : 0 < 2 ^ (p - 1)) by (apply Z.pow_pos_nonneg; lia).
  destruct (Z.leb_spec 0 k) as [Hk|Hk].
  - assert (Pk : 0 < 2 ^ k) by (apply Z.pow_pos_nonneg; lia).
    exists (rne (n * 2 ^ k) d), (2 ^ k). split; [assumption|]. split.
    + apply Qred_correct.
    + pose proof (rne_half (n * 2 ^ k) d Hd) as R.
      set (m := rne (n * 2 ^ k) d) in *.
      assert (G : d * 2 ^ (p - 1) <= n * 2 ^ k).
      { destruct (Z_lt_le_dec e 0) as [He|He].
        - specialize (L2 He).
          replace k with ((p - 1) + (- e)) by (unfold k; lia).
          rewrite pow2_add by lia.
          assert (d * 2 ^ (p - 1) <= n * 2 ^ (- e) * 2 ^ (p - 1))
            by (apply Z.mul_le_mono_nonneg_r; lia).
          lia.
        - specialize (L1 He).
          replace (p - 1) with (k + e) by (unfold k; lia).
          rewrite pow2_add by lia.
          assert (d * 2 ^ e * 2 ^ k <= n * 2 ^ k)
            by (apply Z.mul_le_mono_nonneg_r; lia).
          lia. }
      rewrite E2. nia.
  - assert (He : 0 <= e) by (unfold k in Hk; lia).
    specialize (L1 He).
    set (b := 2 ^ (- k)) in *.
    assert (Pb : 0 < b) by (apply Z.pow_pos_nonneg; lia).
    exists (rne n (d * b) * b), 1. split; [lia|]. split.
    + rewrite Qred_correct. reflexivity.
    + pose proof (rne_half n (d * b) ltac:(nia)) as R.
      set (m := rne n (d * b)) in *.
      assert (G : d * b * 2 ^ (p - 1) <= n).
      { replace e with ((- k) + (p - 1)) in L1 by (unfold k; lia).
        rewrite pow2_add in L1 by lia. fold b in L1. lia. }
      rewrite E2. nia.
Qed.

Lemma round_rel p x :
  1 <= p -> (0 < x)%Q ->
  (x * (1 - eps p) <= round p x /\ round p x <= x * (1 + eps p))%Q.
Proof.
  intros Hp Hx. destruct x as [n d]. unfold round; cbn [Qnum Qden].
  destruct n as [|n|n]; try (unfold Qlt in Hx; cbn in Hx; lia).
  destruct (round_pos_frac p (Zpos n) (Zpos d) Hp eq_refl eq_refl)
    as (A & B & HB & HE & HA).
  rewrite HE. clear HE.
  assert (P : 0 < 2 ^ p) by (apply Z.pow_pos_nonneg; lia).
  unfold Qle, Qmult, Qminus, Qplus, Qopp, eps; cbn [Qnum Qden].
  rewrite !Pos2Z.inj_mul, !Z2Pos.id by lia.
  split; nia.
Qed.

Lemma round_nonneg p x : 1 <= p -> (0 <= x)%Q -> (0 <= round p x)%Q.
Proof.
  intros Hp Hx. destruct (Qlt_le_dec 0 x) as [H|H].
  - destruct (round_rel p x Hp H) as [L _].
    eapply Qle_trans; [|exact L].
    apply Qmult_le_0_compat; [assumption|].
    unfold eps, Qle, Qminus, Qplus, Qopp; cbn [Qnum Qden].
    assert (P : 0 < 2 ^ p) by (apply Z.pow_pos_nonneg; lia).
    assert (1 < 2 ^ p) by (apply Z.pow_gt_1; lia).
    rewrite !Z2Pos.id by lia. lia.
  - destruct x as [n d]. unfold Qle in *; cbn in *.
    assert (n = 0) by lia. subst n. cbn. lia.
Qed.

Lemma ilog2_int n : 0 < n -> ilog2 n 1 = Z.log2 n.
Proof.
  intros Hn. unfold ilog2. change (Z.log2 1) with 0. rewrite Z.sub_0_r.
  pose proof (Z.log2_nonneg n). destruct (Z.log2_spec n Hn) as [L _].
  destruct (Z.leb_spec 0 (Z.log2 n)); [|lia].
  destruct (Z.leb_spec (1 * 2 ^ Z.log2 n) n); lia.
Qed.

(** An integer of fewer than [p] bits is its own rounding. *)
Lemma round_pos_int p n :
  0 < n < 2 ^ (p - 1) -> round_pos p n 1 = inject_Z n.
Proof.
  intros [Hn Hb]. unfold round_pos. rewrite ilog2_int by assumption.
  assert (Hp : 0 <= p - 1).
  { destruct (Z_lt_le_dec (p - 1) 0) as [H|H]; [|assumption].
    rewrite Z.pow_neg_r in Hb by assumption. lia. }
  assert (L : Z.log2 n < p - 1) by (apply Z.log2_lt_pow2; assumption).
  set (k := p - 1 - Z.log2 n).
  destruct (Z.leb_spec 0 k) as [Hk|Hk]; [|unfold k in Hk; lia].
  assert (Pk : 0 < 2 ^ k) by (apply Z.pow_pos_nonneg; lia).
  replace (n * 2 ^ k) with (n * 2 ^ k * 1) by lia.
  rewrite rne_exact by lia.
  transitivity (Qred (inject_Z n)).
  - apply Qred_complete. unfold Qeq, inject_Z; cbn [Qnum Qden].
    rewrite Z2Pos.id by assumption. lia.
  - apply Qcanon.Qred_identity. cbn [Qnum Qden inject_Z]. apply Z.gcd_1_r.
Qed.

Lemma round_int p n :
  Z.abs n < 2 ^ (p - 1) -> round p (inject_Z n) = inject_Z n.
Proof.
  intros Hb. unfold round. cbn [inject_Z Qnum Qden].
  destruct n as [|q|q]; [reflexivity| |].
  - apply (round_pos_int p (Zpos q)). lia.
  - change (Z.pos 1) with 1. rewrite (round_pos_int p (Zpos q)) by lia. reflexivity.
Qed.

(** ** The rounding model against [SpecFloat] *)

(** On the sample sizes, converting, dividing and multiplying in
    [SpecFloat]'s binary32 gives the values of [of_int], [fdiv] and
    [fmul]. *)
Example binary32_agrees_with_SpecFloat :
  forallb (fun n => Qeq_bool (sf_value (sf32_of_int n)) (of_int n))
          (float_samples ++ map Z.opp float_samples) = true /\
  forallb
    (fun w =>
       forallb
         (fun i =>
            let q := SFdiv 24 128 (sf32_of_int w) (sf32_of_int i) in
            Qeq_bool (sf_value q) (fdiv (of_int w) (of_int i))
            && Qeq_bool (sf_value (SFmul 24 128 (sf32_of_int i) q))
                        (fmul (of_int i) (fdiv (of_int w) (of_int i))))
         float_samples)
    float_samples = true.
Proof. split; vm_compute; reflexivity. Qed.

(** The seven quotients of [scale_macro] in [SpecFloat]'s binary64. *)
Example binary64_agrees_with_SpecFloat :
  forallb
    (fun b =>
       Qeq_bool
         (sf_value (SFdiv 53 1024 (sf64_of_int 65535)
                      (sf64_of_int (Z.shiftl 1 b - 1))))
         (ddiv (double_of_int 65535) (double_of_int (Z.shiftl 1 b - 1))))
    [9; 10; 11; 12; 13; 14; 15] = true.
Proof. vm_compute. reflexivity. Qed.

(** ** The resize register *)

(** C10.  A window size of at most 32767 in each direction survives the
    packed register unchanged and leaves the pending bit set; a size with
    a direction of 32768 or more does not come back. *)
Theorem register_round_trip :
  forall w h : Z,
    0 <= w -> 0 <= h ->
    (w <= 32767 /\ h <= 32767 ->
       unpack (pack w h) = (w, h) /\
       Z.land (pack w h) 0x80000000 <> 0) /\
    (32768 <= w \/ 32768 <= h -> unpack (pack w h) <> (w, h)).
Proof.
  intros w h Hw Hh. split.
  - intros [Bw Bh]. split.
    + apply unpack_pack; lia.
    + pose proof (pending_pack w h) as P. unfold pending in P.
      apply negb_true_iff, Z.eqb_neq in P. exact P.
  - intros H E. unfold unpack in E. injection E as Ew Eh.
    pose proof (width_of_range (pack w h)).
    pose proof (height_of_range (pack w h)).
    lia.
Qed.

Lemma register_round_trip_witness :
  (unpack (pack 1920 1080) = (1920, 1080) /\
   Z.land (pack 1920 1080) 0x80000000 <> 0) /\
  unpack (pack 40000 1080) <> (40000, 1080).
Proof.
  split.
  - apply (register_round_trip 1920 1080); lia.
  - apply (register_round_trip 40000 1080); lia.
Defined.

(** ** The frame-rate counter *)

Lemma with_frames_same s :
  with_frames (m_totalFrame s) (m_nFrame s) (m_nTick s) s = s.
Proof. destruct s; reflexivity. Qed.

Lemma GetFrameRate_quiet tick s :
  wrap32 (tick - m_nTick s) <= 500 -> GetFrameRate tick s = (None, s, []).
Proof.
  intros H. unfold GetFrameRate, bind, get, ret; cbn.
  destruct (Z.ltb_spec 500 (wrap32 (tick - m_nTick s))); [lia|reflexivity].
Qed.

Lemma GetFrameRate_sample tick s :
  500 < wrap32 (tick - m_nTick s) ->
  GetFrameRate tick s =
    (Some (m_nFrame s, wrap32 (tick - m_nTick s), m_totalFrame s),
     with_frames (m_totalFrame s) 0 tick s, []).
Proof.
  intros H. unfold GetFrameRate, bind, get, ret, modify; cbn.
  destruct (Z.ltb_spec 500 (wrap32 (tick - m_nTick s))); [reflexivity|lia].
Qed.

(** The wording of C6 fails when exactly 500 ms have passed: the code
    compares with [diff > 500] and reports nothing. *)
Lemma sampling_as_stated_fails_at_500 :
  ~ sampling_as_stated (constructor false 8 1000 1280 960) 1500.
Proof.
  unfold sampling_as_stated. intros [_ H].
  specialize (H ltac:(vm_compute; discriminate)).
  destruct H as [H _]. vm_compute in H. discriminate.
Qed.

(** C6, amended.  [GetFrameRate] reports nothing and changes nothing while
    at most 500 ms have passed since the last sample.  Past 500 ms it
    reports the frames counted since that sample, the elapsed time and the
    lifetime total, restarts the window at the current tick with a count of
    zero and keeps the lifetime total.  Of two calls at most 500 ms apart,
    at most one reports. *)
Theorem frame_rate_sampling :
  forall (s : CD3D11Render) (tick : Z),
    let elapsed := wrap32 (tick - m_nTick s) in
    let r := GetFrameRate tick s in
    (elapsed <= 500 -> result_of r = None /\ state_of r = s) /\
    (500 < elapsed ->
       result_of r = Some (m_nFrame s, elapsed, m_totalFrame s) /\
       m_nTick (state_of r) = tick /\ m_nFrame (state_of r) = 0 /\
       m_totalFrame (state_of r) = m_totalFrame s) /\
    trace_of r = [] /\
    (forall tick2,
       wrap32 (tick2 - tick) <= 500 ->
       result_of r = None \/ result_of (GetFrameRate tick2 (state_of r)) = None).
Proof.
  intros s tick elapsed r. subst r elapsed.
  destruct (Z_le_gt_dec (wrap32 (tick - m_nTick s)) 500) as [H|H].
  - rewrite GetFrameRate_quiet by assumption.
    unfold result_of, state_of, trace_of; cbn.
    repeat split; auto; intros; lia.
  - rewrite GetFrameRate_sample by lia.
    unfold result_of, state_of, trace_of; cbn [fst snd].
    repeat split; auto; try (intros; lia).
    intros tick2 H2. right.
    rewrite GetFrameRate_quiet; [reflexivity|exact H2].
Qed.

Lemma frame_rate_sampling_witness :
  let s := with_frames 90 30 1000 (constructor false 8 1000 1280 960) in
  result_of (GetFrameRate 1501 s) = Some (30, 501, 90) /\
  m_nFrame (state_of (GetFrameRate 1501 s)) = 0 /\
  result_of (GetFrameRate 1400 s) = None.
Proof.
  intros s.
  destruct (frame_rate_sampling s 1501) as (_ & H & _).
  destruct (frame_rate_sampling s 1400) as (Q & _).
  split; [|split].
  - apply H. vm_compute. reflexivity.
  - apply H. vm_compute. reflexivity.
  - apply Q. vm_compute. discriminate.
Defined.

(** ** The normalisation scale of the pixel shader *)

Lemma scale_macro_unit bitDepth :
  bitDepth <= 8 \/ 16 <= bitDepth -> scale_macro bitDepth = "1.0"%string.
Proof.
  intros H. unfold scale_macro.
  destruct (Z.leb_spec bitDepth 8); [reflexivity|].
  destruct (Z.leb_spec 16 bitDepth); [reflexivity|lia].
Qed.

Lemma scale_macro_printed bitDepth :
  9 <= bitDepth <= 15 ->
  scale_macro bitDepth =
    Text.sprintf_8f (ddiv (double_of_int 65535)
                          (double_of_int (Z.shiftl 1 bitDepth - 1))).
Proof.
  intros H. unfold scale_macro.
  destruct (Z.leb_spec bitDepth 8); [lia|].
  destruct (Z.leb_spec 16 bitDepth); [lia|reflexivity].
Qed.

(** Between 9 and 15 bits no quotient falls halfway between two
    eight-digit decimals, so the direction in which [sprintf] breaks ties
    has no bearing on the text. *)
Lemma scale_macro_no_tie :
  forallb (fun b => negb (sprintf_8f_tie
                            (ddiv (double_of_int 65535)
                                  (double_of_int (Z.shiftl 1 b - 1)))))
          [9; 10; 11; 12; 13; 14; 15] = true.
Proof. vm_compute. reflexivity. Qed.

(** The wording of C3 fails above 16 bits: the code tests
    [m_bitdepth >= 16] and substitutes 1.0, where the quotient for 17 bits
    is about one half. *)
Lemma scale_as_stated_fails_at_17 : ~ scale_as_stated 17.
Proof.
  unfold scale_as_stated. intros (v & Hv & H).
  vm_compute in Hv. injection Hv as <-.
  cbn [Z.leb Z.eqb orb] in H. vm_compute in H. apply H. reflexivity.
Qed.

Lemma CreateShaders_macro env s :
  FAILED (hr_CompileVS env) = false ->
  FAILED (hr_CreateVertexShader env) = false ->
  In (D3DCompile "PS"
        [("MONO", if m_bMono s then "1" else "0");
         ("SCALE", scale_macro (m_bitdepth s))]%string
        (hr_CompilePS env))
     (trace_of (CreateShaders env s)).
Proof.
  intros H1 H2. unfold CreateShaders, bind, get, call, ret, trace_of.
  rewrite H1, H2. cbn [result_of state_of fst snd app].
  right. right. left. reflexivity.
Qed.

(** C3, amended.  The text compiled into the pixel shader as [SCALE] is
    [1.0] when the bit depth is at most 8 or at least 16; for 9 to 15 bits
    it is [65535 / ((1 << bitDepth) - 1)] computed in double precision and
    printed with eight decimals, hence within 1e-8 of that quotient.  In
    particular 8 and 16 bits give 1.0, 10 bits give 64.06158358 and 12
    bits give 16.00366300. *)
Theorem shader_scale_table :
  forall (env : ShaderEnv) (s : CD3D11Render),
    FAILED (hr_CompileVS env) = false ->
    FAILED (hr_CreateVertexShader env) = false ->
    let b := m_bitdepth s in
    In (D3DCompile "PS"
          [("MONO", if m_bMono s then "1" else "0"); ("SCALE", scale_macro b)]%string
          (hr_CompilePS env))
       (trace_of (CreateShaders env s)) /\
    (b <= 8 \/ 16 <= b ->
       scale_macro b = "1.0"%string /\ shader_scale b = Some 1%Q) /\
    (9 <= b <= 15 ->
       scale_macro b =
         Text.sprintf_8f (ddiv (double_of_int 65535)
                               (double_of_int (Z.shiftl 1 b - 1))) /\
       exists v : Q,
         shader_scale b = Some v /\
         (Qabs (v - scale_quotient b) <= 1 # 100000000)%Q) /\
    (scale_macro 8 = "1.0" /\ scale_macro 10 = "64.06158358" /\
     scale_macro 12 = "16.00366300" /\ scale_macro 16 = "1.0")%string.
Proof.
  intros env s H1 H2 b. split; [|split; [|split]].
  - apply CreateShaders_macro; assumption.
  - intros H. unfold shader_scale. rewrite scale_macro_unit by assumption.
    split; reflexivity.
  - intros H. split; [apply scale_macro_printed; assumption|].
    assert (C : b = 9 \/ b = 10 \/ b = 11 \/ b = 12 \/ b = 13 \/ b = 14 \/ b = 15)
      by lia.
    clearbody b.
    destruct C as [->|[->|[->|[->|[->|[->| ->]]]]]];
      (eexists; split;
       [vm_compute; reflexivity
       |apply Qle_bool_imp_le; vm_compute; reflexivity]).
  - repeat split; vm_compute; reflexivity.
Qed.

Lemma shader_scale_table_witness :
  let s := constructor false 12 0 1280 960 in
  let env := {| hr_CompileVS := S_OK; hr_CreateVertexShader := S_OK;
                hr_CompilePS := S_OK; hr_CreatePixelShader := S_OK;
                hr_CreateInputLayout := S_OK; hr_CreateBuffer := S_OK |} in
  In (D3DCompile "PS" [("MONO", "0"); ("SCALE", "16.00366300")]%string S_OK)
     (trace_of (CreateShaders env s)).
Proof.
  intros s env.
  exact (proj1 (shader_scale_table env s eq_refl eq_refl)).
Defined.

(** ** The functions, path by path *)

Lemma tuple_eta {A} (r : A * CD3D11Render * trace) :
  (result_of r, state_of r, trace_of r) = r.
Proof. destruct r as [[a s] t]. reflexivity. Qed.

Lemma bind_get {B} (k : CD3D11Render -> M B) s : bind get k s = k s s.
Proof. unfold bind, get. cbn. apply tuple_eta. Qed.

Lemma bind_modify {B} f (k : unit -> M B) s : bind (modify f) k s = k tt (f s).
Proof. unfold bind, modify. cbn. apply tuple_eta. Qed.

Lemma bind_ret {A B} (a : A) (k : A -> M B) s : bind (ret a) k s = k a s.
Proof. unfold bind, ret. cbn. apply tuple_eta. Qed.

Lemma bind_call {B} e (k : unit -> M B) s :
  bind (call e) k s = (result_of (k tt s), state_of (k tt s), e :: trace_of (k tt s)).
Proof. reflexivity. Qed.

Lemma bind_value {A B} (c : M A) (k : A -> M B) s a s1 t1 :
  c s = (a, s1, t1) ->
  bind c k s = (result_of (k a s1), state_of (k a s1), t1 ++ trace_of (k a s1)).
Proof. intros E. unfold bind. rewrite E. reflexivity. Qed.

Ltac mrun :=
  cbv beta iota;
  repeat (first [rewrite bind_get | rewrite bind_modify
                | rewrite bind_ret | rewrite bind_call]; cbv beta iota).

Ltac mdone := cbn [ret result_of state_of trace_of fst snd app].

Lemma Resize_int_int_GetDesc_fails env w h s :
  FAILED (hr_GetDesc env) = true ->
  Resize_int_int env w h s =
    (hr_GetDesc env, with_window w h s,
     [ResizeCall w h; OMSetRenderTargets 0; GetDesc (hr_GetDesc env)]).
Proof. intros H. unfold Resize_int_int. mrun. rewrite H. mdone. reflexivity. Qed.

Lemma Resize_int_int_ResizeBuffers_fails env w h s :
  FAILED (hr_GetDesc env) = false ->
  FAILED (hr_ResizeBuffers env) = true ->
  Resize_int_int env w h s =
    (hr_ResizeBuffers env, with_window w h s,
     [ResizeCall w h; OMSetRenderTargets 0; GetDesc (hr_GetDesc env);
      ResizeBuffers BUFFERCOUNT w h (hr_ResizeBuffers env)]).
Proof.
  intros H1 H2. unfold Resize_int_int. mrun. rewrite H1. mrun.
  rewrite H2. mdone. reflexivity.
Qed.

Lemma Resize_int_int_succeeds env w h s :
  FAILED (hr_GetDesc env) = false ->
  FAILED (hr_ResizeBuffers env) = false ->
  let vp := fit_viewport (m_imageWidth s) (m_imageHeight s) w h in
  Resize_int_int env w h s =
    (S_OK, with_viewport vp (with_window w h s),
     [ResizeCall w h; OMSetRenderTargets 0; GetDesc (hr_GetDesc env);
      ResizeBuffers BUFFERCOUNT w h (hr_ResizeBuffers env);
      RSSetViewports vp]).
Proof.
  intros H1 H2 vp. unfold Resize_int_int. mrun. rewrite H1. mrun.
  rewrite H2. mrun. mdone. reflexivity.
Qed.

(** What every path of [Resize(int, int)] has in common. *)
Lemma Resize_int_int_common env w h s :
  let r := Resize_int_int env w h s in
  resize_calls (trace_of r) = [(w, h)] /\
  existsb is_frame_work (trace_of r) = false /\
  ~ In WaitForSingleObject (trace_of r) /\
  m_windowWidth (state_of r) = w /\ m_windowHeight (state_of r) = h /\
  m_resize (state_of r) = m_resize s /\
  m_totalFrame (state_of r) = m_totalFrame s /\
  m_nFrame (state_of r) = m_nFrame s /\
  m_nTick (state_of r) = m_nTick s /\
  m_loop (state_of r) = m_loop s /\
  m_evt (state_of r) = m_evt s /\
  m_thrd (state_of r) = m_thrd s /\
  m_imageWidth (state_of r) = m_imageWidth s /\
  m_imageHeight (state_of r) = m_imageHeight s.
Proof.
  intros r. subst r.
  destruct (FAILED (hr_GetDesc env)) eqn:H1;
    [rewrite Resize_int_int_GetDesc_fails by assumption
    |destruct (FAILED (hr_ResizeBuffers env)) eqn:H2;
     [rewrite Resize_int_int_ResizeBuffers_fails by assumption
     |rewrite Resize_int_int_succeeds by assumption]];
    unfold trace_of, state_of; cbn;
    repeat split; auto; intros [E|[E|[E|E]]]; try discriminate;
    try contradiction; destruct E as [E|E]; try discriminate; try contradiction;
    destruct E as [E|E]; try discriminate; contradiction.
Qed.

Lemma Loop_pass_stopped env s :
  m_loop s = false -> Loop_pass env s = (Returned, s, []).
Proof. intros H. unfold Loop_pass. mrun. rewrite H. reflexivity. Qed.

Lemma Loop_pass_resize env s :
  m_loop s = true -> pending (m_resize s) = true ->
  let r := Resize_int_int (loop_resize env)
             (width_of (m_resize s)) (height_of (m_resize s))
             (with_resize 0 s) in
  Loop_pass env s = (AtLoopHead, state_of r, trace_of r).
Proof.
  intros H1 H2 r. unfold Loop_pass. mrun. rewrite H1. cbn [negb].
  rewrite H2. mrun. fold r. destruct r as [[hr s1] t1] eqn:E.
  rewrite (bind_value _ _ _ _ _ _ E). mdone. rewrite app_nil_r. reflexivity.
Qed.

Lemma Loop_pass_Map_fails env s :
  m_loop s = true -> pending (m_resize s) = false ->
  SUCCEEDED (hr_Map env) = false ->
  Loop_pass env s = (InWait, s, [Map (hr_Map env); WaitForSingleObject]).
Proof.
  intros H1 H2 H3. unfold Loop_pass. mrun. rewrite H1. cbn [negb].
  rewrite H2, H3. mrun.
  rewrite FAILED_SUCCEEDED in H3. apply negb_false_iff in H3. rewrite H3.
  mrun. mdone. reflexivity.
Qed.

Lemma Loop_pass_Pull_fails env s :
  m_loop s = true -> pending (m_resize s) = false ->
  SUCCEEDED (hr_Map env) = true -> FAILED (hr_Pull env) = true ->
  Loop_pass env s =
    (InWait, s,
     [Map (hr_Map env); Toupcam_PullImageWithRowPitch (pull_bits s) (hr_Pull env);
      Unmap; WaitForSingleObject]).
Proof.
  intros H1 H2 H3 H4. unfold Loop_pass. mrun. rewrite H1. cbn [negb].
  rewrite H2, H3. mrun.
  rewrite (bind_value _ _ s (hr_Pull env) s
             [Toupcam_PullImageWithRowPitch (pull_bits s) (hr_Pull env); Unmap])
    by reflexivity.
  rewrite H4. mrun. mdone. reflexivity.
Qed.

Lemma SetupRtv_paths env s :
  SetupRtv env s =
    if SUCCEEDED (hr_GetBuffer env)
    then if SUCCEEDED (hr_CreateRenderTargetView env)
         then (true, s, [GetBuffer (hr_GetBuffer env);
                         CreateRenderTargetView (hr_CreateRenderTargetView env);
                         OMSetRenderTargets 1; ClearRenderTargetView])
         else (false, s, [GetBuffer (hr_GetBuffer env);
                          CreateRenderTargetView (hr_CreateRenderTargetView env)])
    else (false, s, [GetBuffer (hr_GetBuffer env)]).
Proof.
  unfold SetupRtv. mrun.
  destruct (SUCCEEDED (hr_GetBuffer env)); [|reflexivity].
  mrun. destruct (SUCCEEDED (hr_CreateRenderTargetView env)); reflexivity.
Qed.

(** The passes that get as far as [SetupRtv]. *)
Lemma Loop_pass_draw env s :
  m_loop s = true -> pending (m_resize s) = false ->
  SUCCEEDED (hr_Map env) = true -> FAILED (hr_Pull env) = false ->
  let pulled := [Map (hr_Map env);
                 Toupcam_PullImageWithRowPitch (pull_bits s) (hr_Pull env);
                 Unmap] in
  let rtv := SetupRtv env s in
  Loop_pass env s =
    if result_of rtv
    then (AtLoopHead,
          (if SUCCEEDED (hr_Present env)
           then with_frames (wrap32 (m_totalFrame s + 1))
                            (wrap32 (m_nFrame s + 1)) (m_nTick s) s
           else s),
          pulled ++ trace_of rtv
            ++ [PSSetShaderResources; Draw 4 0; Present 1 (hr_Present env)])
    else (AtLoopHead, s, pulled ++ trace_of rtv).
Proof.
  intros H1 H2 H3 H4 pulled rtv. subst pulled rtv.
  unfold Loop_pass. mrun. rewrite H1. cbn [negb].
  rewrite H2, H3. mrun.
  rewrite (bind_value _ _ s (hr_Pull env) s
             [Toupcam_PullImageWithRowPitch (pull_bits s) (hr_Pull env); Unmap])
    by reflexivity.
  rewrite H4. rewrite SetupRtv_paths.
  destruct (SUCCEEDED (hr_GetBuffer env)) eqn:G1;
    [destruct (SUCCEEDED (hr_CreateRenderTargetView env)) eqn:G2|].
  - erewrite bind_value by (rewrite SetupRtv_paths, G1, G2; reflexivity).
    mrun. destruct (SUCCEEDED (hr_Present env)); mrun; mdone; reflexivity.
  - erewrite bind_value by (rewrite SetupRtv_paths, G1, G2; reflexivity).
    mdone. reflexivity.
  - erewrite bind_value by (rewrite SetupRtv_paths, G1; reflexivity).
    mdone. reflexivity.
Qed.

(** ** The render loop *)

Lemma pending_iff val : pending val = true <-> Z.land val 0x80000000 <> 0.
Proof.
  unfold pending, PENDING. rewrite negb_true_iff, Z.eqb_neq. reflexivity.
Qed.

Lemma pending_zero : pending 0 = false.
Proof. reflexivity. Qed.




Lemma worker_step_at_head env s :
  m_thrd s = Some AtLoopHead ->
  let r := Loop_pass env s in
  worker_step env s =
    (tt, with_thrd (Some (result_of r)) (state_of r), trace_of r).
Proof.
  intros H r. unfold worker_step. mrun. rewrite H.
  fold r. destruct r as [[p s1] t1] eqn:E.
  rewrite (bind_value _ _ _ _ _ _ E). mrun. unfold modify. mdone.
  rewrite app_nil_r. reflexivity.
Qed.

Lemma worker_step_blocked env s :
  m_thrd s = Some InWait -> m_evt s = Some false ->
  worker_step env s = (tt, s, []).
Proof. intros H E. unfold worker_step. mrun. rewrite H, E. reflexivity. Qed.

Lemma worker_step_woken env s :
  m_thrd s = Some InWait -> m_evt s = Some true ->
  worker_step env s =
    (tt, with_thrd (Some AtLoopHead) (with_evt (Some false) s), []).
Proof. intros H E. unfold worker_step. mrun. rewrite H, E. mrun. reflexivity. Qed.

(** The passes in which [Map] or the pull reports failure are exactly the
    two that end in the wait. *)
Lemma Loop_pass_failed_pull env s :
  existsb is_failed_map_or_pull (trace_of (Loop_pass env s)) = true ->
  Loop_pass env s = (InWait, s, [Map (hr_Map env); WaitForSingleObject]) \/
  Loop_pass env s =
    (InWait, s,
     [Map (hr_Map env); Toupcam_PullImageWithRowPitch (pull_bits s) (hr_Pull env);
      Unmap; WaitForSingleObject]).
Proof.
  intros H.
  destruct (m_loop s) eqn:L;
    [|rewrite Loop_pass_stopped in H by assumption; discriminate].
  destruct (pending (m_resize s)) eqn:P.
  { exfalso. rewrite Loop_pass_resize in H by assumption.
    cbn [trace_of snd] in H.
    destruct (Resize_int_int_common (loop_resize env)
                (width_of (m_resize s)) (height_of (m_resize s))
                (with_resize 0 s)) as (_ & W & _).
    unfold trace_of in W.
    apply existsb_exists in H. destruct H as (e & He & Hd).
    assert (F : existsb is_frame_work
                  (snd (Resize_int_int (loop_resize env)
                          (width_of (m_resize s)) (height_of (m_resize s))
                          (with_resize 0 s))) = true).
    { apply existsb_exists. exists e. split; [exact He|].
      destruct e; try discriminate; reflexivity. }
    congruence. }
  destruct (SUCCEEDED (hr_Map env)) eqn:Hm;
    [|left; apply Loop_pass_Map_fails; assumption].
  destruct (FAILED (hr_Pull env)) eqn:Hp;
    [right; apply Loop_pass_Pull_fails; assumption|].
  exfalso. rewrite Loop_pass_draw in H by assumption.
  rewrite SetupRtv_paths in H.
  assert (Fm : FAILED (hr_Map env) = false).
  { rewrite FAILED_SUCCEEDED in Hm. now apply negb_true_iff in Hm. }
  destruct (SUCCEEDED (hr_GetBuffer env));
    [destruct (SUCCEEDED (hr_CreateRenderTargetView env))|];
    cbn [result_of trace_of fst snd app existsb is_failed_map_or_pull orb] in H;
    rewrite Fm, Hp in H; discriminate.
Qed.

(** C7.  When [Map] or [Toupcam_PullImageWithRowPitch] fails in a pass of
    the loop, that pass neither draws nor presents, changes nothing in the
    object (both frame counters included), and ends in
    [WaitForSingleObject]; the loop is not left and [m_loop] stays set.
    The worker then stays put until the gate event is signalled, and on
    the signal consumes it and starts the next pass at the head of the
    loop. *)
Theorem pull_failure_is_transient :
  forall (env : LoopEnv) (s : CD3D11Render),
    m_thrd s = Some AtLoopHead ->
    existsb is_failed_map_or_pull (trace_of (worker_step env s)) = true ->
    let r := worker_step env s in
    existsb is_draw_or_present (trace_of r) = false /\
    state_of r = with_thrd (Some InWait) s /\
    m_totalFrame (state_of r) = m_totalFrame s /\
    m_nFrame (state_of r) = m_nFrame s /\
    m_loop (state_of r) = true /\
    last (trace_of r) SetEvent = WaitForSingleObject /\
    (forall env', m_evt s = Some false ->
       worker_step env' (state_of r) = (tt, state_of r, [])) /\
    (forall env', m_evt s = Some true ->
       worker_step env' (state_of r) =
         (tt, with_thrd (Some AtLoopHead) (with_evt (Some false) (state_of r)), [])).
Proof.
  intros env s T F r. subst r.
  rewrite worker_step_at_head in * by assumption.
  cbn [trace_of state_of fst snd] in *.
  assert (L : m_loop s = true).
  { destruct (m_loop s) eqn:L; [reflexivity|].
    rewrite Loop_pass_stopped in F by assumption. discriminate. }
  destruct (Loop_pass_failed_pull env s F) as [E|E]; rewrite E;
    cbn [result_of state_of trace_of fst snd];
    (repeat split;
     [destruct s; assumption
     |intros env' Ev; apply worker_step_blocked; destruct s; auto
     |intros env' Ev; apply worker_step_woken; destruct s; auto]).
Qed.

Lemma pull_failure_is_transient_witness :
  let s := with_thrd (Some AtLoopHead)
             (with_evt (Some false) (constructor false 8 0 1280 960)) in
  let env := {| loop_resize := {| hr_GetDesc := S_OK; hr_ResizeBuffers := S_OK |};
                hr_Map := S_OK; hr_Pull := E_FAIL; hr_GetBuffer := S_OK;
                hr_CreateRenderTargetView := S_OK; hr_Present := S_OK |} in
  existsb is_draw_or_present (trace_of (worker_step env s)) = false /\
  state_of (worker_step env s) = with_thrd (Some InWait) s.
Proof.
  intros s env.
  destruct (pull_failure_is_transient env s eq_refl eq_refl) as (D & S & _).
  split; [exact D|exact S].
Defined.

(** C8.  In a pass that gets as far as the draw stage (the loop is
    running, no resize is pending, [Map] and the pull succeeded) both
    [m_totalFrame] and [m_nFrame] go up by one, as unsigned counters, when
    [Present] succeeds, and stay as they were otherwise: when [Present]
    fails, or when [SetupRtv] obtains no render-target view, in which case
    nothing is drawn or presented.  [SetupRtv] obtains the view exactly
    when [GetBuffer] and [CreateRenderTargetView] both succeed: if
    [GetBuffer] fails the pass stops right after it, if
    [CreateRenderTargetView] fails right after that, and in both cases the
    object is unchanged; if both succeed the target is bound and cleared,
    and the frame is drawn and handed to [Present].  Either way the pass
    ends at the head of the loop with [m_loop] still set. *)
Theorem present_gates_counters :
  forall (env : LoopEnv) (s : CD3D11Render),
    m_loop s = true -> Z.land (m_resize s) 0x80000000 = 0 ->
    SUCCEEDED (hr_Map env) = true -> SUCCEEDED (hr_Pull env) = true ->
    0 <= m_totalFrame s < 2 ^ 32 -> 0 <= m_nFrame s < 2 ^ 32 ->
    let r := Loop_pass env s in
    let presented := existsb is_successful_present (trace_of r) in
    let pulled := [Map (hr_Map env);
                   Toupcam_PullImageWithRowPitch (pull_bits s) (hr_Pull env);
                   Unmap] in
    In (GetBuffer (hr_GetBuffer env)) (trace_of r) /\
    (presented = true ->
       m_totalFrame (state_of r) = wrap32 (m_totalFrame s + 1) /\
       m_nFrame (state_of r) = wrap32 (m_nFrame s + 1)) /\
    (presented = false ->
       m_totalFrame (state_of r) = m_totalFrame s /\
       m_nFrame (state_of r) = m_nFrame s) /\
    (presented = true <->
       m_totalFrame (state_of r) <> m_totalFrame s /\
       m_nFrame (state_of r) <> m_nFrame s) /\
    (presented = true <->
       result_of (SetupRtv env s) = true /\ SUCCEEDED (hr_Present env) = true) /\
    (result_of (SetupRtv env s) = false ->
       existsb is_draw_or_present (trace_of r) = false) /\
    result_of r = AtLoopHead /\
    m_loop (state_of r) = true /\
    (result_of (SetupRtv env s) = true <->
       SUCCEEDED (hr_GetBuffer env) = true /\
       SUCCEEDED (hr_CreateRenderTargetView env) = true) /\
    (presented = true <->
       SUCCEEDED (hr_GetBuffer env) = true /\
       SUCCEEDED (hr_CreateRenderTargetView env) = true /\
       SUCCEEDED (hr_Present env) = true) /\
    (SUCCEEDED (hr_GetBuffer env) = false ->
       trace_of r = pulled ++ [GetBuffer (hr_GetBuffer env)] /\
       state_of r = s) /\
    (SUCCEEDED (hr_GetBuffer env) = true ->
     SUCCEEDED (hr_CreateRenderTargetView env) = false ->
       trace_of r =
         pulled ++ [GetBuffer (hr_GetBuffer env);
                    CreateRenderTargetView (hr_CreateRenderTargetView env)] /\
       state_of r = s) /\
    (SUCCEEDED (hr_GetBuffer env) = true ->
     SUCCEEDED (hr_CreateRenderTargetView env) = true ->
       trace_of r =
         pulled ++ [GetBuffer (hr_GetBuffer env);
                    CreateRenderTargetView (hr_CreateRenderTargetView env);
                    OMSetRenderTargets 1; ClearRenderTargetView;
                    PSSetShaderResources; Draw 4 0;
                    Present 1 (hr_Present env)] /\
       (SUCCEEDED (hr_Present env) = false -> state_of r = s)).
Proof.
  intros env s L P Hm Hp Bt Bn r presented pulled. subst presented r pulled.
  assert (P' : pending (m_resize s) = false).
  { unfold pending, PENDING. rewrite P. reflexivity. }
  assert (Hp' : FAILED (hr_Pull env) = false).
  { rewrite FAILED_SUCCEEDED in Hp. now apply negb_true_iff in Hp. }
  pose proof (wrap32_succ_neq _ Bt) as Nt.
  pose proof (wrap32_succ_neq _ Bn) as Nn.
  rewrite Loop_pass_draw by assumption. rewrite SetupRtv_paths.
  destruct (SUCCEEDED (hr_GetBuffer env)) eqn:G1;
    [destruct (SUCCEEDED (hr_CreateRenderTargetView env)) eqn:G2;
     [destruct (SUCCEEDED (hr_Present env)) eqn:G3|]|];
    cbn [result_of state_of trace_of fst snd app existsb In
         is_successful_present is_draw_or_present orb
         m_totalFrame m_nFrame m_loop with_frames];
    rewrite ?G3; cbn [orb];
    (split; [auto 6|]);
    repeat split; try assumption; try reflexivity; try discriminate;
    try congruence; intros; try tauto;
    try (destruct H; congruence); try (destruct H; discriminate);
    try (destruct H as (? & ? & ?); congruence).
Qed.

Lemma present_gates_counters_witness :
  let s := with_thrd (Some AtLoopHead)
             (with_evt (Some false) (constructor false 8 0 1280 960)) in
  let ok := {| loop_resize := {| hr_GetDesc := S_OK; hr_ResizeBuffers := S_OK |};
               hr_Map := S_OK; hr_Pull := S_OK; hr_GetBuffer := S_OK;
               hr_CreateRenderTargetView := S_OK; hr_Present := S_OK |} in
  let bad := {| loop_resize := {| hr_GetDesc := S_OK; hr_ResizeBuffers := S_OK |};
                hr_Map := S_OK; hr_Pull := S_OK; hr_GetBuffer := S_OK;
                hr_CreateRenderTargetView := S_OK; hr_Present := E_FAIL |} in
  let no_buffer :=
    {| loop_resize := {| hr_GetDesc := S_OK; hr_ResizeBuffers := S_OK |};
       hr_Map := S_OK; hr_Pull := S_OK; hr_GetBuffer := E_FAIL;
       hr_CreateRenderTargetView := S_OK; hr_Present := S_OK |} in
  let no_view :=
    {| loop_resize := {| hr_GetDesc := S_OK; hr_ResizeBuffers := S_OK |};
       hr_Map := S_OK; hr_Pull := S_OK; hr_GetBuffer := S_OK;
       hr_CreateRenderTargetView := E_FAIL; hr_Present := S_OK |} in
  (m_totalFrame (state_of (Loop_pass ok s)) = 1 /\
   m_nFrame (state_of (Loop_pass ok s)) = 1) /\
  (m_totalFrame (state_of (Loop_pass bad s)) = 0 /\
   m_nFrame (state_of (Loop_pass bad s)) = 0) /\
  (trace_of (Loop_pass no_buffer s) =
     [Map S_OK; Toupcam_PullImageWithRowPitch 32 S_OK; Unmap; GetBuffer E_FAIL] /\
   state_of (Loop_pass no_buffer s) = s) /\
  (trace_of (Loop_pass no_view s) =
     [Map S_OK; Toupcam_PullImageWithRowPitch 32 S_OK; Unmap; GetBuffer S_OK;
      CreateRenderTargetView E_FAIL] /\
   state_of (Loop_pass no_view s) = s).
Proof.
  intros s ok bad no_buffer no_view.
  assert (B : 0 <= 0 < 2 ^ 32) by (split; [apply Z.le_refl|reflexivity]).
  destruct (present_gates_counters ok s eq_refl eq_refl eq_refl eq_refl B B)
    as (_ & Hok & _).
  destruct (present_gates_counters bad s eq_refl eq_refl eq_refl eq_refl B B)
    as (_ & _ & Hbad & _).
  destruct (present_gates_counters no_buffer s eq_refl eq_refl eq_refl eq_refl B B)
    as (_ & _ & _ & _ & _ & _ & _ & _ & _ & _ & Hnb & _).
  destruct (present_gates_counters no_view s eq_refl eq_refl eq_refl eq_refl B B)
    as (_ & _ & _ & _ & _ & _ & _ & _ & _ & _ & _ & Hnv & _).
  split; [exact (Hok eq_refl)|]. split; [exact (Hbad eq_refl)|].
  split; [exact (Hnb eq_refl)|exact (Hnv eq_refl eq_refl)].
Defined.

(** ** Initialisation *)

Lemma CreateShaders_result env s :
  let r := CreateShaders env s in
  FAILED (result_of r) = shader_creation_fails env /\
  state_of r = s /\
  forallb is_creation (trace_of r) = true.
Proof.
  intros r. subst r. unfold CreateShaders, shader_creation_fails. mrun.
  destruct (FAILED (hr_CompileVS env)) eqn:H1;
    [mdone; rewrite H1; auto|mrun].
  destruct (FAILED (hr_CreateVertexShader env)) eqn:H2;
    [mdone; rewrite H2; auto|mrun].
  destruct (FAILED (hr_CompilePS env)) eqn:H3;
    [mdone; rewrite H3; auto|mrun].
  destruct (FAILED (hr_CreatePixelShader env)) eqn:H4;
    [mdone; rewrite H4; auto|mrun].
  destruct (FAILED (hr_CreateInputLayout env)) eqn:H5;
    [mdone; rewrite H5; auto|mrun].
  mdone. auto.
Qed.

Lemma wp_bind {A B} (c : M A) (k : A -> M B) s Q :
  wp c s (fun a s1 t1 => wp (k a) s1 (fun b s2 t2 => Q b s2 (t1 ++ t2))) ->
  wp (bind c k) s Q.
Proof. unfold wp, bind. cbn. auto. Qed.

Lemma wp_ret {A} (a : A) s Q : Q a s [] -> wp (ret a) s Q.
Proof. auto. Qed.

Lemma wp_get s Q : Q s s [] -> wp get s Q.
Proof. auto. Qed.

Lemma wp_modify f s Q : Q tt (f s) [] -> wp (modify f) s Q.
Proof. auto. Qed.

Lemma wp_call e s Q : Q tt s [e] -> wp (call e) s Q.
Proof. auto. Qed.

Ltac wp_step :=
  first [apply wp_bind | apply wp_ret | apply wp_get
        | apply wp_modify | apply wp_call]; cbv beta.

Ltac all_creation :=
  repeat progress (cbn [app forallb]; rewrite ?forallb_app).

Lemma Init_fails env s :
  creation_fails env = true ->
  wp (Init env) s
     (fun b s' t => b = false /\ s' = s /\ forallb is_creation t = true).
Proof.
  intros F. unfold creation_fails in F. unfold Init.
  do 4 wp_step.
  destruct (FAILED (hr_CreateDeviceAndSwapChain env)) eqn:H1;
    [wp_step; auto|].
  wp_step.
  assert (G : wp (if has_IDXGIDevice1 env
                  then call (SetMaximumFrameLatency 1) else ret tt) s
                (fun _ s1 t1 => s1 = s /\ forallb is_creation t1 = true)).
  { destruct (has_IDXGIDevice1 env); wp_step; auto. }
  unfold wp at 1. unfold wp in G. destruct G as [-> G].
  do 2 wp_step.
  destruct (FAILED (hr_CreateTexture2D env)) eqn:H2;
    [wp_step; all_creation; rewrite ?G; auto|].
  do 2 wp_step.
  destruct (FAILED (hr_CreateShaderResourceView env)) eqn:H3;
    [wp_step; all_creation; rewrite ?G; auto|].
  wp_step. unfold wp at 1.
  destruct (CreateShaders_result (init_shaders env) s) as (R & -> & T).
  rewrite R.
  destruct (shader_creation_fails (init_shaders env)) eqn:H4;
    [wp_step; all_creation; rewrite ?G, ?T; auto|].
  unfold CreateSampler. do 3 wp_step.
  cbn [orb] in F. rewrite F. wp_step.
  all_creation; rewrite ?G, ?T; auto.
Qed.

(** Without a worker thread no call does more than signal the event. *)
Lemma perform_without_thread a s :
  m_thrd s = None ->
  m_thrd (state_of (perform a s)) = None /\
  forallb is_SetEvent (trace_of (perform a s)) = true.
Proof.
  intros H. destruct a as [|cx cy|tick| |env]; unfold perform.
  - unfold Render, SetEvent_m_evt. mrun. unfold modify. mdone.
    destruct (m_evt s); auto.
  - unfold Resize. mrun.
    destruct (negb (m_windowWidth s =? cx) || negb (m_windowHeight s =? cy));
      [|mdone; auto].
    unfold SetEvent_m_evt. mrun. unfold modify. mdone.
    destruct (m_evt (with_resize (pack cx cy) s)) eqn:E;
      cbn [state_of fst snd m_thrd with_evt with_resize]; auto.
  - unfold GetFrameRate.
    rewrite (bind_value _ _ s (if 500 <? wrap32 (tick - m_nTick s)
                               then Some (m_nFrame s, wrap32 (tick - m_nTick s),
                                          m_totalFrame s)
                               else None)
               (if 500 <? wrap32 (tick - m_nTick s)
                then with_frames (m_totalFrame s) 0 tick s else s) []).
    + mdone. destruct (500 <? wrap32 (tick - m_nTick s)); auto.
    + mrun. destruct (500 <? wrap32 (tick - m_nTick s)); mrun; reflexivity.
  - unfold request_stop. mrun. rewrite H. mdone. auto.
  - unfold worker_step. mrun. rewrite H. mdone. auto.
Qed.

Lemma run_without_thread acts :
  forall s,
    m_thrd s = None ->
    m_thrd (state_of (run acts s)) = None /\
    forallb is_SetEvent (trace_of (run acts s)) = true.
Proof.
  induction acts as [|a acts IH]; intros s H.
  - cbn. auto.
  - cbn [run]. destruct (perform_without_thread a s H) as [H1 T1].
    destruct (IH _ H1) as [H2 T2].
    unfold bind. cbn [result_of state_of trace_of fst snd] in *.
    rewrite forallb_app, T1, T2. auto.
Qed.

Lemma only_SetEvent_no_frame t :
  forallb is_SetEvent t = true -> existsb is_pull_or_present t = false.
Proof.
  induction t as [|e t IH]; [reflexivity|].
  cbn. intros H. apply andb_true_iff in H. destruct H as [He Ht].
  rewrite (IH Ht). destruct e; try discriminate; reflexivity.
Qed.

Lemma only_creation t :
  forallb is_creation t = true ->
  ~ In StartThread t /\ ~ In CreateEvent t /\
  existsb is_pull_or_present t = false.
Proof.
  intros H. rewrite forallb_forall in H. repeat split.
  - intros I. apply H in I. discriminate.
  - intros I. apply H in I. discriminate.
  - destruct (existsb is_pull_or_present t) eqn:E; [|reflexivity].
    apply existsb_exists in E. destruct E as (e & I & P).
    apply H in I. destruct e; discriminate.
Qed.

(** C9.  If any creation step of [Init] fails (device and swap chain,
    texture, shader-resource view, either shader compilation or creation,
    input layout, vertex buffer, sampler), [Init] returns [false] having
    made only creation calls: the gate event is not created, the worker
    thread is not started, and the object is as the constructor left it.
    Whatever the caller does with it afterwards, no frame is pulled or
    presented and no thread appears. *)
Theorem init_failure_is_fatal :
  forall (env : InitEnv) (mono : bool) (bitdepth tick imageWidth imageHeight : Z),
    creation_fails env = true ->
    let s0 := constructor mono bitdepth tick imageWidth imageHeight in
    let r := Init env s0 in
    result_of r = false /\
    state_of r = s0 /\
    m_thrd (state_of r) = None /\
    m_evt (state_of r) = None /\
    ~ In StartThread (trace_of r) /\
    ~ In CreateEvent (trace_of r) /\
    existsb is_pull_or_present (trace_of r) = false /\
    forall acts : list action,
      existsb is_pull_or_present (trace_of (run acts (state_of r))) = false /\
      m_thrd (state_of (run acts (state_of r))) = None.
Proof.
  intros env mono bitdepth tick iw ih F s0 r. subst r.
  destruct (Init_fails env s0 F) as (R & S & T).
  destruct (only_creation _ T) as (N1 & N2 & N3).
  rewrite S. repeat split; try assumption; try reflexivity.
  - apply only_SetEvent_no_frame. apply run_without_thread. reflexivity.
  - apply run_without_thread. reflexivity.
Qed.

Lemma init_failure_is_fatal_witness :
  let env := {| hr_CreateDeviceAndSwapChain := S_OK; has_IDXGIDevice1 := true;
                hr_CreateTexture2D := S_OK; hr_CreateShaderResourceView := S_OK;
                init_shaders :=
                  {| hr_CompileVS := S_OK; hr_CreateVertexShader := S_OK;
                     hr_CompilePS := E_FAIL; hr_CreatePixelShader := S_OK;
                     hr_CreateInputLayout := S_OK; hr_CreateBuffer := S_OK |};
                hr_CreateSamplerState := S_OK; init_client := (800, 600);
                init_resize := {| hr_GetDesc := S_OK; hr_ResizeBuffers := S_OK |} |} in
  let s0 := constructor false 12 0 1280 960 in
  result_of (Init env s0) = false /\ m_thrd (state_of (Init env s0)) = None.
Proof.
  intros env s0.
  destruct (init_failure_is_fatal env false 12 0 1280 960 eq_refl)
    as (R & _ & T & _).
  split; [exact R|exact T].
Defined.

(** ** A refused resize *)

Example session_800_600_started :
  result_of (Init init_ok (constructor false 8 0 1280 960)) = true /\
  m_thrd session_800_600 = Some AtLoopHead /\
  m_evt session_800_600 = Some false /\
  (m_windowWidth session_800_600, m_windowHeight session_800_600) = (800, 600).
Proof. vm_compute. auto. Qed.

(** A short life of that session: the first pass finds no frame and waits;
    [Render] signals the event; the worker wakes, pulls, draws and
    presents; 600 ms after construction [GetFrameRate] reports one frame
    and restarts its window. *)
Example session_800_600_runs :
  let r := run [Worker pass_no_frame; Worker pass_ok; CallRender;
                Worker pass_ok; Worker pass_ok] session_800_600 in
  existsb is_successful_present (trace_of r) = true /\
  (m_totalFrame (state_of r), m_nFrame (state_of r)) = (1, 1) /\
  GetFrameRate 600 (state_of r) =
    (Some (1, 600, 1), with_frames 1 0 600 (state_of r), []).
Proof. vm_compute. auto. Qed.

(** The wording of C4 fails: after [ResizeBuffers] has refused the new
    size, the very next pass pulls a frame and presents it. *)
Lemma fatal_at_resize_fails :
  ~ fatal_at_resize_as_stated
      (state_of (Resize 1024 768 session_800_600))
      pass_resize_refused [Worker pass_ok].
Proof.
  intros H.
  specialize (H ltac:(vm_compute; reflexivity) ltac:(vm_compute; reflexivity)
                ltac:(vm_compute; reflexivity) ltac:(vm_compute; reflexivity)).
  vm_compute in H. discriminate.
Qed.

Lemma with_thrd_same s p : m_thrd s = Some p -> with_thrd (Some p) s = s.
Proof. destruct s; cbn. intros ->. reflexivity. Qed.

Lemma Resize_int_int_fails env w h s :
  resize_fails env = true ->
  let r := Resize_int_int env w h s in
  FAILED (result_of r) = true /\
  state_of r = with_window w h s /\
  (forall vp, ~ In (RSSetViewports vp) (trace_of r)).
Proof.
  intros F r. subst r. unfold resize_fails in F.
  destruct (FAILED (hr_GetDesc env)) eqn:H1.
  - rewrite Resize_int_int_GetDesc_fails by assumption.
    cbn [result_of state_of trace_of fst snd]. repeat split; auto.
    intros vp [E|[E|[E|E]]]; try discriminate; contradiction.
  - cbn [orb] in F. rewrite Resize_int_int_ResizeBuffers_fails by assumption.
    cbn [result_of state_of trace_of fst snd]. repeat split; auto.
    intros vp [E|[E|[E|[E|E]]]]; try discriminate; contradiction.
Qed.

(** C4, amended.  When [GetDesc] or [ResizeBuffers] fails, [Resize(int,
    int)] returns the failing [HRESULT] and sets no viewport, and [Loop]
    drops that value: the pass records the requested window size, clears
    the register, leaves the viewport as it was and goes back to the head
    of the loop with [m_loop] still set.  If every call of the next pass
    succeeds, that pass pulls a frame, presents it and counts it. *)
Theorem resize_failure_is_dropped :
  forall (env : LoopEnv) (s : CD3D11Render),
    m_thrd s = Some AtLoopHead -> m_loop s = true ->
    Z.land (m_resize s) 0x80000000 <> 0 ->
    resize_fails (loop_resize env) = true ->
    let w := Z.land (Z.shiftr (m_resize s) 16) 0x7fff in
    let h := Z.land (m_resize s) 0x7fff in
    let r := worker_step env s in
    FAILED (result_of (Resize_int_int (loop_resize env) w h (with_resize 0 s))) = true /\
    state_of r = with_window w h (with_resize 0 s) /\
    viewport (state_of r) = viewport s /\
    (forall vp, ~ In (RSSetViewports vp) (trace_of r)) /\
    m_loop (state_of r) = true /\
    m_thrd (state_of r) = Some AtLoopHead /\
    forall env' : LoopEnv,
      all_succeed env' = true ->
      let r' := worker_step env' (state_of r) in
      In (Toupcam_PullImageWithRowPitch (pull_bits s) (hr_Pull env')) (trace_of r') /\
      In (Present 1 (hr_Present env')) (trace_of r') /\
      m_totalFrame (state_of r') = wrap32 (m_totalFrame s + 1) /\
      m_nFrame (state_of r') = wrap32 (m_nFrame s + 1).
Proof.
  intros env s T L P F w h r. subst r. apply pending_iff in P.
  destruct (Resize_int_int_fails (loop_resize env) w h (with_resize 0 s) F)
    as (R & S & V).
  rewrite worker_step_at_head by assumption.
  rewrite Loop_pass_resize by assumption.
  change (width_of (m_resize s)) with w. change (height_of (m_resize s)) with h.
  cbn [result_of state_of trace_of fst snd] in *.
  rewrite S.
  assert (E : with_thrd (Some AtLoopHead) (with_window w h (with_resize 0 s))
              = with_window w h (with_resize 0 s)).
  { apply with_thrd_same. exact T. }
  rewrite E.
  split; [exact R|]. split; [reflexivity|]. split; [reflexivity|].
  split; [exact V|]. split; [exact L|]. split; [exact T|].
  intros env' A.
  unfold all_succeed in A; rewrite !andb_true_iff in A.
  destruct A as ((((A1 & A2) & A3) & A4) & A5).
  rewrite worker_step_at_head by exact T.
  rewrite Loop_pass_draw;
    [|exact L|reflexivity|exact A1
     |rewrite FAILED_SUCCEEDED in A2; now apply negb_true_iff in A2].
  rewrite SetupRtv_paths, A3, A4, A5.
  cbn [result_of state_of trace_of fst snd app In].
  repeat split; auto 12.
Qed.

Lemma resize_failure_is_dropped_witness :
  let s := state_of (Resize 1024 768 session_800_600) in
  let r := worker_step pass_resize_refused s in
  (m_windowWidth (state_of r), m_windowHeight (state_of r)) = (1024, 768) /\
  viewport (state_of r) = viewport session_800_600 /\
  m_totalFrame (state_of (worker_step pass_ok (state_of r))) = 1.
Proof.
  intros s r. subst r.
  destruct (resize_failure_is_dropped pass_resize_refused s eq_refl eq_refl
              ltac:(vm_compute; discriminate) eq_refl)
    as (_ & S & V & _ & _ & _ & N).
  destruct (N pass_ok eq_refl) as (_ & _ & C & _).
  split; [rewrite S; reflexivity|split; [exact V|exact C]].
Defined.

(** ** Coalescing of resize requests *)

(** Coalescing as worded fails when the window is taken back to the size
    already applied before the worker has looked at the register:
    [Resize()] compares the client size with [m_windowWidth] and
    [m_windowHeight], which still hold 800 x 600, stores nothing for the
    second notification, and the pass applies 1024 x 768. *)
Lemma coalescing_fails_on_return_to_applied_size :
  ~ coalescing_as_stated session_800_600 [(1024, 768); (800, 600)] pass_ok.
Proof.
  intros H.
  destruct (H ltac:(discriminate) ltac:(vm_compute; reflexivity)) as [C _].
  vm_compute in C. discriminate.
Qed.

Lemma run_app l1 l2 s :
  state_of (run (l1 ++ l2) s) = state_of (run l2 (state_of (run l1 s))).
Proof.
  revert s. induction l1 as [|a l1 IH]; intros s; [reflexivity|].
  cbn [app run]. unfold bind. cbn [state_of result_of fst snd]. apply IH.
Qed.

Lemma Resize_changed cx cy s :
  cx <> m_windowWidth s \/ cy <> m_windowHeight s ->
  Resize cx cy s =
    (tt,
     match m_evt s with
     | Some _ => with_evt (Some true) (with_resize (pack cx cy) s)
     | None => with_resize (pack cx cy) s
     end,
     [SetEvent]).
Proof.
  intros H. unfold Resize. mrun.
  assert (G : negb (m_windowWidth s =? cx) || negb (m_windowHeight s =? cy) = true).
  { apply orb_true_iff. destruct H as [H|H]; [left|right];
      apply negb_true_iff, Z.eqb_neq; congruence. }
  rewrite G. unfold SetEvent_m_evt. mrun. unfold modify. mdone.
  cbn [m_evt with_resize]. destruct (m_evt s); reflexivity.
Qed.

Lemma Resize_unchanged s :
  Resize (m_windowWidth s) (m_windowHeight s) s = (tt, s, []).
Proof. unfold Resize. mrun. rewrite !Z.eqb_refl. reflexivity. Qed.

(** A notification touches the register and the event, nothing else. *)
Lemma Resize_frame cx cy s :
  let s' := state_of (Resize cx cy s) in
  m_windowWidth s' = m_windowWidth s /\ m_windowHeight s' = m_windowHeight s /\
  m_loop s' = m_loop s /\ m_thrd s' = m_thrd s /\
  m_totalFrame s' = m_totalFrame s /\ m_nFrame s' = m_nFrame s /\
  (m_evt s = None <-> m_evt s' = None).
Proof.
  intros s'. subst s'.
  destruct (Z.eq_dec cx (m_windowWidth s)) as [->|Hx];
    [destruct (Z.eq_dec cy (m_windowHeight s)) as [->|Hy]|].
  - rewrite Resize_unchanged. cbn. tauto.
  - rewrite Resize_changed by auto. cbn [state_of fst snd].
    destruct (m_evt s) eqn:E; cbn; rewrite ?E; repeat split; auto; discriminate.
  - rewrite Resize_changed by auto. cbn [state_of fst snd].
    destruct (m_evt s) eqn:E; cbn; rewrite ?E; repeat split; auto; discriminate.
Qed.

Lemma requests_frame sizes :
  forall s,
    let s' := state_of (run (requests sizes) s) in
    m_windowWidth s' = m_windowWidth s /\ m_windowHeight s' = m_windowHeight s /\
    m_loop s' = m_loop s /\ m_thrd s' = m_thrd s /\
    m_totalFrame s' = m_totalFrame s /\ m_nFrame s' = m_nFrame s /\
    (m_evt s = None <-> m_evt s' = None).
Proof.
  induction sizes as [|[cx cy] sizes IH]; intros s; [cbn; tauto|].
  cbn [requests map run perform fst snd]. unfold bind.
  cbn [state_of result_of fst snd].
  destruct (Resize_frame cx cy s) as (A1 & A2 & A3 & A4 & A5 & A6 & A7).
  specialize (IH (state_of (Resize cx cy s))).
  cbv zeta in IH. unfold state_of, requests in *.
  destruct IH as (B1 & B2 & B3 & B4 & B5 & B6 & B7).
  rewrite B1, B2, B3, B4, B5, B6, <- B7. tauto.
Qed.

(** A pass that finds nothing pending does not enter [Resize(int, int)]. *)
Lemma Loop_pass_no_resize env s :
  pending (m_resize s) = false -> resize_calls (trace_of (Loop_pass env s)) = [].
Proof.
  intros P.
  destruct (m_loop s) eqn:L; [|rewrite Loop_pass_stopped by assumption; reflexivity].
  destruct (SUCCEEDED (hr_Map env)) eqn:Hm;
    [|rewrite Loop_pass_Map_fails by assumption; reflexivity].
  destruct (FAILED (hr_Pull env)) eqn:Hp;
    [rewrite Loop_pass_Pull_fails by assumption; reflexivity|].
  rewrite Loop_pass_draw by assumption. rewrite SetupRtv_paths.
  destruct (SUCCEEDED (hr_GetBuffer env));
    [destruct (SUCCEEDED (hr_CreateRenderTargetView env))|]; reflexivity.
Qed.

(** The bursts the guard of [Resize()] handles.  After a burst of one or
    more resize notifications whose last client size lies within 0..32767
    in both directions and differs from the window size currently
    applied, the gate event is signalled and the next pass of the loop
    enters [Resize(int, int)] exactly once, with exactly that last size;
    afterwards the register is zero, so the pending bit is clear, and a
    further pass applies nothing. *)
Theorem resize_coalescing :
  forall (s : CD3D11Render) (earlier : list (Z * Z)) (cx cy : Z) (env : LoopEnv),
    m_loop s = true ->
    0 <= cx <= 32767 -> 0 <= cy <= 32767 ->
    cx <> m_windowWidth s \/ cy <> m_windowHeight s ->
    let s1 := state_of (run (requests (earlier ++ [(cx, cy)])) s) in
    let r := Loop_pass env s1 in
    (m_evt s <> None -> m_evt s1 = Some true) /\
    resize_calls (trace_of r) = [(cx, cy)] /\
    m_resize (state_of r) = 0 /\
    Z.land (m_resize (state_of r)) 0x80000000 = 0 /\
    m_windowWidth (state_of r) = cx /\ m_windowHeight (state_of r) = cy /\
    forall env' : LoopEnv,
      resize_calls (trace_of (Loop_pass env' (state_of r))) = [].
Proof.
  intros s earlier cx cy env L Bx By D s1 r.
  assert (E1 : s1 = state_of (Resize cx cy (state_of (run (requests earlier) s)))).
  { subst s1. unfold requests. rewrite map_app, run_app.
    cbn [map run perform fst snd]. unfold bind.
    cbn [state_of result_of fst snd]. reflexivity. }
  destruct (requests_frame earlier s) as (F1 & F2 & F3 & _ & _ & _ & F7).
  set (s0 := state_of (run (requests earlier) s)) in *.
  rewrite Resize_changed in E1 by (rewrite F1, F2; exact D).
  cbn [state_of fst snd] in E1.
  assert (R1 : m_resize s1 = pack cx cy).
  { rewrite E1. destruct (m_evt s0); reflexivity. }
  assert (L1 : m_loop s1 = true).
  { rewrite E1. destruct (m_evt s0); cbn; congruence. }
  assert (V1 : m_evt s <> None -> m_evt s1 = Some true).
  { intros N. rewrite E1. destruct (m_evt s0) eqn:E0; [reflexivity|].
    exfalso. apply N. apply F7. reflexivity. }
  assert (P1 : pending (m_resize s1) = true) by (rewrite R1; apply pending_pack).
  pose proof (unpack_pack cx cy Bx By) as U. unfold unpack in U.
  injection U as Uw Uh.
  subst r. rewrite Loop_pass_resize by assumption.
  rewrite R1, Uw, Uh. cbn [state_of trace_of fst snd].
  destruct (Resize_int_int_common (loop_resize env) cx cy (with_resize 0 s1))
    as (C & _ & _ & W & H & R & _ & _ & _ & L2 & _).
  unfold state_of, trace_of in *.
  split; [exact V1|]. split; [exact C|].
  split; [rewrite R; reflexivity|]. split; [rewrite R; reflexivity|].
  split; [exact W|]. split; [exact H|].
  intros env'. apply Loop_pass_no_resize. rewrite R. reflexivity.
Qed.

Lemma resize_coalescing_witness :
  let s1 := state_of (run (requests [(900, 700); (1024, 768); (1920, 1080)])
                          session_800_600) in
  resize_calls (trace_of (Loop_pass pass_ok s1)) = [(1920, 1080)] /\
  m_resize (state_of (Loop_pass pass_ok s1)) = 0.
Proof.
  intros s1.
  destruct (resize_coalescing session_800_600 [(900, 700); (1024, 768)]
              1920 1080 pass_ok eq_refl
              ltac:(split; discriminate) ltac:(split; discriminate)
              ltac:(left; discriminate))
    as (_ & C & R & _).
  split; [exact C|exact R].
Defined.

(** C1.  The last request of a burst is lost when it returns to the size
    the worker applied last.  With 800 x 600 applied, the notifications
    1024 x 768 and 800 x 600 arrive before the worker reads the register.
    [Resize()] stores the first; for the second it compares the client
    size with [m_windowWidth] and [m_windowHeight], finds them equal (they
    still hold the size applied, not the size requested) and stores
    nothing.  The register keeps 1024 x 768, the pass applies that size
    and clears the register, and no later pass applies anything: the swap
    chain and the viewport stay at 1024 x 768 in a window of 800 x 600.
    The claim asks for the last pair, 800 x 600. *)
Theorem last_request_is_lost_on_return_to_applied_size :
  let burst := requests [(1024, 768); (800, 600)] in
  let s1 := state_of (run burst session_800_600) in
  let r := Loop_pass pass_ok s1 in
  (m_windowWidth session_800_600 = 800 /\
   m_windowHeight session_800_600 = 600) /\
  state_of (Resize 800 600 (state_of (Resize 1024 768 session_800_600))) =
    state_of (Resize 1024 768 session_800_600) /\
  trace_of (run burst session_800_600) = [SetEvent] /\
  unpack (m_resize s1) = (1024, 768) /\
  resize_calls (trace_of r) = [(1024, 768)] /\
  (m_windowWidth (state_of r) = 1024 /\ m_windowHeight (state_of r) = 768) /\
  m_resize (state_of r) = 0 /\
  (forall env' : LoopEnv,
     resize_calls (trace_of (Loop_pass env' (state_of r))) = []) /\
  ~ coalescing_as_stated session_800_600 [(1024, 768); (800, 600)] pass_ok.
Proof.
  cbv zeta.
  split; [split; vm_compute; reflexivity|].
  split; [vm_compute; reflexivity|].
  split; [vm_compute; reflexivity|].
  split; [vm_compute; reflexivity|].
  split; [vm_compute; reflexivity|].
  split; [split; vm_compute; reflexivity|].
  split; [vm_compute; reflexivity|].
  split.
  - intros env'. apply Loop_pass_no_resize. vm_compute. reflexivity.
  - intros H.
    destruct (H ltac:(discriminate) ltac:(vm_compute; reflexivity)) as [C _].
    vm_compute in C. discriminate.
Qed.

(** ** Viewport geometry *)

Lemma to_int_floor (x : Q) : (0 <= x)%Q -> to_int x = Qfloor x.
Proof.
  destruct x as [n d]. unfold Qle, to_int, Qfloor; cbn [Qnum Qden].
  intros H. apply Z.quot_div_nonneg; lia.
Qed.

Lemma of_int_exact n : Z.abs n < 2 ^ 23 -> of_int n = inject_Z n.
Proof. intros H. unfold of_int. apply round_int. exact H. Qed.

Lemma inject_Z_pos n : 1 <= n -> (0 < inject_Z n)%Q.
Proof. intros H. change 0%Q with (inject_Z 0). rewrite <- Zlt_Qlt. lia. Qed.

Lemma round24_rel x :
  (0 < x)%Q ->
  (x * (1 - (1 # 16777216)) <= round 24 x /\
   round 24 x <= x * (1 + (1 # 16777216)))%Q.
Proof. intros H. apply (round_rel 24 x); [lia|exact H]. Qed.

(** The scale held in the [float] is the exact one up to two roundings'
    worth of relative error: one from each division, of which [__min]
    keeps one. *)
Lemma scale_tolerance Iw Ih Ww Wh :
  1 <= Iw < 2 ^ 23 -> 1 <= Ih < 2 ^ 23 -> 1 <= Ww < 2 ^ 23 -> 1 <= Wh < 2 ^ 23 ->
  let e := Qmin (inject_Z Ww / inject_Z Iw) (inject_Z Wh / inject_Z Ih) in
  let s := fmin (fdiv (of_int Ww) (of_int Iw)) (fdiv (of_int Wh) (of_int Ih)) in
  (0 < e /\ e * (1 - (1 # 16777216)) <= s /\ s <= e * (1 + (1 # 16777216)))%Q.
Proof.
  intros BIw BIh BWw BWh e s. subst s.
  rewrite !of_int_exact by lia. unfold fdiv, fmin, fltb.
  pose proof (inject_Z_pos Iw ltac:(lia)) as PIw.
  pose proof (inject_Z_pos Ih ltac:(lia)) as PIh.
  pose proof (inject_Z_pos Ww ltac:(lia)) as PWw.
  pose proof (inject_Z_pos Wh ltac:(lia)) as PWh.
  set (a := (inject_Z Ww / inject_Z Iw)%Q) in *.
  set (b := (inject_Z Wh / inject_Z Ih)%Q) in *.
  assert (Pa : (0 < a)%Q).
  { unfold a. apply Qlt_shift_div_l; [exact PIw|]. rewrite Qmult_0_l. exact PWw. }
  assert (Pb : (0 < b)%Q).
  { unfold b. apply Qlt_shift_div_l; [exact PIh|]. rewrite Qmult_0_l. exact PWh. }
  destruct (round24_rel a Pa) as [La Ua].
  destruct (round24_rel b Pb) as [Lb Ub].
  assert (Pe : (0 < e)%Q) by (apply Q.min_glb_lt; assumption).
  pose proof (Q.le_min_l a b) as Ea. pose proof (Q.le_min_r a b) as Eb.
  fold e in Ea, Eb.
  split; [exact Pe|].
  destruct (Qle_bool (round 24 b) (round 24 a)) eqn:C; cbn [negb].
  - apply Qle_bool_iff in C.
    destruct (Q.min_spec a b) as [[_ E]|[_ E]]; fold e in E; split; lra.
  - assert (C' : (round 24 a < round 24 b)%Q).
    { apply Qnot_le_lt. intros H. apply Qle_bool_iff in H. congruence. }
    destruct (Q.min_spec a b) as [[_ E]|[_ E]]; fold e in E; split; lra.
Qed.

(** One direction of the viewport: the image extent times the scale,
    rounded to [float] and cut to an [int]. *)
Lemma extent_tolerance (I : Z) (e s : Q) :
  1 <= I < 2 ^ 23 ->
  (0 < e)%Q ->
  (e * (1 - (1 # 16777216)) <= s)%Q -> (s <= e * (1 + (1 # 16777216)))%Q ->
  let v := to_int (fmul (of_int I) s) in
  let M := (inject_Z I * e)%Q in
  0 <= v /\
  (M * (1 - (1 # 16777216)) * (1 - (1 # 16777216)) - 1 < inject_Z v)%Q /\
  (inject_Z v <= M * (1 + (1 # 16777216)) * (1 + (1 # 16777216)))%Q.
Proof.
  intros BI Pe Ls Us v M. subst v M.
  rewrite of_int_exact by lia.
  pose proof (inject_Z_pos I ltac:(lia)) as PI.
  assert (Ps : (0 < s)%Q) by lra.
  set (x := (inject_Z I * s)%Q).
  assert (Px : (0 < x)%Q) by (unfold x; apply Qmult_lt_0_compat; assumption).
  assert (Lx : (inject_Z I * e * (1 - (1 # 16777216)) <= x)%Q).
  { unfold x. rewrite <- Qmult_assoc. apply Qmult_le_l; assumption. }
  assert (Ux : (x <= inject_Z I * e * (1 + (1 # 16777216)))%Q).
  { unfold x. rewrite <- Qmult_assoc. apply Qmult_le_l; assumption. }
  unfold fmul. fold x.
  destruct (round24_rel x Px) as [Lp Up].
  set (p := round 24 x) in *.
  assert (Pp : (0 <= p)%Q) by lra.
  rewrite to_int_floor by exact Pp.
  pose proof (Qfloor_le p) as F1. pose proof (Qlt_floor p) as F2.
  rewrite inject_Z_plus in F2. change (inject_Z 1) with 1%Q in F2.
  set (M := (inject_Z I * e)%Q) in *.
  split; [|split; lra].
  change 0 with (Qfloor 0). apply Qfloor_resp_le. exact Pp.
Qed.

Lemma of_int_rel n :
  1 <= n ->
  (0 < of_int n /\
   inject_Z n * (1 - (1 # 16777216)) <= of_int n /\
   of_int n <= inject_Z n * (1 + (1 # 16777216)))%Q.
Proof.
  intros H. pose proof (inject_Z_pos n H) as P.
  destruct (round24_rel (inject_Z n) P) as [L U].
  unfold of_int. split; [lra|split; assumption].
Qed.





(** The bound is that of single precision, not of the proof.  From 2^23
    on the product is rounded to a whole number and may be rounded up
    past the window: an image 2486 wide in a window 11573757 wide gets a
    viewport 11573758 wide.  From 2^24 on an [int] need not be its own
    [float], and the width computed for a window of 16777219 pixels is
    16777220.  Direct3D 11 accepts no side above 16384 and the resize
    register none above 32767. *)
Example single_precision_limit :
  viewport_rect 2486 1 11573757 16777216 = (0, 8386280, 11573758, 4655) /\
  viewport_rect 16777219 1 16777219 1 = (0, 0, 16777220, 1).
Proof. vm_compute. split; reflexivity. Qed.


(** * Further properties of the class *)

(** ** Polling the frame rate *)

Lemma wrap32_sub_wrap a b : wrap32 (wrap32 a - wrap32 b) = wrap32 (a - b).
Proof. unfold wrap32. symmetry. apply Zminus_mod. Qed.

Lemma run_cons a acts s :
  run (a :: acts) s =
    (result_of (run acts (state_of (perform a s))),
     state_of (run acts (state_of (perform a s))),
     trace_of (perform a s) ++ trace_of (run acts (state_of (perform a s)))).
Proof. reflexivity. Qed.

Lemma perform_poll tick s :
  perform (CallGetFrameRate tick) s =
    (tt, state_of (GetFrameRate tick s), trace_of (GetFrameRate tick s)).
Proof.
  unfold perform, bind, ret. cbn [result_of state_of trace_of fst snd].
  rewrite app_nil_r. reflexivity.
Qed.

(** The elapsed time is that of the clock, modulo 2^32 ms: the wrap of
    the 32-bit tick between two readings does not disturb it.  So a
    sample taken less than 2^32 ms after the previous one reports the
    true interval. *)
Theorem frame_rate_across_tick_wrap :
  forall (s : CD3D11Render) (ms1 ms2 : Z),
    m_nTick s = get_precise_tick ms1 ->
    let r := GetFrameRate (get_precise_tick ms2) s in
    let d := (ms2 - ms1) mod 2 ^ 32 in
    (d <= 500 -> r = (None, s, [])) /\
    (500 < d -> result_of r = Some (m_nFrame s, d, m_totalFrame s)) /\
    (0 <= ms2 - ms1 < 2 ^ 32 -> 500 < ms2 - ms1 ->
     result_of r = Some (m_nFrame s, ms2 - ms1, m_totalFrame s)).
Proof.
  intros s ms1 ms2 H r d. subst r d.
  assert (E : wrap32 (get_precise_tick ms2 - m_nTick s) = (ms2 - ms1) mod 2 ^ 32).
  { rewrite H. unfold get_precise_tick. apply wrap32_sub_wrap. }
  split; [|split].
  - intros L. apply GetFrameRate_quiet. rewrite E. exact L.
  - intros L. rewrite GetFrameRate_sample by (rewrite E; exact L).
    cbn [result_of fst]. rewrite E. reflexivity.
  - intros B L. rewrite GetFrameRate_sample by (rewrite E, Z.mod_small; assumption).
    cbn [result_of fst]. rewrite E, Z.mod_small by assumption. reflexivity.
Qed.

Lemma frame_rate_across_tick_wrap_witness :
  let s := with_frames 90 30 (get_precise_tick 4294967196)
             (constructor false 8 0 1280 960) in
  result_of (GetFrameRate (get_precise_tick 4294967896) s) = Some (30, 700, 90).
Proof.
  intros s.
  destruct (frame_rate_across_tick_wrap s 4294967196 4294967896 eq_refl)
    as (_ & _ & H).
  apply H.
  - split; [discriminate|reflexivity].
  - reflexivity.
Defined.

Lemma early_polls_quiet ticks :
  forall s,
    Forall (fun t => wrap32 (t - m_nTick s) <= 500) ticks ->
    run (polls ticks) s = (tt, s, []).
Proof.
  induction ticks as [|t ticks IH]; intros s H; [reflexivity|].
  inversion H as [|? ? Ht Hts]; subst.
  cbn [polls map]. rewrite run_cons, perform_poll.
  rewrite GetFrameRate_quiet by exact Ht.
  cbn [state_of trace_of fst snd app]. fold (polls ticks).
  rewrite (IH s Hts). reflexivity.
Qed.

(** Polling too early costs nothing: calls made while at most 500 ms
    have passed since the last sample leave the object as it was and
    postpone nothing, so the next call past 500 ms reports exactly what it
    would have reported without them. *)
Theorem early_polls_postpone_nothing :
  forall (s : CD3D11Render) (early : list Z) (tick : Z),
    Forall (fun t => wrap32 (t - m_nTick s) <= 500) early ->
    let s' := state_of (run (polls early) s) in
    s' = s /\
    trace_of (run (polls early) s) = [] /\
    GetFrameRate tick s' = GetFrameRate tick s /\
    (500 < wrap32 (tick - m_nTick s) ->
     result_of (GetFrameRate tick s') =
       Some (m_nFrame s, wrap32 (tick - m_nTick s), m_totalFrame s)).
Proof.
  intros s early tick H s'. subst s'.
  rewrite (early_polls_quiet early s H). cbn [state_of trace_of fst snd].
  repeat split. intros L. rewrite GetFrameRate_sample by exact L. reflexivity.
Qed.

Lemma early_polls_postpone_nothing_witness :
  let s := with_frames 90 30 1000 (constructor false 8 1000 1280 960) in
  result_of (GetFrameRate 1501
               (state_of (run (polls [1100; 1300; 1500]) s))) =
    Some (30, 501, 90).
Proof.
  intros s.
  assert (E : Forall (fun t => wrap32 (t - m_nTick s) <= 500) [1100; 1300; 1500]).
  { repeat constructor; discriminate. }
  destruct (early_polls_postpone_nothing s [1100; 1300; 1500] 1501 E)
    as (_ & _ & _ & H).
  apply H. reflexivity.
Defined.

(** ** Counting the frames presented *)

Lemma Render_value s :
  Render s =
    (tt, match m_evt s with Some _ => with_evt (Some true) s | None => s end,
     [SetEvent]).
Proof. unfold Render, SetEvent_m_evt. mrun. unfold modify. mdone. reflexivity. Qed.

Lemma request_stop_value s :
  request_stop s =
    match m_thrd s with
    | Some _ =>
        (tt, match m_evt s with
             | Some _ => with_evt (Some true) (with_loop false s)
             | None => with_loop false s
             end, [SetEvent])
    | None => (tt, s, [])
    end.
Proof.
  unfold request_stop. mrun. destruct (m_thrd s); [|reflexivity].
  mrun. unfold SetEvent_m_evt. mrun. unfold modify. mdone.
  cbn [m_evt with_loop]. destruct (m_evt s); reflexivity.
Qed.

Lemma worker_step_wait_fails env s :
  m_thrd s = Some InWait -> m_evt s = None ->
  worker_step env s = (tt, with_thrd (Some AtLoopHead) s, []).
Proof. intros H E. unfold worker_step. mrun. rewrite H, E. mrun. reflexivity. Qed.

Lemma worker_step_returned env s :
  m_thrd s = Some Returned -> worker_step env s = (tt, s, []).
Proof. intros H. unfold worker_step. mrun. rewrite H. reflexivity. Qed.

Lemma worker_step_no_thread env s :
  m_thrd s = None -> worker_step env s = (tt, s, []).
Proof. intros H. unfold worker_step. mrun. rewrite H. reflexivity. Qed.

Lemma presented_app t1 t2 : presented (t1 ++ t2) = presented t1 + presented t2.
Proof.
  unfold presented. rewrite filter_app, length_app, Nat2Z.inj_add. reflexivity.
Qed.

Lemma presented_no_frame_work t :
  existsb is_frame_work t = false -> presented t = 0.
Proof.
  unfold presented. induction t as [|e t IH]; [reflexivity|].
  cbn [existsb filter]. intros H. apply orb_false_iff in H. destruct H as [He Ht].
  destruct e; cbn in He; try discriminate; cbn [is_successful_present];
    apply IH; exact Ht.
Qed.

Lemma wrap32_add_0 n : 0 <= n < 2 ^ 32 -> wrap32 (n + 0) = n.
Proof. intros H. rewrite Z.add_0_r. apply wrap32_small. exact H. Qed.

(** What a pass does to the counters, path by path. *)
Lemma Loop_pass_counts env s :
  counters_in_range s ->
  let r := Loop_pass env s in
  counters_in_range (state_of r) /\
  m_totalFrame (state_of r) = wrap32 (m_totalFrame s + presented (trace_of r)) /\
  m_nFrame (state_of r) = wrap32 (m_nFrame s + presented (trace_of r)) /\
  m_nTick (state_of r) = m_nTick s.
Proof.
  intros [Bt Bn] r. subst r. unfold counters_in_range.
  destruct (m_loop s) eqn:L.
  2:{ rewrite Loop_pass_stopped by assumption.
      cbn [state_of trace_of fst snd]. change (presented []) with 0.
      rewrite !wrap32_add_0 by assumption. auto. }
  destruct (pending (m_resize s)) eqn:P.
  { rewrite Loop_pass_resize by assumption. cbn [state_of trace_of fst snd].
    destruct (Resize_int_int_common (loop_resize env)
                (width_of (m_resize s)) (height_of (m_resize s))
                (with_resize 0 s))
      as (_ & W & _ & _ & _ & _ & T & F & K & _).
    unfold state_of, trace_of in *.
    rewrite (presented_no_frame_work _ W), T, F, K. cbn [m_totalFrame m_nFrame m_nTick with_resize].
    rewrite !wrap32_add_0 by assumption. auto. }
  destruct (SUCCEEDED (hr_Map env)) eqn:Hm.
  2:{ rewrite Loop_pass_Map_fails by assumption.
      cbn [state_of trace_of fst snd]. change (presented _) with 0.
      rewrite !wrap32_add_0 by assumption. auto. }
  destruct (FAILED (hr_Pull env)) eqn:Hp.
  { rewrite Loop_pass_Pull_fails by assumption.
    cbn [state_of trace_of fst snd]. change (presented _) with 0.
    rewrite !wrap32_add_0 by assumption. auto. }
  rewrite Loop_pass_draw by assumption. rewrite SetupRtv_paths.
  destruct (SUCCEEDED (hr_GetBuffer env));
    [destruct (SUCCEEDED (hr_CreateRenderTargetView env));
     [destruct (SUCCEEDED (hr_Present env)) eqn:G|]|];
    cbn [result_of state_of trace_of fst snd app];
    unfold presented; cbn [filter is_successful_present]; rewrite ?G;
    cbn [List.length Z.of_nat Pos.of_succ_nat m_totalFrame m_nFrame m_nTick with_frames];
    rewrite ?wrap32_add_0 by assumption;
    repeat split; auto; try apply wrap32_range; try apply Bt; try apply Bn.
Qed.

Lemma worker_step_counts env s :
  counters_in_range s ->
  let r := worker_step env s in
  counters_in_range (state_of r) /\
  m_totalFrame (state_of r) = wrap32 (m_totalFrame s + presented (trace_of r)) /\
  m_nFrame (state_of r) = wrap32 (m_nFrame s + presented (trace_of r)) /\
  m_nTick (state_of r) = m_nTick s.
Proof.
  intros B r. subst r. pose proof B as [Bt Bn].
  destruct (m_thrd s) as [[| |]|] eqn:T.
  - rewrite worker_step_at_head by assumption.
    cbn [state_of trace_of fst snd].
    destruct (Loop_pass_counts env s B) as (R & A1 & A2 & A3).
    unfold counters_in_range in *. split; [exact R|auto].
  - destruct (m_evt s) as [[|]|] eqn:E.
    + rewrite worker_step_woken by assumption.
      cbn [state_of trace_of fst snd]. change (presented []) with 0.
      cbn [m_totalFrame m_nFrame m_nTick with_thrd with_evt].
      rewrite !wrap32_add_0 by assumption. auto.
    + rewrite worker_step_blocked by assumption.
      cbn [state_of trace_of fst snd]. change (presented []) with 0.
      rewrite !wrap32_add_0 by assumption. auto.
    + rewrite worker_step_wait_fails by assumption.
      cbn [state_of trace_of fst snd]. change (presented []) with 0.
      cbn [m_totalFrame m_nFrame m_nTick with_thrd].
      rewrite !wrap32_add_0 by assumption. auto.
  - rewrite worker_step_returned by assumption.
    cbn [state_of trace_of fst snd]. change (presented []) with 0.
    rewrite !wrap32_add_0 by assumption. auto.
  - rewrite worker_step_no_thread by assumption.
    cbn [state_of trace_of fst snd]. change (presented []) with 0.
    rewrite !wrap32_add_0 by assumption. auto.
Qed.

Lemma Resize_value cx cy s :
  Resize cx cy s = (tt, s, []) \/
  Resize cx cy s =
    (tt, match m_evt s with
         | Some _ => with_evt (Some true) (with_resize (pack cx cy) s)
         | None => with_resize (pack cx cy) s
         end, [SetEvent]).
Proof.
  destruct (Z.eq_dec cx (m_windowWidth s)) as [->|Hx];
    [destruct (Z.eq_dec cy (m_windowHeight s)) as [->|Hy]|].
  - left. apply Resize_unchanged.
  - right. apply Resize_changed. auto.
  - right. apply Resize_changed. auto.
Qed.

Lemma perform_counts a s :
  counters_in_range s ->
  let r := perform a s in
  counters_in_range (state_of r) /\
  m_totalFrame (state_of r) = wrap32 (m_totalFrame s + presented (trace_of r)) /\
  (is_poll a = false ->
   m_nFrame (state_of r) = wrap32 (m_nFrame s + presented (trace_of r)) /\
   m_nTick (state_of r) = m_nTick s).
Proof.
  intros B r. subst r. pose proof B as [Bt Bn].
  destruct a as [|cx cy|tick| |env]; cbn [perform is_poll].
  - rewrite Render_value. cbn [state_of trace_of fst snd].
    change (presented [SetEvent]) with 0.
    destruct (m_evt s); cbn [m_totalFrame m_nFrame m_nTick with_evt];
      rewrite !wrap32_add_0 by assumption; auto.
  - destruct (Resize_value cx cy s) as [E|E]; rewrite E;
      cbn [state_of trace_of fst snd].
    + change (presented []) with 0. rewrite !wrap32_add_0 by assumption. auto.
    + change (presented [SetEvent]) with 0.
      destruct (m_evt s);
        cbn [m_totalFrame m_nFrame m_nTick with_evt with_resize];
        rewrite !wrap32_add_0 by assumption; auto.
  - change ((_ <- GetFrameRate tick;; ret tt)%render s)
      with (perform (CallGetFrameRate tick) s).
    rewrite perform_poll. cbn [state_of trace_of fst snd].
    destruct (Z_le_gt_dec (wrap32 (tick - m_nTick s)) 500) as [Q|Q].
    + rewrite GetFrameRate_quiet by assumption.
      cbn [state_of trace_of fst snd]. change (presented []) with 0.
      rewrite !wrap32_add_0 by assumption. split; [exact B|].
      split; [reflexivity|discriminate].
    + rewrite GetFrameRate_sample by lia.
      cbn [state_of trace_of fst snd]. change (presented []) with 0.
      unfold counters_in_range. cbn [m_totalFrame m_nFrame with_frames].
      rewrite !wrap32_add_0 by assumption.
      split; [split; [exact Bt|split; [lia|reflexivity]]|].
      split; [reflexivity|discriminate].
  - rewrite request_stop_value.
    destruct (m_thrd s); cbn [state_of trace_of fst snd].
    + change (presented [SetEvent]) with 0.
      destruct (m_evt s);
        cbn [m_totalFrame m_nFrame m_nTick with_evt with_loop];
        rewrite !wrap32_add_0 by assumption; auto.
    + change (presented []) with 0. rewrite !wrap32_add_0 by assumption. auto.
  - destruct (worker_step_counts env s B) as (R & A1 & A2 & A3). auto.
Qed.

Lemma wrap32_add_wrap a b c : wrap32 (wrap32 (a + b) + c) = wrap32 (a + (b + c)).
Proof.
  unfold wrap32. rewrite Zplus_mod_idemp_l. f_equal. lia.
Qed.

Lemma run_counts acts :
  forall s,
    counters_in_range s ->
    let r := run acts s in
    counters_in_range (state_of r) /\
    m_totalFrame (state_of r) = wrap32 (m_totalFrame s + presented (trace_of r)) /\
    (existsb is_poll acts = false ->
     m_nFrame (state_of r) = wrap32 (m_nFrame s + presented (trace_of r)) /\
     m_nTick (state_of r) = m_nTick s).
Proof.
  induction acts as [|a acts IH]; intros s B r; subst r.
  - destruct B as [Bt Bn]. cbn [run ret state_of trace_of fst snd existsb].
    change (presented []) with 0. rewrite !wrap32_add_0 by assumption.
    unfold counters_in_range. auto.
  - rewrite run_cons. cbn [state_of trace_of fst snd existsb].
    destruct (perform_counts a s B) as (B1 & T1 & N1).
    destruct (IH _ B1) as (B2 & T2 & N2). cbv zeta in *.
    split; [exact B2|]. rewrite presented_app.
    split; [rewrite T2, T1; apply wrap32_add_wrap|].
    intros H. apply orb_false_iff in H. destruct H as [Ha Hacts].
    destruct (N1 Ha) as [N1a N1b]. destruct (N2 Hacts) as [N2a N2b].
    split; [rewrite N2a, N1a; apply wrap32_add_wrap|congruence].
Qed.

(** The counters count presented frames.  Over any sequence of calls and
    worker steps [m_totalFrame] advances, as an [unsigned], by the number
    of [Present] calls that succeeded; while [GetFrameRate] is not called
    [m_nFrame] advances by the same number, and the next call past 500 ms
    reports exactly these two values. *)
Theorem counters_count_presented_frames :
  forall (s : CD3D11Render) (acts : list action),
    counters_in_range s ->
    let r := run acts s in
    let k := presented (trace_of r) in
    counters_in_range (state_of r) /\
    m_totalFrame (state_of r) = wrap32 (m_totalFrame s + k) /\
    (existsb is_poll acts = false ->
     m_nFrame (state_of r) = wrap32 (m_nFrame s + k) /\
     forall tick,
       500 < wrap32 (tick - m_nTick s) ->
       result_of (GetFrameRate tick (state_of r)) =
         Some (wrap32 (m_nFrame s + k), wrap32 (tick - m_nTick s),
               wrap32 (m_totalFrame s + k))).
Proof.
  intros s acts B r k. subst r k.
  destruct (run_counts acts s B) as (R & T & N).
  split; [exact R|]. split; [exact T|].
  intros H. destruct (N H) as [Nf Nt]. split; [exact Nf|].
  intros tick L. rewrite GetFrameRate_sample by (rewrite Nt; exact L).
  cbn [result_of fst]. rewrite Nf, Nt, T. reflexivity.
Qed.

Lemma counters_count_presented_frames_witness :
  let acts := [Worker pass_ok; CallResize 1024 768; Worker pass_ok;
               Worker pass_ok; Worker pass_no_frame; CallRender] in
  result_of (GetFrameRate 600 (state_of (run acts session_800_600))) =
    Some (2, 600, 2).
Proof.
  intros acts.
  assert (B : counters_in_range session_800_600).
  { split; split; try discriminate; reflexivity. }
  destruct (counters_count_presented_frames session_800_600 acts B)
    as (_ & _ & H).
  destruct (H eq_refl) as (_ & G).
  exact (G 600 eq_refl).
Defined.

(** ** When the worker waits *)

(** A pass blocks in [WaitForSingleObject] exactly when [Map] or the pull
    has failed.  In particular a pass that applies a resize or presents a
    frame goes straight back to the head of the loop: the next frame is
    pulled without waiting for a notification. *)
Theorem worker_waits_only_without_frame :
  forall (env : LoopEnv) (s : CD3D11Render),
    let r := Loop_pass env s in
    (In WaitForSingleObject (trace_of r) <->
     existsb is_failed_map_or_pull (trace_of r) = true) /\
    (result_of r = InWait <-> In WaitForSingleObject (trace_of r)) /\
    (existsb is_successful_present (trace_of r) = true ->
     result_of r = AtLoopHead) /\
    (resize_calls (trace_of r) <> [] -> result_of r = AtLoopHead).
Proof.
  intros env s r. subst r.
  destruct (m_loop s) eqn:L.
  2:{ rewrite Loop_pass_stopped by assumption.
      cbn [result_of trace_of fst snd]. repeat split; intros H;
        try contradiction; try discriminate; try (now cbn in H). }
  destruct (pending (m_resize s)) eqn:P.
  { rewrite Loop_pass_resize by assumption. cbn [result_of trace_of fst snd].
    destruct (Resize_int_int_common (loop_resize env)
                (width_of (m_resize s)) (height_of (m_resize s))
                (with_resize 0 s)) as (_ & W & NW & _).
    unfold trace_of in *.
    assert (NF : existsb is_failed_map_or_pull
                   (snd (Resize_int_int (loop_resize env)
                           (width_of (m_resize s)) (height_of (m_resize s))
                           (with_resize 0 s))) = false).
    { destruct (existsb is_failed_map_or_pull _) eqn:E; [|reflexivity].
      apply existsb_exists in E. destruct E as (e & I & F).
      assert (X : existsb is_frame_work
                    (snd (Resize_int_int (loop_resize env)
                            (width_of (m_resize s)) (height_of (m_resize s))
                            (with_resize 0 s))) = true).
      { apply existsb_exists. exists e. split; [exact I|].
        destruct e; try discriminate; reflexivity. }
      congruence. }
    repeat split; intros H; try contradiction; try discriminate; congruence. }
  destruct (SUCCEEDED (hr_Map env)) eqn:Hm.
  2:{ rewrite Loop_pass_Map_fails by assumption.
      cbn [result_of trace_of fst snd existsb is_failed_map_or_pull In].
      rewrite FAILED_SUCCEEDED in Hm. apply negb_false_iff in Hm. rewrite Hm.
      (repeat split; intros H; try reflexivity; try discriminate; try (cbn; now auto);
     try (exfalso; repeat (destruct H as [H|H]; try discriminate); try contradiction; congruence)). }
  assert (Fm : FAILED (hr_Map env) = false).
  { rewrite FAILED_SUCCEEDED in Hm. now apply negb_true_iff in Hm. }
  destruct (FAILED (hr_Pull env)) eqn:Hp.
  { rewrite Loop_pass_Pull_fails by assumption.
    cbn [result_of trace_of fst snd existsb is_failed_map_or_pull In].
    rewrite Fm, Hp. cbn [orb].
    (repeat split; intros H; try reflexivity; try discriminate; try (cbn; now auto);
     try (exfalso; repeat (destruct H as [H|H]; try discriminate); try contradiction; congruence)). }
  rewrite Loop_pass_draw by assumption. rewrite SetupRtv_paths.
  destruct (SUCCEEDED (hr_GetBuffer env));
    [destruct (SUCCEEDED (hr_CreateRenderTargetView env))|];
    cbn [result_of trace_of fst snd app existsb is_failed_map_or_pull In];
    rewrite Fm, Hp; cbn [orb];
    (repeat split; intros H; try reflexivity; try discriminate; try (cbn; now auto);
     try (exfalso; repeat (destruct H as [H|H]; try discriminate); try contradiction; congruence)).
Qed.

(** ** Frame-ready notifications *)

Lemma with_evt_twice a b s : with_evt a (with_evt b s) = with_evt a s.
Proof. destruct s; reflexivity. Qed.

Lemma renders_value n :
  forall s,
    run (repeat CallRender (S n)) s =
      (tt, state_of (Render s), repeat SetEvent (S n)).
Proof.
  induction n as [|n IH]; intros s.
  - cbn [repeat]. rewrite run_cons. cbn [perform run].
    rewrite Render_value. reflexivity.
  - change (repeat CallRender (S (S n))) with (CallRender :: repeat CallRender (S n)).
    rewrite run_cons, IH. cbn [perform]. rewrite !Render_value.
    cbn [result_of state_of trace_of fst snd app repeat].
    destruct (m_evt s) eqn:E; cbn [m_evt with_evt]; rewrite ?E;
      rewrite ?with_evt_twice; reflexivity.
Qed.

(** Any number of [Render] calls amounts to one: the event is signalled
    and nothing else changes.  A worker blocked in the wait is released
    once and takes the signal with it, so the notifications buy a single
    wake-up, after which the event is unsignalled again. *)
Theorem render_notifications_coalesce :
  forall (s : CD3D11Render) (n : nat) (sig : bool) (env : LoopEnv),
    m_evt s = Some sig ->
    let r := run (repeat CallRender (S n)) s in
    state_of r = with_evt (Some true) s /\
    state_of r = state_of (Render s) /\
    trace_of r = repeat SetEvent (S n) /\
    (m_thrd s = Some InWait ->
     worker_step env (state_of r) =
       (tt, with_thrd (Some AtLoopHead) (with_evt (Some false) s), []) /\
     m_evt (state_of (worker_step env (state_of r))) = Some false).
Proof.
  intros s n sig env E r. subst r. rewrite renders_value.
  cbn [state_of trace_of fst snd]. rewrite Render_value, E.
  cbn [state_of fst snd]. repeat split.
  - rewrite worker_step_woken; [|destruct s; assumption|destruct s; reflexivity].
    rewrite with_evt_twice. reflexivity.
  - rewrite worker_step_woken; [|destruct s; assumption|destruct s; reflexivity].
    destruct s; reflexivity.
Qed.

Lemma render_notifications_coalesce_witness :
  let s := with_thrd (Some InWait) session_800_600 in
  state_of (run (repeat CallRender 3) s) = with_evt (Some true) s /\
  m_evt (state_of (worker_step pass_ok (state_of (run (repeat CallRender 3) s))))
    = Some false.
Proof.
  intros s.
  destruct (render_notifications_coalesce s 2 false pass_ok eq_refl)
    as (A & _ & _ & B).
  split; [exact A|exact (proj2 (B eq_refl))].
Defined.

(** ** Shutting down *)

Lemma join_done envs s :
  m_thrd s = Some Returned \/ m_thrd s = None -> join envs s = (true, s, []).
Proof.
  intros H. destruct envs as [|env rest]; cbn [join]; mrun;
    destruct H as [H|H]; rewrite H; reflexivity.
Qed.

Lemma join_step env rest s p :
  m_thrd s = Some p -> p <> Returned ->
  join (env :: rest) s =
    (result_of (join rest (state_of (worker_step env s))),
     state_of (join rest (state_of (worker_step env s))),
     trace_of (worker_step env s) ++
     trace_of (join rest (state_of (worker_step env s)))).
Proof.
  intros H N. cbn [join]. mrun. rewrite H.
  destruct p; [reflexivity|reflexivity|congruence].
Qed.

Lemma worker_step_stopped env s :
  m_thrd s = Some AtLoopHead -> m_loop s = false ->
  worker_step env s = (tt, with_thrd (Some Returned) s, []).
Proof.
  intros T L. rewrite worker_step_at_head by assumption.
  rewrite Loop_pass_stopped by assumption. reflexivity.
Qed.

(** Joining a worker that has been told to stop and, if it is blocked,
    signalled. *)
Lemma join_stopped env1 env2 more s :
  m_loop s = false -> m_evt s <> Some false ->
  let r := join (env1 :: env2 :: more) s in
  result_of r = true /\ trace_of r = [] /\
  (m_thrd (state_of r) = None \/ m_thrd (state_of r) = Some Returned) /\
  (m_evt (state_of r) = None <-> m_evt s = None) /\
  m_windowWidth (state_of r) = m_windowWidth s /\
  m_windowHeight (state_of r) = m_windowHeight s /\
  m_totalFrame (state_of r) = m_totalFrame s.
Proof.
  intros L E r. subst r.
  destruct (m_thrd s) as [[| |]|] eqn:T.
  - rewrite (join_step _ _ _ _ T) by discriminate.
    rewrite worker_step_stopped by assumption.
    cbn [state_of trace_of fst snd app].
    rewrite join_done by (left; destruct s; reflexivity).
    destruct s; cbn; tauto.
  - rewrite (join_step _ _ _ _ T) by discriminate.
    destruct (m_evt s) as [[|]|] eqn:V; [|congruence|].
    + rewrite worker_step_woken by assumption.
      cbn [state_of trace_of fst snd app].
      rewrite (join_step _ _ _ AtLoopHead)
        by (try discriminate; destruct s; reflexivity).
      rewrite worker_step_stopped by (destruct s; cbn in *; first [assumption|reflexivity]).
      cbn [state_of trace_of fst snd app].
      rewrite join_done by (left; destruct s; reflexivity).
      destruct s; cbn in *; repeat split; auto; discriminate.
    + rewrite worker_step_wait_fails by assumption.
      cbn [state_of trace_of fst snd app].
      rewrite (join_step _ _ _ AtLoopHead)
        by (try discriminate; destruct s; reflexivity).
      rewrite worker_step_stopped by (destruct s; cbn in *; first [assumption|reflexivity]).
      cbn [state_of trace_of fst snd app].
      rewrite join_done by (left; destruct s; reflexivity).
      destruct s; cbn in *; repeat split; auto.
  - rewrite join_done by (left; assumption). cbn. tauto.
  - rewrite join_done by (right; assumption). cbn. rewrite T. tauto.
Qed.

Lemma destructor_value envs s :
  destructor envs s =
    match m_thrd s with
    | Some _ =>
        let s1 := match m_evt s with
                  | Some _ => with_evt (Some true) (with_loop false s)
                  | None => with_loop false s
                  end in
        let r := join envs s1 in
        (result_of r,
         match m_evt (state_of r) with
         | Some _ => with_evt None (state_of r)
         | None => state_of r
         end,
         SetEvent :: trace_of r)
    | None =>
        (true, match m_evt s with Some _ => with_evt None s | None => s end, [])
    end.
Proof.
  unfold destructor. mrun. destruct (m_thrd s) eqn:T.
  - assert (J : (modify (with_loop false) ;; SetEvent_m_evt ;; join envs) s =
                (result_of (join envs
                   match m_evt s with
                   | Some _ => with_evt (Some true) (with_loop false s)
                   | None => with_loop false s
                   end),
                 state_of (join envs
                   match m_evt s with
                   | Some _ => with_evt (Some true) (with_loop false s)
                   | None => with_loop false s
                   end),
                 SetEvent :: trace_of (join envs
                   match m_evt s with
                   | Some _ => with_evt (Some true) (with_loop false s)
                   | None => with_loop false s
                   end))).
    { rewrite bind_modify. change SetEvent_m_evt with Render.
      rewrite (bind_value _ _ _ _ _ _ (Render_value _)).
      replace (m_evt (with_loop false s)) with (m_evt s) by (destruct s; reflexivity).
      reflexivity. }
    rewrite (bind_value _ _ _ _ _ _ J). mrun. cbv zeta.
    destruct (m_evt (state_of (join envs _))); mrun; mdone;
      rewrite app_nil_r; reflexivity.
  - mrun. destruct (m_evt s); mrun; mdone; reflexivity.
Qed.

(** The destructor ends within two steps of the worker, wherever the
    worker stands and whatever the environment answers: a blocked worker
    is released by the signal, and the first test of [m_loop] leaves
    [Loop].  On the way nothing is pulled, drawn, presented or resized,
    not even a resize that was pending; the only call is [SetEvent]. *)
Theorem shutdown_is_bounded :
  forall (s : CD3D11Render) (env1 env2 : LoopEnv) (more : list LoopEnv),
    let r := destructor (env1 :: env2 :: more) s in
    result_of r = true /\
    (m_thrd (state_of r) = None \/ m_thrd (state_of r) = Some Returned) /\
    m_evt (state_of r) = None /\
    forallb is_SetEvent (trace_of r) = true /\
    resize_calls (trace_of r) = [] /\
    m_windowWidth (state_of r) = m_windowWidth s /\
    m_windowHeight (state_of r) = m_windowHeight s /\
    m_totalFrame (state_of r) = m_totalFrame s.
Proof.
  intros s env1 env2 more r. subst r. rewrite destructor_value.
  destruct (m_thrd s) eqn:T.
  - cbv zeta.
    set (s1 := match m_evt s with
               | Some _ => with_evt (Some true) (with_loop false s)
               | None => with_loop false s
               end).
    assert (L1 : m_loop s1 = false) by (subst s1; destruct (m_evt s); destruct s; reflexivity).
    assert (E1 : m_evt s1 <> Some false).
    { subst s1. destruct (m_evt s) eqn:V; destruct s; cbn in *; congruence. }
    assert (W : m_windowWidth s1 = m_windowWidth s /\
                m_windowHeight s1 = m_windowHeight s /\
                m_totalFrame s1 = m_totalFrame s).
    { subst s1. destruct (m_evt s); destruct s; auto. }
    destruct W as (W1 & W2 & W3).
    destruct (join_stopped env1 env2 more s1 L1 E1)
      as (J1 & J2 & J3 & _ & J5 & J6 & J7).
    cbn [result_of state_of trace_of fst snd] in *.
    unfold result_of, state_of, trace_of in *.
    rewrite J2. split; [exact J1|].
    destruct (m_evt (snd (fst (join (env1 :: env2 :: more) s1)))) eqn:V;
      [destruct (snd (fst (join (env1 :: env2 :: more) s1))); cbn in *|];
      repeat split; auto; congruence.
  - cbn [result_of state_of trace_of fst snd].
    destruct (m_evt s) eqn:V; [destruct s; cbn in *|]; repeat split; auto.
Qed.

(** ** What the control thread does to the object *)

Lemma perform_control a s :
  is_control a = true ->
  let r := perform a s in
  forallb is_SetEvent (trace_of r) = true /\
  m_windowWidth (state_of r) = m_windowWidth s /\
  m_windowHeight (state_of r) = m_windowHeight s /\
  viewport (state_of r) = viewport s /\
  m_totalFrame (state_of r) = m_totalFrame s /\
  m_thrd (state_of r) = m_thrd s.
Proof.
  intros C r. subst r. destruct a as [|cx cy|tick| |env]; try discriminate.
  - change (perform CallRender s) with (Render s).
    rewrite Render_value. destruct (m_evt s); cbn; auto 10.
  - change (perform (CallResize cx cy) s) with (Resize cx cy s).
    destruct (Resize_value cx cy s) as [E|E]; rewrite E;
      [|destruct (m_evt s)]; cbn; auto 10.
  - rewrite perform_poll.
    destruct (Z_le_gt_dec (wrap32 (tick - m_nTick s)) 500) as [H|H].
    + rewrite GetFrameRate_quiet by assumption. cbn. auto 10.
    + rewrite GetFrameRate_sample by lia. cbn. auto 10.
  - change (perform CallStop s) with (request_stop s).
    rewrite request_stop_value.
    destruct (m_thrd s) eqn:T; [destruct (m_evt s)|]; cbn; auto 10.
Qed.

Lemma only_SetEvent_quiet t :
  forallb is_SetEvent t = true ->
  existsb is_frame_work t = false /\ resize_calls t = [].
Proof.
  induction t as [|e t IH]; [auto|].
  cbn [forallb]. intros H. apply andb_true_iff in H. destruct H as [He Ht].
  destruct (IH Ht) as [A B].
  destruct e; try discriminate. cbn. rewrite A. unfold resize_calls in B.
  rewrite B. auto.
Qed.

(** Once [Init] has returned, the calls the dialog makes ([Render],
    [Resize()], [GetFrameRate] and the request to stop) only signal the
    event: none of them touches the swap chain, the context or the
    camera, and the window size, the viewport and the frame total stay as
    the worker left them.  The Direct3D objects are used by the worker
    alone. *)
Theorem control_calls_leave_rendering_to_the_worker :
  forall (acts : list action) (s : CD3D11Render),
    forallb is_control acts = true ->
    let r := run acts s in
    forallb is_SetEvent (trace_of r) = true /\
    existsb is_frame_work (trace_of r) = false /\
    resize_calls (trace_of r) = [] /\
    m_windowWidth (state_of r) = m_windowWidth s /\
    m_windowHeight (state_of r) = m_windowHeight s /\
    viewport (state_of r) = viewport s /\
    m_totalFrame (state_of r) = m_totalFrame s /\
    m_thrd (state_of r) = m_thrd s.
Proof.
  intros acts s C.
  assert (G : forallb is_SetEvent (trace_of (run acts s)) = true /\
              m_windowWidth (state_of (run acts s)) = m_windowWidth s /\
              m_windowHeight (state_of (run acts s)) = m_windowHeight s /\
              viewport (state_of (run acts s)) = viewport s /\
              m_totalFrame (state_of (run acts s)) = m_totalFrame s /\
              m_thrd (state_of (run acts s)) = m_thrd s).
  { revert s. induction acts as [|a acts IH]; intros s; [cbn; auto 10|].
    cbn [forallb] in C. apply andb_true_iff in C. destruct C as [Ca Cr].
    rewrite run_cons. cbn [state_of trace_of fst snd].
    destruct (perform_control a s Ca) as (A1 & A2 & A3 & A4 & A5 & A6).
    destruct (IH Cr (state_of (perform a s))) as (B1 & B2 & B3 & B4 & B5 & B6).
    rewrite forallb_app, A1, B1. repeat split; congruence. }
  destruct G as (G1 & G2 & G3 & G4 & G5 & G6).
  destruct (only_SetEvent_quiet _ G1) as [Q1 Q2].
  cbv zeta. auto 10.
Qed.

Lemma control_calls_leave_rendering_to_the_worker_witness :
  let acts := [CallResize 1024 768; CallRender; CallGetFrameRate 2000; CallStop] in
  forallb is_SetEvent (trace_of (run acts session_800_600)) = true /\
  m_windowWidth (state_of (run acts session_800_600)) = 800.
Proof.
  intros acts.
  destruct (control_calls_leave_rendering_to_the_worker acts session_800_600
              eq_refl) as (A & _ & _ & B & _).
  split; [exact A|exact B].
Defined.

(** ** A refused resize *)

Lemma run_requests_same n :
  forall s,
    run (requests (repeat (m_windowWidth s, m_windowHeight s) n)) s = (tt, s, []).
Proof.
  induction n as [|n IH]; intros s; [reflexivity|].
  cbn [repeat requests map fst snd]. rewrite run_cons. cbn [perform].
  rewrite Resize_unchanged. cbn [state_of trace_of fst snd app].
  fold (requests (repeat (m_windowWidth s, m_windowHeight s) n)).
  rewrite IH. reflexivity.
Qed.

(** What a pass with no resize pending leaves alone. *)
Lemma Loop_pass_keeps_window env s :
  pending (m_resize s) = false ->
  let r := Loop_pass env s in
  resize_calls (trace_of r) = [] /\
  (forall vp, ~ In (RSSetViewports vp) (trace_of r)) /\
  viewport (state_of r) = viewport s /\
  m_windowWidth (state_of r) = m_windowWidth s /\
  m_windowHeight (state_of r) = m_windowHeight s /\
  m_resize (state_of r) = m_resize s /\
  m_loop (state_of r) = m_loop s.
Proof.
  intros P r. subst r.
  destruct (m_loop s) eqn:L.
  2:{ rewrite Loop_pass_stopped by assumption. cbn. rewrite L.
      repeat split; auto. }
  destruct (SUCCEEDED (hr_Map env)) eqn:Hm.
  2:{ rewrite Loop_pass_Map_fails by assumption.
      cbn [state_of trace_of fst snd]. rewrite L.
      repeat split; auto.
      intros vp [E|[E|E]]; try discriminate; contradiction. }
  destruct (FAILED (hr_Pull env)) eqn:Hp.
  { rewrite Loop_pass_Pull_fails by assumption.
    cbn [state_of trace_of fst snd]. rewrite L.
    repeat split; auto.
    intros vp I. cbn in I.
    repeat (destruct I as [I|I]; [discriminate|]). contradiction. }
  rewrite Loop_pass_draw by assumption. rewrite SetupRtv_paths.
  destruct (SUCCEEDED (hr_GetBuffer env));
    [destruct (SUCCEEDED (hr_CreateRenderTargetView env));
     [destruct (SUCCEEDED (hr_Present env))|]|];
    cbn [result_of state_of trace_of fst snd app];
    (split; [reflexivity|]);
    (split; [intros vp I; cbn in I;
             repeat (destruct I as [I|I]; [discriminate|]); contradiction|]);
    destruct s; cbn in *; repeat split; auto.
Qed.

Lemma perform_keeps_window a s w h :
  m_windowWidth s = w -> m_windowHeight s = h ->
  pending (m_resize s) = false ->
  (forall cx cy, a = CallResize cx cy -> cx = w /\ cy = h) ->
  let r := perform a s in
  resize_calls (trace_of r) = [] /\
  (forall vp, ~ In (RSSetViewports vp) (trace_of r)) /\
  viewport (state_of r) = viewport s /\
  m_windowWidth (state_of r) = w /\
  m_windowHeight (state_of r) = h /\
  pending (m_resize (state_of r)) = false.
Proof.
  intros W H P A r. subst r.
  destruct a as [|cx cy|tick| |env].
  - change (perform CallRender s) with (Render s). rewrite Render_value.
    cbn [state_of trace_of fst snd].
    split; [reflexivity|].
    split; [intros vp [E|E]; [discriminate|contradiction]|].
    destruct (m_evt s); destruct s; cbn in *; auto.
  - destruct (A cx cy eq_refl) as [-> ->]. subst w h.
    change (perform (CallResize (m_windowWidth s) (m_windowHeight s)) s)
      with (Resize (m_windowWidth s) (m_windowHeight s) s).
    rewrite Resize_unchanged. cbn. repeat split; auto.
  - rewrite perform_poll.
    destruct (Z_le_gt_dec (wrap32 (tick - m_nTick s)) 500) as [D|D].
    + rewrite GetFrameRate_quiet by assumption. cbn. repeat split; auto.
    + rewrite GetFrameRate_sample by lia. cbn [state_of trace_of fst snd].
      split; [reflexivity|]. split; [intros vp I; contradiction|].
      destruct s; cbn in *; auto.
  - change (perform CallStop s) with (request_stop s).
    rewrite request_stop_value.
    destruct (m_thrd s) eqn:T; cbn [state_of trace_of fst snd].
    + split; [reflexivity|].
      split; [intros vp [E|E]; [discriminate|contradiction]|].
      destruct (m_evt s); destruct s; cbn in *; auto.
    + repeat split; auto.
  - change (perform (Worker env) s) with (worker_step env s).
    destruct (m_thrd s) as [[| |]|] eqn:T.
    + rewrite worker_step_at_head by assumption.
      cbn [state_of trace_of fst snd].
      destruct (Loop_pass_keeps_window env s P) as (A1 & A2 & A3 & A4 & A5 & A6 & _).
      split; [exact A1|]. split; [exact A2|].
      rewrite <- A3, <- W, <- H, <- A4, <- A5, <- P, <- A6.
      destruct (state_of (Loop_pass env s)); cbn; auto.
    + destruct (m_evt s) as [[|]|] eqn:V.
      * rewrite worker_step_woken by assumption. cbn [state_of trace_of fst snd].
        split; [reflexivity|]. split; [intros vp I; contradiction|].
        destruct s; cbn in *; auto.
      * rewrite worker_step_blocked by assumption. cbn. repeat split; auto.
      * rewrite worker_step_wait_fails by assumption.
        cbn [state_of trace_of fst snd].
        split; [reflexivity|]. split; [intros vp I; contradiction|].
        destruct s; cbn in *; auto.
    + rewrite worker_step_returned by assumption. cbn. repeat split; auto.
    + rewrite worker_step_no_thread by assumption. cbn. repeat split; auto.
Qed.

Lemma run_keeps_window later :
  forall s w h,
    m_windowWidth s = w -> m_windowHeight s = h ->
    pending (m_resize s) = false ->
    (forall cx cy, In (CallResize cx cy) later -> cx = w /\ cy = h) ->
    let r := run later s in
    resize_calls (trace_of r) = [] /\
    (forall vp, ~ In (RSSetViewports vp) (trace_of r)) /\
    viewport (state_of r) = viewport s /\
    m_windowWidth (state_of r) = w /\
    m_windowHeight (state_of r) = h /\
    pending (m_resize (state_of r)) = false.
Proof.
  induction later as [|a later IH]; intros s w h W H P A r; subst r.
  - cbn. repeat split; auto.
  - rewrite run_cons. cbn [state_of trace_of fst snd].
    destruct (perform_keeps_window a s w h W H P) as (B1 & B2 & B3 & B4 & B5 & B6).
    { intros cx cy E. apply A. left. exact E. }
    destruct (IH (state_of (perform a s)) w h B4 B5 B6) as (C1 & C2 & C3 & C4 & C5 & C6).
    { intros cx cy I. apply A. right. exact I. }
    split.
    { unfold resize_calls in *. rewrite flat_map_app, B1, C1. reflexivity. }
    split.
    { intros vp I. apply in_app_or in I. destruct I as [I|I];
        [exact (B2 vp I)|exact (C2 vp I)]. }
    split; [congruence|]. auto.
Qed.

(** A resize the swap chain refused is not tried again.  The pass has
    already recorded the requested size as the window size and cleared
    the register, so notifications that carry this same size are
    swallowed by [Resize()]: they neither write the register nor signal
    the event.  Over every later schedule of dialog calls and worker
    steps in which no notification carries another size, no pass enters
    [Resize(int, int)], no viewport is bound, and the viewport stays the
    stale one.  Only a notification with a different size gets the
    worker to resize again. *)
Theorem refused_resize_is_not_retried :
  forall (env : LoopEnv) (s : CD3D11Render) (n : nat) (later : list action),
    m_thrd s = Some AtLoopHead -> m_loop s = true ->
    pending (m_resize s) = true ->
    resize_fails (loop_resize env) = true ->
    let w := width_of (m_resize s) in
    let h := height_of (m_resize s) in
    let s1 := state_of (worker_step env s) in
    (forall cx cy, In (CallResize cx cy) later -> cx = w /\ cy = h) ->
    let r := run later s1 in
    viewport s1 = viewport s /\
    pending (m_resize s1) = false /\
    run (requests (repeat (w, h) n)) s1 = (tt, s1, []) /\
    (forall env' : LoopEnv,
       resize_calls (trace_of (worker_step env' s1)) = [] /\
       viewport (state_of (worker_step env' s1)) = viewport s) /\
    resize_calls (trace_of r) = [] /\
    (forall vp, ~ In (RSSetViewports vp) (trace_of r)) /\
    viewport (state_of r) = viewport s /\
    m_windowWidth (state_of r) = w /\ m_windowHeight (state_of r) = h /\
    (forall (cx cy : Z) (env' : LoopEnv),
       0 <= cx <= 32767 -> 0 <= cy <= 32767 -> cx <> w \/ cy <> h ->
       m_loop (state_of r) = true ->
       resize_calls
         (trace_of (Loop_pass env' (state_of (Resize cx cy (state_of r)))))
       = [(cx, cy)]).
Proof.
  intros env s n later T L P F w h s1 A r.
  destruct (Resize_int_int_fails (loop_resize env) w h (with_resize 0 s) F)
    as (_ & S & _).
  assert (E : s1 = with_window w h (with_resize 0 s)).
  { subst s1. rewrite worker_step_at_head by assumption.
    rewrite Loop_pass_resize by assumption.
    change (width_of (m_resize s)) with w. change (height_of (m_resize s)) with h.
    cbn [result_of state_of trace_of fst snd]. rewrite S.
    apply with_thrd_same. destruct s; exact T. }
  assert (W : m_windowWidth s1 = w /\ m_windowHeight s1 = h).
  { rewrite E. destruct s; auto. }
  destruct W as [W1 W2].
  assert (P1 : pending (m_resize s1) = false).
  { rewrite E. destruct s; reflexivity. }
  assert (V1 : viewport s1 = viewport s).
  { rewrite E. destruct s; reflexivity. }
  clearbody s1.
  destruct (run_keeps_window later s1 w h W1 W2 P1 A)
    as (R1 & R2 & R3 & R4 & R5 & R6).
  fold r in R1, R2, R3, R4, R5, R6.
  split; [exact V1|]. split; [exact P1|]. split.
  { rewrite <- W1, <- W2. apply run_requests_same. }
  split.
  { intros env'.
    destruct (perform_keeps_window (Worker env') s1 w h W1 W2 P1)
      as (B1 & _ & B3 & _); [intros cx cy E'; discriminate|].
    change (perform (Worker env') s1) with (worker_step env' s1) in B1, B3.
    split; [exact B1|congruence]. }
  split; [exact R1|]. split; [exact R2|]. split; [congruence|].
  split; [exact R4|]. split; [exact R5|].
  intros cx cy env' Bx By D L2.
  rewrite Resize_changed by (rewrite R4, R5; exact D).
  cbn [state_of fst snd].
  set (s2 := match m_evt (state_of r) with
             | Some _ => with_evt (Some true) (with_resize (pack cx cy) (state_of r))
             | None => with_resize (pack cx cy) (state_of r)
             end).
  assert (M2 : m_resize s2 = pack cx cy)
    by (subst s2; destruct (m_evt (state_of r)); reflexivity).
  assert (L3 : m_loop s2 = true)
    by (subst s2; destruct (m_evt (state_of r)); exact L2).
  assert (P2 : pending (m_resize s2) = true) by (rewrite M2; apply pending_pack).
  rewrite Loop_pass_resize by assumption. cbn [trace_of snd].
  pose proof (unpack_pack cx cy Bx By) as U. unfold unpack in U.
  rewrite <- M2 in U. injection U as Uw Uh. rewrite Uw, Uh.
  destruct (Resize_int_int_common (loop_resize env') cx cy (with_resize 0 s2))
    as (C & _).
  exact C.
Qed.

Lemma refused_resize_is_not_retried_witness :
  let s := state_of (Resize 1024 768 session_800_600) in
  let s1 := state_of (worker_step pass_resize_refused s) in
  let later := [CallResize 1024 768; Worker pass_ok; CallRender; Worker pass_ok;
                CallResize 1024 768; Worker pass_ok] in
  viewport s1 = viewport s /\
  run (requests (repeat (1024, 768) 3)) s1 = (tt, s1, []) /\
  resize_calls (trace_of (run later s1)) = [] /\
  viewport (state_of (run later s1)) = viewport s.
Proof.
  intros s s1 later.
  assert (A : forall cx cy, In (CallResize cx cy) later -> cx = 1024 /\ cy = 768).
  { intros cx cy I. cbn in I.
    repeat (destruct I as [I|I]; [try discriminate; injection I as <- <-; auto|]).
    contradiction. }
  destruct (refused_resize_is_not_retried pass_resize_refused s 3 later
              eq_refl eq_refl eq_refl eq_refl A)
    as (V & _ & B & _ & R & _ & V2 & _).
  split; [exact V|]. split; [exact B|]. split; [exact R|exact V2].
Defined.

(** ** Sizes beyond the fields of the register *)

Lemma testbit_PENDING n : 0 <= n -> Z.testbit PENDING n = (n =? 31).
Proof.
  intros H. change PENDING with (2 ^ 31). rewrite Z.pow2_bits_eqb by lia.
  apply Z.eqb_sym.
Qed.

Lemma unpack_pack_bits cx cy :
  unpack (pack cx cy) =
    (Z.lor cx (Z.shiftr cy 16) mod 32768, cy mod 32768).
Proof.
  unfold unpack, width_of, height_of, pack, wrap32.
  rewrite !land_7fff. change 32768 with (2 ^ 15). f_equal.
  - apply Z.bits_inj'. intros n Hn.
    destruct (Z.ltb_spec n 15) as [L|L].
    + rewrite !Z.mod_pow2_bits_low by lia.
      rewrite Z.shiftr_spec by lia.
      rewrite Z.mod_pow2_bits_low by lia.
      rewrite !Z.lor_spec, Z.shiftl_spec, Z.shiftr_spec by lia.
      rewrite testbit_PENDING by lia.
      replace (n + 16 - 16) with n by lia.
      destruct (Z.eqb_spec (n + 16) 31); [lia|]. reflexivity.
    + rewrite !Z.mod_pow2_bits_high by lia. reflexivity.
  - apply Z.bits_inj'. intros n Hn.
    destruct (Z.ltb_spec n 15) as [L|L].
    + rewrite !Z.mod_pow2_bits_low by lia.
      rewrite !Z.lor_spec, Z.shiftl_spec by lia.
      rewrite testbit_PENDING by lia.
      rewrite (Z.testbit_neg_r cx) by lia.
      destruct (Z.eqb_spec n 31); [lia|]. reflexivity.
    + rewrite !Z.mod_pow2_bits_high by lia. reflexivity.
Qed.

Lemma shiftr16_small cy : 0 <= cy < 65536 -> Z.shiftr cy 16 = 0.
Proof.
  intros H. rewrite Z.shiftr_div_pow2 by lia. apply Z.div_small.
  change (2 ^ 16) with 65536. lia.
Qed.

(** A client size that does not fit the two 15-bit fields is not
    refused: each direction is cut to its low 15 bits, bits of a height
    of 65536 or more spilling into the width, and the worker resizes the
    swap chain to what is left.  A window 32768 wide is resized to width
    zero. *)
Theorem oversized_request_is_truncated :
  forall (s : CD3D11Render) (env : LoopEnv) (cx cy : Z),
    m_loop s = true ->
    cx <> m_windowWidth s \/ cy <> m_windowHeight s ->
    let w := Z.lor cx (Z.shiftr cy 16) mod 32768 in
    let h := cy mod 32768 in
    let r := Loop_pass env (state_of (Resize cx cy s)) in
    unpack (pack cx cy) = (w, h) /\
    (0 <= cy < 65536 -> w = cx mod 32768) /\
    resize_calls (trace_of r) = [(w, h)] /\
    m_windowWidth (state_of r) = w /\ m_windowHeight (state_of r) = h /\
    pending (m_resize (state_of r)) = false.
Proof.
  intros s env cx cy L D w h r.
  pose proof (unpack_pack_bits cx cy) as U. fold w h in U.
  split; [exact U|]. split.
  { intros B. subst w. rewrite shiftr16_small by assumption.
    rewrite Z.lor_0_r. reflexivity. }
  subst r. rewrite Resize_changed by assumption. cbn [state_of fst snd].
  set (s1 := match m_evt s with
             | Some _ => with_evt (Some true) (with_resize (pack cx cy) s)
             | None => with_resize (pack cx cy) s
             end).
  assert (R1 : m_resize s1 = pack cx cy) by (subst s1; destruct (m_evt s); reflexivity).
  assert (L1 : m_loop s1 = true) by (subst s1; destruct (m_evt s); exact L).
  assert (P1 : pending (m_resize s1) = true) by (rewrite R1; apply pending_pack).
  rewrite Loop_pass_resize by assumption.
  cbn [state_of trace_of fst snd].
  unfold unpack in U. rewrite <- R1 in U. injection U as Uw Uh.
  rewrite Uw, Uh.
  destruct (Resize_int_int_common (loop_resize env) w h (with_resize 0 s1))
    as (C1 & _ & _ & C4 & C5 & C6 & _).
  unfold state_of, trace_of in *. rewrite C1, C4, C5, C6.
  repeat split; reflexivity.
Qed.

Lemma oversized_request_is_truncated_witness :
  resize_calls
    (trace_of (Loop_pass pass_ok (state_of (Resize 32768 600 session_800_600))))
  = [(0, 600)].
Proof.
  assert (D : 32768 <> m_windowWidth session_800_600 \/
              600 <> m_windowHeight session_800_600) by (left; discriminate).
  pose proof (oversized_request_is_truncated session_800_600 pass_ok 32768 600
       eq_refl D) as H.
  cbv zeta in H.
  destruct H as (_ & _ & C & _).
  exact C.
Defined.

(** ** A successful [Init] *)

Lemma CreateSampler_value hr s :
  CreateSampler hr s = (hr, s, [CreateSamplerState hr]).
Proof. unfold CreateSampler. mrun. mdone. reflexivity. Qed.

(** ** The calls of [Init], path by path *)

Lemma CreateShaders_trace env s :
  trace_of (CreateShaders env s) =
    D3DCompile "VS" [] (hr_CompileVS env) ::
    if FAILED (hr_CompileVS env) then [] else
    CreateVertexShader (hr_CreateVertexShader env) ::
    if FAILED (hr_CreateVertexShader env) then [] else
    D3DCompile "PS"
      [("MONO", if m_bMono s then "1" else "0");
       ("SCALE", scale_macro (m_bitdepth s))]%string (hr_CompilePS env) ::
    if FAILED (hr_CompilePS env) then [] else
    CreatePixelShader (hr_CreatePixelShader env) ::
    if FAILED (hr_CreatePixelShader env) then [] else
    CreateInputLayout (hr_CreateInputLayout env) ::
    if FAILED (hr_CreateInputLayout env) then [] else
    [CreateBuffer (hr_CreateBuffer env)].
Proof.
  unfold CreateShaders. mrun.
  destruct (FAILED (hr_CompileVS env)); [mdone; reflexivity|mrun].
  destruct (FAILED (hr_CreateVertexShader env)); [mdone; reflexivity|mrun].
  destruct (FAILED (hr_CompilePS env)); [mdone; reflexivity|mrun].
  destruct (FAILED (hr_CreatePixelShader env)); [mdone; reflexivity|mrun].
  destruct (FAILED (hr_CreateInputLayout env)); [mdone; reflexivity|mrun].
  mdone. reflexivity.
Qed.

Lemma Init_trace env s :
  let tex_format :=
    if m_bMono s
    then (if 8 <? m_bitdepth s then DXGI_FORMAT_R16_UNORM else DXGI_FORMAT_R8_UNORM)
    else (if 8 <? m_bitdepth s then DXGI_FORMAT_R16G16B16A16_UNORM
          else DXGI_FORMAT_R8G8B8A8_UNORM) in
  trace_of (Init env s) =
    D3D11CreateDeviceAndSwapChain
      (if 8 <? m_bitdepth s then DXGI_FORMAT_R10G10B10A2_UNORM
       else DXGI_FORMAT_R8G8B8A8_UNORM) (hr_CreateDeviceAndSwapChain env) ::
    if FAILED (hr_CreateDeviceAndSwapChain env) then [] else
    (if has_IDXGIDevice1 env then [SetMaximumFrameLatency 1] else []) ++
    CreateTexture2D (m_imageWidth s) (m_imageHeight s) tex_format
      (hr_CreateTexture2D env) ::
    if FAILED (hr_CreateTexture2D env) then [] else
    CreateShaderResourceView tex_format (hr_CreateShaderResourceView env) ::
    if FAILED (hr_CreateShaderResourceView env) then [] else
    trace_of (CreateShaders (init_shaders env) s) ++
    if shader_creation_fails (init_shaders env) then [] else
    CreateSamplerState (hr_CreateSamplerState env) ::
    if FAILED (hr_CreateSamplerState env) then [] else
    trace_of (Resize_int_int (init_resize env)
                (fst (init_client env)) (snd (init_client env)) s) ++
    [PSSetSamplers; IASetInputLayout; IASetPrimitiveTopology;
     IASetVertexBuffers; VSSetShader; PSSetShader; CreateEvent; StartThread].
Proof.
  intros tex_format.
  set (rhs := D3D11CreateDeviceAndSwapChain _ _ :: _).
  change (wp (Init env) s (fun _ _ t => t = rhs)). subst rhs.
  unfold Init. do 4 wp_step.
  destruct (FAILED (hr_CreateDeviceAndSwapChain env)); [wp_step; reflexivity|].
  wp_step.
  assert (G : wp (if has_IDXGIDevice1 env
                  then call (SetMaximumFrameLatency 1) else ret tt) s
                (fun _ s1 t1 =>
                   s1 = s /\
                   t1 = if has_IDXGIDevice1 env
                        then [SetMaximumFrameLatency 1] else [])).
  { destruct (has_IDXGIDevice1 env); wp_step; auto. }
  unfold wp at 1. unfold wp in G. destruct G as [-> ->].
  fold tex_format.
  do 2 wp_step.
  destruct (FAILED (hr_CreateTexture2D env));
    [wp_step; cbn [app]; rewrite ?app_nil_r; reflexivity|].
  do 2 wp_step.
  destruct (FAILED (hr_CreateShaderResourceView env));
    [wp_step; cbn [app]; rewrite ?app_nil_r; reflexivity|].
  wp_step. unfold wp at 1.
  destruct (CreateShaders_result (init_shaders env) s) as (R & -> & _).
  rewrite R.
  destruct (shader_creation_fails (init_shaders env));
    [wp_step; cbn [app]; rewrite ?app_nil_r; reflexivity|].
  wp_step. unfold wp at 1. rewrite CreateSampler_value.
  cbn [result_of state_of trace_of fst snd].
  destruct (FAILED (hr_CreateSamplerState env));
    [wp_step; cbn [app]; rewrite ?app_nil_r; reflexivity|].
  wp_step. unfold wp at 1.
  repeat wp_step. cbn [app]. rewrite ?app_nil_r.
  repeat (rewrite <- ?app_assoc; cbn [app]). reflexivity.
Qed.

Ltac wp_go :=
  lazymatch goal with
  | |- wp (bind _ _) _ _ => apply wp_bind
  | |- wp (ret _) _ _ => apply wp_ret
  | |- wp get _ _ => apply wp_get
  | |- wp (modify _) _ _ => apply wp_modify
  | |- wp (call _) _ _ => apply wp_call
  end; cbv beta.

Lemma Init_state env s :
  creation_fails env = false ->
  let rs := Resize_int_int (init_resize env)
              (fst (init_client env)) (snd (init_client env)) s in
  result_of (Init env s) = true /\
  state_of (Init env s) =
    with_thrd (Some AtLoopHead) (with_evt (Some false) (state_of rs)).
Proof.
  intros F rs. unfold creation_fails in F.
  apply orb_false_iff in F. destruct F as [F F5].
  apply orb_false_iff in F. destruct F as [F F4].
  apply orb_false_iff in F. destruct F as [F F3].
  apply orb_false_iff in F. destruct F as [F1 F2].
  change (wp (Init env) s
            (fun b s' _ =>
               b = true /\
               s' = with_thrd (Some AtLoopHead)
                      (with_evt (Some false) (state_of rs)))).
  unfold Init. do 4 wp_go. rewrite F1. wp_go.
  assert (G : state_of ((if has_IDXGIDevice1 env
                         then call (SetMaximumFrameLatency 1) else ret tt) s) = s).
  { destruct (has_IDXGIDevice1 env); reflexivity. }
  unfold wp at 1. rewrite G.
  do 2 wp_go. rewrite F2. do 2 wp_go. rewrite F3.
  wp_go. unfold wp at 1.
  destruct (CreateShaders_result (init_shaders env) s) as (R & S & _).
  rewrite R, S, F4.
  wp_go. unfold wp at 1. rewrite CreateSampler_value.
  cbn [result_of state_of trace_of fst snd]. rewrite F5.
  wp_go. unfold wp at 1. fold rs.
  repeat wp_go. split; reflexivity.
Qed.





Ltac use_flags :=
  repeat match goal with
         | H : FAILED ?x = _ |- context [FAILED ?x] => rewrite H
         end.

Ltac eval_trace :=
  repeat (cbn [app stops_at_failure existsb is_failed_creation creation_result
               orb negb]; use_flags).

Lemma Resize_int_int_trace env w h s :
  trace_of (Resize_int_int env w h s) =
    ResizeCall w h :: OMSetRenderTargets 0 :: GetDesc (hr_GetDesc env) ::
    if FAILED (hr_GetDesc env) then [] else
    ResizeBuffers BUFFERCOUNT w h (hr_ResizeBuffers env) ::
    if FAILED (hr_ResizeBuffers env) then [] else
    [RSSetViewports (fit_viewport (m_imageWidth s) (m_imageHeight s) w h)].
Proof.
  destruct (FAILED (hr_GetDesc env)) eqn:H1;
    [rewrite Resize_int_int_GetDesc_fails by assumption; reflexivity|].
  destruct (FAILED (hr_ResizeBuffers env)) eqn:H2;
    [rewrite Resize_int_int_ResizeBuffers_fails by assumption; reflexivity|].
  rewrite Resize_int_int_succeeds by assumption. reflexivity.
Qed.

Lemma stops_at_failure_app t rest :
  stops_at_failure t = true -> stops_at_failure rest = true ->
  stops_at_failure
    (t ++ if existsb is_failed_creation t then [] else rest) = true.
Proof.
  intros Ht Hr. induction t as [|e t IH]; [exact Hr|].
  cbn [app stops_at_failure existsb] in *.
  destruct (is_failed_creation e); cbn [orb].
  - destruct t; [reflexivity|discriminate].
  - apply IH. exact Ht.
Qed.

(** [Init] and [CreateShaders] give up at the first creation call that
    fails: the failed call is the last call made, so nothing is created
    on top of an object that does not exist.  [Init] returns [false]
    exactly when some creation call it made has failed; the [HRESULT]s of
    [GetDesc] and [ResizeBuffers] play no part in that. *)
Theorem init_stops_at_the_first_failure :
  forall (env : InitEnv) (s : CD3D11Render),
    let r := Init env s in
    result_of r = negb (creation_fails env) /\
    stops_at_failure (trace_of r) = true /\
    existsb is_failed_creation (trace_of r) = creation_fails env /\
    stops_at_failure (trace_of (CreateShaders (init_shaders env) s)) = true /\
    existsb is_failed_creation (trace_of (CreateShaders (init_shaders env) s)) =
      shader_creation_fails (init_shaders env).
Proof.
  intros env s r. subst r. split.
  { destruct (creation_fails env) eqn:F.
    - destruct (Init_fails env s F) as (R & _). exact R.
    - destruct (Init_state env s F) as (R & _). exact R. }
  assert (S : stops_at_failure (trace_of (CreateShaders (init_shaders env) s)) = true /\
              existsb is_failed_creation
                (trace_of (CreateShaders (init_shaders env) s)) =
                shader_creation_fails (init_shaders env)).
  { rewrite CreateShaders_trace. unfold shader_creation_fails.
    destruct (FAILED (hr_CompileVS (init_shaders env))) eqn:S1;
      [eval_trace; auto|].
    destruct (FAILED (hr_CreateVertexShader (init_shaders env))) eqn:S2;
      [eval_trace; auto|].
    destruct (FAILED (hr_CompilePS (init_shaders env))) eqn:S3;
      [eval_trace; auto|].
    destruct (FAILED (hr_CreatePixelShader (init_shaders env))) eqn:S4;
      [eval_trace; auto|].
    destruct (FAILED (hr_CreateInputLayout (init_shaders env))) eqn:S5;
      [eval_trace; auto|].
    destruct (FAILED (hr_CreateBuffer (init_shaders env))) eqn:S6;
      eval_trace; auto. }
  split; [|split; [|exact S]].
  - rewrite Init_trace, Resize_int_int_trace.
    destruct S as [S1 S2].
    destruct (FAILED (hr_CreateDeviceAndSwapChain env)) eqn:H1; [eval_trace; auto|].
    destruct (FAILED (hr_CreateTexture2D env)) eqn:H2;
      [destruct (has_IDXGIDevice1 env); eval_trace; auto|].
    destruct (FAILED (hr_CreateShaderResourceView env)) eqn:H3;
      [destruct (has_IDXGIDevice1 env); eval_trace; auto|].
    assert (A : forall rest,
               stops_at_failure rest = true ->
               stops_at_failure
                 (trace_of (CreateShaders (init_shaders env) s) ++
                  (if shader_creation_fails (init_shaders env) then [] else rest))
               = true).
    { intros rest Hr. rewrite <- S2. apply stops_at_failure_app; assumption. }
    destruct (has_IDXGIDevice1 env); eval_trace; apply A;
      destruct (FAILED (hr_CreateSamplerState env)) eqn:H5; eval_trace;
      destruct (FAILED (hr_GetDesc (init_resize env)));
      try destruct (FAILED (hr_ResizeBuffers (init_resize env))); reflexivity.
  - rewrite Init_trace, Resize_int_int_trace. unfold creation_fails.
    destruct S as [S1 S2].
    destruct (FAILED (hr_CreateDeviceAndSwapChain env)) eqn:H1; [eval_trace; auto|].
    destruct (FAILED (hr_CreateTexture2D env)) eqn:H2;
      [destruct (has_IDXGIDevice1 env); eval_trace; auto|].
    destruct (FAILED (hr_CreateShaderResourceView env)) eqn:H3;
      [destruct (has_IDXGIDevice1 env); eval_trace; auto|].
    destruct (has_IDXGIDevice1 env); eval_trace; rewrite existsb_app, S2;
      (destruct (shader_creation_fails (init_shaders env)); [reflexivity|]);
      destruct (FAILED (hr_CreateSamplerState env)) eqn:H5; eval_trace;
      try reflexivity;
      destruct (FAILED (hr_GetDesc (init_resize env)));
      try destruct (FAILED (hr_ResizeBuffers (init_resize env))); reflexivity.
Qed.

(** ** The texture and the pixels written into it *)

Lemma pull_bits_ext s s' :
  m_bMono s' = m_bMono s -> m_bitdepth s' = m_bitdepth s ->
  pull_bits s' = pull_bits s.
Proof. unfold pull_bits. intros -> ->. reflexivity. Qed.

Lemma Resize_int_int_keeps_format env w h s :
  m_bMono (state_of (Resize_int_int env w h s)) = m_bMono s /\
  m_bitdepth (state_of (Resize_int_int env w h s)) = m_bitdepth s /\
  forall bits hr,
    ~ In (Toupcam_PullImageWithRowPitch bits hr)
         (trace_of (Resize_int_int env w h s)).
Proof.
  destruct (FAILED (hr_GetDesc env)) eqn:H1;
    [rewrite Resize_int_int_GetDesc_fails by assumption|
     destruct (FAILED (hr_ResizeBuffers env)) eqn:H2;
     [rewrite Resize_int_int_ResizeBuffers_fails by assumption|
      rewrite Resize_int_int_succeeds by assumption]];
    (split; [destruct s; reflexivity|]; split; [destruct s; reflexivity|]);
    intros bits hr I; cbn in I;
    repeat (destruct I as [I|I]; [discriminate|]); exact I.
Qed.

Lemma Loop_pass_keeps_format env s :
  m_bMono (state_of (Loop_pass env s)) = m_bMono s /\
  m_bitdepth (state_of (Loop_pass env s)) = m_bitdepth s /\
  forall bits hr,
    In (Toupcam_PullImageWithRowPitch bits hr) (trace_of (Loop_pass env s)) ->
    bits = pull_bits s.
Proof.
  destruct (m_loop s) eqn:L.
  2:{ rewrite Loop_pass_stopped by assumption. cbn. tauto. }
  destruct (pending (m_resize s)) eqn:P.
  { rewrite Loop_pass_resize by assumption. cbn [state_of trace_of fst snd].
    destruct (Resize_int_int_keeps_format (loop_resize env)
                (width_of (m_resize s)) (height_of (m_resize s))
                (with_resize 0 s)) as (A & B & C).
    unfold state_of, trace_of in *. rewrite A, B.
    split; [destruct s; reflexivity|]. split; [destruct s; reflexivity|].
    intros bits hr I. destruct (C bits hr I). }
  destruct (SUCCEEDED (hr_Map env)) eqn:Hm.
  2:{ rewrite Loop_pass_Map_fails by assumption. cbn.
      repeat split; auto. intros bits hr [I|[I|I]]; try discriminate; contradiction. }
  destruct (FAILED (hr_Pull env)) eqn:Hp.
  { rewrite Loop_pass_Pull_fails by assumption.
    cbn [state_of trace_of fst snd]. repeat split; auto.
    intros bits hr I. cbn in I.
    destruct I as [I|[I|I]]; [discriminate|congruence|].
    repeat (destruct I as [I|I]; [discriminate|]). contradiction. }
  rewrite Loop_pass_draw by assumption. rewrite SetupRtv_paths.
  destruct (SUCCEEDED (hr_GetBuffer env));
    [destruct (SUCCEEDED (hr_CreateRenderTargetView env));
     [destruct (SUCCEEDED (hr_Present env))|]|];
    cbn [result_of state_of trace_of fst snd app];
    (split; [destruct s; reflexivity|]; split; [destruct s; reflexivity|]);
    intros bits hr I; cbn in I;
    (destruct I as [I|[I|I]]; [discriminate|congruence|]);
    repeat (destruct I as [I|I]; [discriminate|]); contradiction.
Qed.

Lemma perform_keeps_format a s :
  m_bMono (state_of (perform a s)) = m_bMono s /\
  m_bitdepth (state_of (perform a s)) = m_bitdepth s /\
  forall bits hr,
    In (Toupcam_PullImageWithRowPitch bits hr) (trace_of (perform a s)) ->
    bits = pull_bits s.
Proof.
  destruct a as [|cx cy|tick| |env].
  - change (perform CallRender s) with (Render s). rewrite Render_value.
    cbn [state_of trace_of fst snd].
    split; [destruct (m_evt s); destruct s; reflexivity|].
    split; [destruct (m_evt s); destruct s; reflexivity|].
    intros bits hr [I|I]; [discriminate|contradiction].
  - change (perform (CallResize cx cy) s) with (Resize cx cy s).
    destruct (Resize_value cx cy s) as [E|E]; rewrite E;
      cbn [state_of trace_of fst snd].
    + repeat split; auto. intros bits hr I. contradiction.
    + split; [destruct (m_evt s); destruct s; reflexivity|].
      split; [destruct (m_evt s); destruct s; reflexivity|].
      intros bits hr [I|I]; [discriminate|contradiction].
  - rewrite perform_poll.
    destruct (Z_le_gt_dec (wrap32 (tick - m_nTick s)) 500) as [H|H].
    + rewrite GetFrameRate_quiet by assumption. cbn. repeat split; auto.
      intros bits hr I. contradiction.
    + rewrite GetFrameRate_sample by lia. cbn [state_of trace_of fst snd].
      split; [destruct s; reflexivity|]. split; [destruct s; reflexivity|].
      intros bits hr I. contradiction.
  - change (perform CallStop s) with (request_stop s).
    rewrite request_stop_value.
    destruct (m_thrd s) eqn:T; cbn [state_of trace_of fst snd].
    + split; [destruct (m_evt s); destruct s; reflexivity|].
      split; [destruct (m_evt s); destruct s; reflexivity|].
      intros bits hr [I|I]; [discriminate|contradiction].
    + repeat split; auto. intros bits hr I. contradiction.
  - change (perform (Worker env) s) with (worker_step env s).
    destruct (m_thrd s) as [[| |]|] eqn:T.
    + rewrite worker_step_at_head by assumption.
      cbn [state_of trace_of fst snd].
      destruct (Loop_pass_keeps_format env s) as (A & B & C).
      split; [rewrite <- A; destruct (state_of (Loop_pass env s)); reflexivity|].
      split; [rewrite <- B; destruct (state_of (Loop_pass env s)); reflexivity|].
      exact C.
    + destruct (m_evt s) as [[|]|] eqn:V.
      * rewrite worker_step_woken by assumption. cbn [state_of trace_of fst snd].
        split; [destruct s; reflexivity|]. split; [destruct s; reflexivity|].
        intros bits hr I. contradiction.
      * rewrite worker_step_blocked by assumption. cbn. repeat split; auto.
        intros bits hr I. contradiction.
      * rewrite worker_step_wait_fails by assumption.
        cbn [state_of trace_of fst snd].
        split; [destruct s; reflexivity|]. split; [destruct s; reflexivity|].
        intros bits hr I. contradiction.
    + rewrite worker_step_returned by assumption. cbn. repeat split; auto.
      intros bits hr I. contradiction.
    + rewrite worker_step_no_thread by assumption. cbn. repeat split; auto.
      intros bits hr I. contradiction.
Qed.

Lemma run_keeps_format acts :
  forall s,
    m_bMono (state_of (run acts s)) = m_bMono s /\
    m_bitdepth (state_of (run acts s)) = m_bitdepth s /\
    forall bits hr,
      In (Toupcam_PullImageWithRowPitch bits hr) (trace_of (run acts s)) ->
      bits = pull_bits s.
Proof.
  induction acts as [|a acts IH]; intros s.
  - cbn. repeat split; auto. intros bits hr I. contradiction.
  - rewrite run_cons. cbn [state_of trace_of fst snd].
    destruct (perform_keeps_format a s) as (A & B & C).
    destruct (IH (state_of (perform a s))) as (A' & B' & C').
    split; [congruence|]. split; [congruence|].
    intros bits hr I. apply in_app_or in I. destruct I as [I|I].
    + exact (C bits hr I).
    + rewrite (C' bits hr I). apply pull_bits_ext; assumption.
Qed.

Lemma Init_keeps_format env s :
  m_bMono (state_of (Init env s)) = m_bMono s /\
  m_bitdepth (state_of (Init env s)) = m_bitdepth s.
Proof.
  destruct (creation_fails env) eqn:F.
  - destruct (Init_fails env s F) as (_ & S & _). rewrite S. auto.
  - destruct (Init_state env s F) as (_ & S). rewrite S.
    destruct (Resize_int_int_keeps_format (init_resize env)
                (fst (init_client env)) (snd (init_client env)) s) as (A & B & _).
    rewrite <- A, <- B.
    destruct (state_of (Resize_int_int _ _ _ s)); auto.
Qed.

Lemma Init_texture env s :
  let tex_format :=
    if m_bMono s
    then (if 8 <? m_bitdepth s then DXGI_FORMAT_R16_UNORM else DXGI_FORMAT_R8_UNORM)
    else (if 8 <? m_bitdepth s then DXGI_FORMAT_R16G16B16A16_UNORM
          else DXGI_FORMAT_R8G8B8A8_UNORM) in
  Forall (fun e => match e with
                   | CreateTexture2D w h fmt _ =>
                       w = m_imageWidth s /\ h = m_imageHeight s /\ fmt = tex_format
                   | CreateShaderResourceView fmt _ => fmt = tex_format
                   | _ => True
                   end) (trace_of (Init env s)).
Proof.
  intros tex_format. rewrite Init_trace, Resize_int_int_trace, CreateShaders_trace.
  fold tex_format.
  repeat first
    [ apply Forall_nil
    | apply Forall_cons; [first [exact I | auto] |]
    | apply Forall_app; split
    | match goal with
      | |- Forall _ (if ?b then _ else _) => destruct b
      end ].
Qed.

(** The texture [Init] creates has the size of the image and a format
    whose texels are as wide as the pixels [Loop] asks the camera for, in
    every pass of every schedule: 8 or 16 bits for a mono camera, 32 or
    64 for colour.  The shader-resource view is created with the format
    of the texture. *)
Theorem texture_matches_pulled_pixels :
  forall (env : InitEnv) (s : CD3D11Render) (acts : list action)
         (w h : Z) (fmt : DXGI_FORMAT) (hr : HRESULT),
    In (CreateTexture2D w h fmt hr) (trace_of (Init env s)) ->
    w = m_imageWidth s /\ h = m_imageHeight s /\
    format_bits fmt = pull_bits s /\
    (forall fmt' hr',
       In (CreateShaderResourceView fmt' hr') (trace_of (Init env s)) ->
       fmt' = fmt) /\
    (forall bits hr',
       In (Toupcam_PullImageWithRowPitch bits hr')
          (trace_of (run acts (state_of (Init env s)))) ->
       bits = format_bits fmt).
Proof.
  intros env s acts w h fmt hr I.
  pose proof (Init_texture env s) as T. cbv zeta in T.
  rewrite Forall_forall in T.
  destruct (T _ I) as (-> & -> & ->).
  assert (B : format_bits
                (if m_bMono s
                 then if 8 <? m_bitdepth s
                      then DXGI_FORMAT_R16_UNORM else DXGI_FORMAT_R8_UNORM
                 else if 8 <? m_bitdepth s
                      then DXGI_FORMAT_R16G16B16A16_UNORM
                      else DXGI_FORMAT_R8G8B8A8_UNORM) = pull_bits s).
  { unfold pull_bits. destruct (m_bMono s), (8 <? m_bitdepth s); reflexivity. }
  split; [reflexivity|]. split; [reflexivity|]. split; [exact B|]. split.
  - intros fmt' hr' I'. exact (T _ I').
  - intros bits hr' I'.
    destruct (run_keeps_format acts (state_of (Init env s))) as (_ & _ & C).
    destruct (Init_keeps_format env s) as [M D].
    rewrite (C bits hr' I'), B. apply pull_bits_ext; assumption.
Qed.

Lemma texture_matches_pulled_pixels_witness :
  format_bits DXGI_FORMAT_R16G16B16A16_UNORM
    = pull_bits (constructor false 12 0 1280 960) /\
  forall bits hr',
    In (Toupcam_PullImageWithRowPitch bits hr')
       (trace_of (run [Worker pass_ok; Worker pass_ok]
                    (state_of (Init init_ok (constructor false 12 0 1280 960))))) ->
    bits = 64.
Proof.
  assert (I : In (CreateTexture2D 1280 960 DXGI_FORMAT_R16G16B16A16_UNORM S_OK)
                 (trace_of (Init init_ok (constructor false 12 0 1280 960)))).
  { rewrite Init_trace. right.
    change (FAILED (hr_CreateDeviceAndSwapChain init_ok)) with false.
    cbv iota. apply in_or_app. right. left. reflexivity. }
  destruct (texture_matches_pulled_pixels init_ok
              (constructor false 12 0 1280 960)
              [Worker pass_ok; Worker pass_ok] _ _ _ _ I)
    as (_ & _ & A & _ & B).
  split; [exact A|exact B].
Defined.

(** ** The viewport at an integer zoom and along the limiting direction *)

Lemma round_pos_multiple p k d :
  0 < k < 2 ^ (p - 1) -> 0 < d -> round_pos p (k * d) d = inject_Z k.
Proof.
  intros [Hk Hb] Hd. unfold round_pos.
  assert (Hp : 0 <= p - 1).
  { destruct (Z_lt_le_dec (p - 1) 0) as [H|H]; [|assumption].
    rewrite Z.pow_neg_r in Hb by assumption. lia. }
  assert (Hn : 0 < k * d) by nia.
  destruct (ilog2_lower (k * d) d Hn Hd) as [L1 _].
  set (e := ilog2 (k * d) d) in *.
  assert (He : e < p - 1).
  { destruct (Z_lt_le_dec e 0) as [H|H]; [lia|].
    specialize (L1 H).
    assert (P2 : 2 ^ e <= k) by nia.
    apply (Z.pow_lt_mono_r_iff 2); lia. }
  set (j := p - 1 - e).
  destruct (Z.leb_spec 0 j) as [Hj|Hj]; [|unfold j in Hj; lia].
  assert (Pj : 0 < 2 ^ j) by (apply Z.pow_pos_nonneg; lia).
  replace (k * d * 2 ^ j) with (k * 2 ^ j * d) by ring.
  rewrite rne_exact by lia.
  transitivity (Qred (inject_Z k)).
  - apply Qred_complete. unfold Qeq, inject_Z; cbn [Qnum Qden].
    rewrite Z2Pos.id by lia. ring.
  - apply Qcanon.Qred_identity. cbn [Qnum Qden inject_Z]. apply Z.gcd_1_r.
Qed.

Lemma fdiv_multiple k d :
  0 < k < 2 ^ 23 -> 0 < d -> k * d < 2 ^ 23 ->
  fdiv (of_int (k * d)) (of_int d) = inject_Z k.
Proof.
  intros Hk Hd Hb.
  rewrite !of_int_exact by nia.
  unfold fdiv, round, Qdiv, Qinv, Qmult, inject_Z; cbn [Qnum Qden].
  destruct d as [|d|d]; try lia. cbn [Qnum Qden].
  destruct k as [|k|k]; try lia.
  change (Z.pos k * Z.pos d * 1) with (Z.pos (k * d) * 1).
  rewrite Z.mul_1_r. cbn [Pos.mul].
  change (Z.pos (k * d)) with (Z.pos k * Z.pos d).
  apply (round_pos_multiple 24); lia.
Qed.

Lemma to_int_inject_Z n : to_int (inject_Z n) = n.
Proof. unfold to_int, inject_Z; cbn [Qnum Qden]. apply Z.quot_1_r. Qed.

Lemma fmul_int a b :
  Z.abs (a * b) < 2 ^ 23 -> fmul (inject_Z a) (inject_Z b) = inject_Z (a * b).
Proof.
  intros H. unfold fmul.
  change (inject_Z a * inject_Z b)%Q with (inject_Z (a * b)).
  apply round_int. exact H.
Qed.

(** At an integer zoom (the window [k] times the image in both
    directions, [k = 1] being the image at its own size) the arithmetic in
    [float] is exact: the viewport is the whole window, with no margin
    and no pixel lost to rounding. *)
Theorem integer_zoom_fills_the_window :
  forall (env : ResizeEnv) (s : CD3D11Render) (k : Z),
    resize_fails env = false ->
    1 <= k -> 1 <= m_imageWidth s -> 1 <= m_imageHeight s ->
    k * m_imageWidth s < 2 ^ 23 -> k * m_imageHeight s < 2 ^ 23 ->
    let Ww := k * m_imageWidth s in
    let Wh := k * m_imageHeight s in
    viewport_rect (m_imageWidth s) (m_imageHeight s) Ww Wh = (0, 0, Ww, Wh) /\
    viewport (state_of (Resize_int_int env Ww Wh s)) =
      Some {| TopLeftX := 0%Q; TopLeftY := 0%Q;
              Width := inject_Z Ww; Height := inject_Z Wh;
              MinDepth := 0%Q; MaxDepth := 1%Q |}.
Proof.
  intros env s k F Hk Hw Hh Bw Bh Ww Wh.
  set (Iw := m_imageWidth s) in *. set (Ih := m_imageHeight s) in *.
  assert (Kb : 0 < k < 2 ^ 23) by nia.
  assert (R : viewport_rect Iw Ih Ww Wh = (0, 0, Ww, Wh)).
  { unfold viewport_rect. subst Ww Wh.
    rewrite !fdiv_multiple by lia.
    assert (M : fmin (inject_Z k) (inject_Z k) = inject_Z k)
      by (unfold fmin; destruct (fltb _ _); reflexivity).
    rewrite M. rewrite !of_int_exact by lia.
    rewrite !fmul_int by (rewrite Z.abs_eq; nia).
    rewrite !to_int_inject_Z.
    rewrite (Z.mul_comm Iw k), (Z.mul_comm Ih k), !Z.sub_diag.
    reflexivity. }
  split; [exact R|].
  unfold resize_fails in F. apply orb_false_iff in F. destruct F as [F1 F2].
  rewrite Resize_int_int_succeeds by assumption.
  cbn [state_of fst snd]. fold Iw Ih.
  unfold fit_viewport. rewrite R.
  replace (viewport (with_viewport _ _)) with
    (Some {| TopLeftX := of_int 0; TopLeftY := of_int 0;
             Width := of_int Ww; Height := of_int Wh;
             MinDepth := 0%Q; MaxDepth := 1%Q |})
    by (destruct s; reflexivity).
  rewrite !of_int_exact by (subst Ww Wh; rewrite ?Z.abs_eq; try nia; cbn; lia).
  reflexivity.
Qed.

Lemma integer_zoom_fills_the_window_witness :
  viewport_rect 1280 960 2560 1920 = (0, 0, 2560, 1920).
Proof.
  exact (proj1 (integer_zoom_fills_the_window resize_ok
                  (constructor false 8 0 1280 960) 2 eq_refl
                  ltac:(lia) ltac:(cbn; lia) ltac:(cbn; lia)
                  ltac:(cbn; lia) ltac:(cbn; lia))).
Defined.

Lemma limiting_extent (I W : Z) (o s : Q) :
  1 <= I <= 4194304 -> 1 <= W <= 4194304 ->
  (inject_Z W / inject_Z I <= o)%Q ->
  let e := Qmin (inject_Z W / inject_Z I) o in
  (e * (1 - (1 # 16777216)) <= s)%Q -> (s <= e * (1 + (1 # 16777216)))%Q ->
  let v := to_int (fmul (of_int I) s) in
  Z.quot (W - v) 2 = 0 /\ W - 1 <= v <= W.
Proof.
  intros BI BW Ho e Ls Us v.
  pose proof (inject_Z_pos I ltac:(lia)) as PI.
  pose proof (inject_Z_pos W ltac:(lia)) as PW.
  assert (Ee : (e == inject_Z W / inject_Z I)%Q) by (apply Q.min_l; exact Ho).
  assert (Pq : (0 < inject_Z W / inject_Z I)%Q).
  { apply Qlt_shift_div_l; [exact PI|]. lra. }
  assert (Pe : (0 < e)%Q) by (rewrite Ee; exact Pq).
  destruct (extent_tolerance I e s ltac:(change (2 ^ 23) with 8388608; lia)
              Pe Ls Us) as (Pv & Lv & Uv).
  fold v in Pv, Lv, Uv.
  assert (EM : (inject_Z I * e == inject_Z W)%Q).
  { rewrite Ee. rewrite Qmult_comm. unfold Qdiv. rewrite <- Qmult_assoc.
    rewrite (Qmult_comm (/ inject_Z I)). rewrite Qmult_inv_r by lra. ring. }
  set (M := (inject_Z I * e)%Q) in *.
  assert (B : (inject_Z W <= 4194304)%Q).
  { change 4194304%Q with (inject_Z 4194304). rewrite <- Zle_Qle. lia. }
  assert (U : (inject_Z v < inject_Z (W + 1))%Q).
  { rewrite inject_Z_plus. change (inject_Z 1) with 1%Q. lra. }
  assert (L : (inject_Z (W - 2) < inject_Z v)%Q).
  { unfold Z.sub. rewrite inject_Z_plus. change (inject_Z (- (2))) with (- (2))%Q. lra. }
  rewrite <- Zlt_Qlt in U, L.
  split; [|lia].
  apply Z.quot_small. lia.
Qed.

(** The viewport reaches from edge to edge in the direction that limits
    the scale, up to one pixel.  If the window is relatively narrower
    than the image, the left margin is zero and the viewport is as wide
    as the window or one pixel less; likewise for a window relatively
    lower than the image.  The pixel is really lost at some sizes: a
    1920 x 1080 image in a 1000 x 1000 window gets a viewport 999 wide. *)
Theorem viewport_spans_the_limiting_direction :
  forall Iw Ih Ww Wh : Z,
    1 <= Iw <= 4194304 -> 1 <= Ih <= 4194304 ->
    1 <= Ww <= 4194304 -> 1 <= Wh <= 4194304 ->
    let vp := viewport_rect Iw Ih Ww Wh in
    let vpX := fst (fst (fst vp)) in
    let vpY := snd (fst (fst vp)) in
    let vpW := snd (fst vp) in
    let vpH := snd vp in
    (Ww * Ih <= Wh * Iw -> vpX = 0 /\ Ww - 1 <= vpW <= Ww) /\
    (Wh * Iw <= Ww * Ih -> vpY = 0 /\ Wh - 1 <= vpH <= Wh) /\
    viewport_rect 1920 1080 1000 1000 = (0, 219, 999, 562).
Proof.
  intros Iw Ih Ww Wh BIw BIh BWw BWh vp vpX vpY vpW vpH.
  subst vpX vpY vpW vpH vp. unfold viewport_rect. cbn [fst snd].
  pose proof (inject_Z_pos Iw ltac:(lia)) as PIw.
  pose proof (inject_Z_pos Ih ltac:(lia)) as PIh.
  pose proof (inject_Z_pos Ww ltac:(lia)) as PWw.
  pose proof (inject_Z_pos Wh ltac:(lia)) as PWh.
  destruct (scale_tolerance Iw Ih Ww Wh
              ltac:(change (2 ^ 23) with 8388608; lia)
              ltac:(change (2 ^ 23) with 8388608; lia)
              ltac:(change (2 ^ 23) with 8388608; lia)
              ltac:(change (2 ^ 23) with 8388608; lia)) as (Pe & Ls & Us).
  set (sc := fmin (fdiv (of_int Ww) (of_int Iw)) (fdiv (of_int Wh) (of_int Ih))) in *.
  split; [|split; [|vm_compute; reflexivity]].
  - intros C.
    assert (Ho : (inject_Z Ww / inject_Z Iw <= inject_Z Wh / inject_Z Ih)%Q).
    { apply Qle_shift_div_l; [exact PIh|]. unfold Qdiv.
      rewrite <- Qmult_assoc, (Qmult_comm (/ inject_Z Iw)), Qmult_assoc.
      apply Qle_shift_div_r; [exact PIw|].
      rewrite <- !inject_Z_mult. rewrite <- Zle_Qle. lia. }
    exact (limiting_extent Iw Ww (inject_Z Wh / inject_Z Ih) sc BIw BWw Ho Ls Us).
  - intros C.
    assert (Ho : (inject_Z Wh / inject_Z Ih <= inject_Z Ww / inject_Z Iw)%Q).
    { apply Qle_shift_div_l; [exact PIw|]. unfold Qdiv.
      rewrite <- Qmult_assoc, (Qmult_comm (/ inject_Z Ih)), Qmult_assoc.
      apply Qle_shift_div_r; [exact PIh|].
      rewrite <- !inject_Z_mult. rewrite <- Zle_Qle. lia. }
    assert (Ls' : (Qmin (inject_Z Wh / inject_Z Ih) (inject_Z Ww / inject_Z Iw)
                   * (1 - (1 # 16777216)) <= sc)%Q)
      by (rewrite Q.min_comm; exact Ls).
    assert (Us' : (sc <= Qmin (inject_Z Wh / inject_Z Ih) (inject_Z Ww / inject_Z Iw)
                   * (1 + (1 # 16777216)))%Q)
      by (rewrite Q.min_comm; exact Us).
    exact (limiting_extent Ih Wh (inject_Z Ww / inject_Z Iw) sc BIh BWh Ho Ls' Us').
Qed.

Lemma viewport_spans_the_limiting_direction_witness :
  fst (fst (fst (viewport_rect 1280 960 1920 1080))) = 240 /\
  snd (fst (fst (viewport_rect 1280 960 1920 1080))) = 0 /\
  1079 <= snd (viewport_rect 1280 960 1920 1080) <= 1080.
Proof.
  destruct (viewport_spans_the_limiting_direction 1280 960 1920 1080
              ltac:(lia) ltac:(lia) ltac:(lia) ltac:(lia)) as (_ & B & _).
  destruct (B ltac:(lia)) as [Y H].
  split; [vm_compute; reflexivity|]. split; [exact Y|exact H].
Defined.

(** ** A notification that races with the wait *)

Lemma Loop_pass_no_frame env s :
  m_loop s = true -> pending (m_resize s) = false ->
  SUCCEEDED (hr_Map env) = false \/ FAILED (hr_Pull env) = true ->
  result_of (Loop_pass env s) = InWait /\ state_of (Loop_pass env s) = s.
Proof.
  intros L P [H|H].
  - rewrite Loop_pass_Map_fails by assumption. auto.
  - destruct (SUCCEEDED (hr_Map env)) eqn:Hm.
    + rewrite Loop_pass_Pull_fails by assumption. auto.
    + rewrite Loop_pass_Map_fails by assumption. auto.
Qed.

(** No wake-up is lost.  When a pass finds no frame, the notification
    may arrive before the worker reaches [WaitForSingleObject] or after
    it has blocked there: both orders end in the same state, with the
    event signalled, and the worker's next step leaves the wait and goes
    back to the head of the loop. *)
Theorem notification_is_never_lost :
  forall (s : CD3D11Render) (env : LoopEnv) (sig : bool),
    m_thrd s = Some AtLoopHead -> m_loop s = true ->
    pending (m_resize s) = false -> m_evt s = Some sig ->
    SUCCEEDED (hr_Map env) = false \/ FAILED (hr_Pull env) = true ->
    let early := state_of (run [CallRender; Worker env] s) in
    let late := state_of (run [Worker env; CallRender] s) in
    early = late /\
    m_thrd late = Some InWait /\ m_evt late = Some true /\
    forall env' : LoopEnv,
      worker_step env' late =
        (tt, with_thrd (Some AtLoopHead) (with_evt (Some false) late), []).
Proof.
  intros s env sig T L P V H early late.
  assert (E1 : early = with_thrd (Some InWait) (with_evt (Some true) s)).
  { subst early. rewrite !run_cons. cbn [run ret state_of fst snd].
    change (perform CallRender s) with (Render s).
    rewrite Render_value, V. cbn [state_of fst snd].
    change (perform (Worker env) (with_evt (Some true) s))
      with (worker_step env (with_evt (Some true) s)).
    rewrite worker_step_at_head by (destruct s; exact T).
    destruct (Loop_pass_no_frame env (with_evt (Some true) s)) as [R S];
      [destruct s; exact L|destruct s; exact P|exact H|].
    cbn [state_of fst snd]. unfold state_of, result_of in *. rewrite R, S.
    reflexivity. }
  assert (E2 : late = with_evt (Some true) (with_thrd (Some InWait) s)).
  { subst late. rewrite !run_cons. cbn [run ret state_of fst snd].
    change (perform (Worker env) s) with (worker_step env s).
    rewrite worker_step_at_head by exact T.
    destruct (Loop_pass_no_frame env s L P H) as [R S].
    cbn [state_of fst snd]. unfold state_of, result_of in *. rewrite R, S.
    change (perform CallRender (with_thrd (Some InWait) s))
      with (Render (with_thrd (Some InWait) s)).
    rewrite Render_value.
    replace (m_evt (with_thrd (Some InWait) s)) with (Some sig)
      by (destruct s; cbn in *; congruence).
    reflexivity. }
  assert (EQ : early = late) by (rewrite E1, E2; destruct s; reflexivity).
  split; [exact EQ|].
  assert (T2 : m_thrd late = Some InWait) by (rewrite E2; destruct s; reflexivity).
  assert (V2 : m_evt late = Some true) by (rewrite E2; destruct s; reflexivity).
  split; [exact T2|]. split; [exact V2|].
  intros env'. apply worker_step_woken; assumption.
Qed.

Lemma notification_is_never_lost_witness :
  state_of (run [CallRender; Worker pass_no_frame] session_800_600)
  = state_of (run [Worker pass_no_frame; CallRender] session_800_600).
Proof.
  exact (proj1 (notification_is_never_lost session_800_600 pass_no_frame false
                  eq_refl eq_refl eq_refl eq_refl (or_intror eq_refl))).
Defined.

(** ** A window with no extent *)

Lemma round_zero_num p (x : Q) : Qnum x = 0 -> round p x = 0%Q.
Proof. unfold round. intros ->. reflexivity. Qed.

Lemma fdiv_pos a b : 1 <= a -> 1 <= b -> (0 < fdiv (of_int a) (of_int b))%Q.
Proof.
  intros Ha Hb.
  destruct (of_int_rel a Ha) as (Pa & _). destruct (of_int_rel b Hb) as (Pb & _).
  assert (Pq : (0 < of_int a / of_int b)%Q) by (apply Qlt_shift_div_l; lra).
  destruct (round24_rel _ Pq) as [L _]. unfold fdiv.
  assert (K : (0 < (of_int a / of_int b) * (1 - (1 # 16777216)))%Q).
  { apply Qmult_lt_0_compat; [exact Pq|reflexivity]. }
  lra.
Qed.

Lemma fmin_zero_l (q : Q) : (q = 0%Q \/ (0 < q)%Q) -> fmin 0%Q q = 0%Q.
Proof.
  intros [->|H]; [reflexivity|].
  unfold fmin, fltb. destruct (Qle_bool q 0) eqn:E; [|reflexivity].
  apply Qle_bool_iff in E. lra.
Qed.

Lemma fmin_zero_r (q : Q) : (q = 0%Q \/ (0 < q)%Q) -> fmin q 0%Q = 0%Q.
Proof.
  intros [->|H]; [reflexivity|].
  unfold fmin, fltb. destruct (Qle_bool 0 q) eqn:E; [reflexivity|].
  assert (Qle_bool 0 q = true) by (apply Qle_bool_iff; lra). congruence.
Qed.

Lemma fdiv_zero_or_pos a b :
  0 <= a -> 1 <= b ->
  fdiv (of_int a) (of_int b) = 0%Q \/ (0 < fdiv (of_int a) (of_int b))%Q.
Proof.
  intros Ha Hb. destruct (Z.eq_dec a 0) as [->|N].
  - left. reflexivity.
  - right. apply fdiv_pos; lia.
Qed.

Lemma fmul_zero_r (x : Q) : to_int (fmul x 0%Q) = 0.
Proof.
  unfold fmul. rewrite round_zero_num; [reflexivity|].
  unfold Qmult; cbn [Qnum Qden]. apply Z.mul_0_r.
Qed.

(** A window without width or without height gets an empty viewport:
    the scale is zero, both extents are zero, and the empty rectangle is
    placed at the middle of the direction that is left.  Nothing is
    divided by the window size, so the case needs no guard. *)
Theorem empty_window_gives_empty_viewport :
  forall Iw Ih W : Z,
    1 <= Iw -> 1 <= Ih -> 0 <= W ->
    viewport_rect Iw Ih 0 W = (0, Z.quot W 2, 0, 0) /\
    viewport_rect Iw Ih W 0 = (Z.quot W 2, 0, 0, 0).
Proof.
  intros Iw Ih W BIw BIh BW. unfold viewport_rect.
  change (fdiv (of_int 0) (of_int Iw)) with 0%Q.
  change (fdiv (of_int 0) (of_int Ih)) with 0%Q.
  rewrite fmin_zero_l by (apply fdiv_zero_or_pos; assumption).
  rewrite fmin_zero_r by (apply fdiv_zero_or_pos; assumption).
  rewrite !fmul_zero_r, !Z.sub_0_r. split; reflexivity.
Qed.

Lemma empty_window_gives_empty_viewport_witness :
  viewport_rect 1280 960 0 600 = (0, 300, 0, 0).
Proof.
  exact (proj1 (empty_window_gives_empty_viewport 1280 960 600
                  ltac:(lia) ltac:(lia) ltac:(lia))).
Defined.
